(** * reminder-for-discord: calendar reminder posted to a Discord webhook

    A shallow embedding of [main.go] (both revisions kept in the
    repository) together with the parts of the Go standard library the
    program calls: the [time] package (civil calendar, [Date], [Parse],
    [Format], [After], [Before], [Add]) and [fmt.Sprintf]. *)

From Stdlib Require Import ZArith String Ascii List Bool Lia.
Import ListNotations.
Local Open Scope string_scope.
Local Open Scope Z_scope.

(** ** The [time] package, as far as the program uses it *)

Module time.

(** A location is a fixed offset east of UTC, in seconds.  The only zone
    the program ever asks for is Asia/Tokyo, which has had neither
    daylight saving nor any other transition since 1951. *)
Record Location := FixedZone { zoneName : string; zoneOffset : Z }.

Definition UTC : Location := FixedZone "UTC" 0.

(** An instant: seconds since the Unix epoch, nanoseconds within the
    second ([0 <= nsec < 10^9]) and the location used for display. *)
Record Time := mkTime { unixSec : Z; nsec : Z; loc : Location }.

(** A duration is a number of nanoseconds. *)
Definition Duration := Z.
Definition Second : Duration := 1000000000.
Definition Hour : Duration := 3600 * Second.

Definition secondsPerDay : Z := 86400.
Definition daysPer400Years : Z := 146097.
Definition daysPer100Years : Z := 36524.
Definition daysPer4Years : Z := 1461.

(** Days from 0001-01-01 to 1970-01-01 in the proleptic Gregorian
    calendar. *)
Definition unixEpochDays : Z := 719162.

(** [norm hi lo base]: carry [lo] into [hi] so that [0 <= lo < base]. *)
Definition norm (hi lo base : Z) : Z * Z := (hi + lo / base, lo mod base).

Definition isLeap (year : Z) : bool :=
  (year mod 4 =? 0) && (negb (year mod 100 =? 0) || (year mod 400 =? 0)).

(** [daysBefore m]: days in a non-leap year before month [m + 1]. *)
Definition daysBefore (m : Z) : Z :=
  match m with
  | 0 => 0 | 1 => 31 | 2 => 59 | 3 => 90 | 4 => 120 | 5 => 151 | 6 => 181
  | 7 => 212 | 8 => 243 | 9 => 273 | 10 => 304 | 11 => 334 | 12 => 365
  | _ => 0
  end.

Definition daysIn (month year : Z) : Z :=
  if (month =? 2) && isLeap year then 29
  else daysBefore month - daysBefore (month - 1).

(** Days from 0001-01-01 to January 1 of [year]. *)
Definition daysSinceEpoch (year : Z) : Z :=
  let y := year - 1 in
  let n400 := y / 400 in
  let y := y - 400 * n400 in
  let n100 := y / 100 in
  let y := y - 100 * n100 in
  let n4 := y / 4 in
  let y := y - 4 * n4 in
  daysPer400Years * n400 + daysPer100Years * n100 + daysPer4Years * n4
  + 365 * y.

(** Day number (from 0001-01-01) of a civil date whose month is in
    range; the day may overflow the month. *)
Definition civilDays (year month day : Z) : Z :=
  daysSinceEpoch year + daysBefore (month - 1)
  + (if isLeap year && (3 <=? month) then 1 else 0)
  + (day - 1).

(** [Date]: the instant of a civil date and clock reading in a
    location; out-of-range fields are normalised (October 32 is
    November 1). *)
Definition Date (year month day hour min sec nsec : Z) (l : Location) : Time :=
  let '(year, m) := norm year (month - 1) 12 in
  let month := m + 1 in
  let '(sec, nsec) := norm sec nsec 1000000000 in
  let '(min, sec) := norm min sec 60 in
  let '(hour, min) := norm hour min 60 in
  let '(day, hour) := norm day hour 24 in
  let abs := civilDays year month day * secondsPerDay
             + hour * 3600 + min * 60 + sec in
  let unix := abs - unixEpochDays * secondsPerDay in
  mkTime (unix - zoneOffset l) nsec l.

(** Seconds since 0001-01-01 00:00:00 of the wall clock shown by [t]. *)
Definition abs (t : Time) : Z :=
  unixSec t + zoneOffset (loc t) + unixEpochDays * secondsPerDay.

(** Year (from 1) and zero-based day of the year of a day number. *)
Definition absYear (d : Z) : Z * Z :=
  let n := d / daysPer400Years in
  let y := 400 * n in
  let d := d - daysPer400Years * n in
  let n := d / daysPer100Years in
  let n := n - Z.shiftr n 2 in
  let y := y + 100 * n in
  let d := d - daysPer100Years * n in
  let n := d / daysPer4Years in
  let y := y + 4 * n in
  let d := d - daysPer4Years * n in
  let n := d / 365 in
  let n := n - Z.shiftr n 2 in
  let y := y + n in
  let d := d - 365 * n in
  (y + 1, d).

(** Month and day of the month from the year and the day of the year. *)
Definition yearDate (year yday : Z) : Z * Z :=
  let leapDay := isLeap year && (yday =? 31 + 29 - 1) in
  if leapDay then (2, 29)
  else
    let day := if isLeap year && (31 + 29 - 1 <? yday) then yday - 1 else yday in
    let month := day / 31 in
    let fin := daysBefore (month + 1) in
    let '(month, begin) :=
      if fin <=? day then (month + 1, fin) else (month, daysBefore month) in
    (month + 1, day - begin + 1).

(** Civil date (year, month, day) of a day number. *)
Definition absDate (d : Z) : Z * Z * Z :=
  let '(year, yday) := absYear d in
  let '(month, day) := yearDate year yday in
  (year, month, day).

Definition date (t : Time) : Z * Z * Z := absDate (abs t / secondsPerDay).

Definition Year (t : Time) : Z := fst (fst (date t)).
Definition Month (t : Time) : Z := snd (fst (date t)).
Definition Day (t : Time) : Z := snd (date t).

(** The methods [t.Hour()] and [t.Second()]; the plain names are the
    durations above. *)
Definition Hour_ (t : Time) : Z := (abs t mod secondsPerDay) / 3600.
Definition Minute (t : Time) : Z := (abs t mod 3600) / 60.
Definition Second_ (t : Time) : Z := abs t mod 60.

(** [t.In(l)]: the same instant, displayed in [l]. *)
Definition In (t : Time) (l : Location) : Time :=
  mkTime (unixSec t) (nsec t) l.

(** [t.After(u)] and [t.Before(u)] compare instants. *)
Definition After (t u : Time) : bool :=
  (unixSec u <? unixSec t) || ((unixSec t =? unixSec u) && (nsec u <? nsec t)).

Definition Before (t u : Time) : bool :=
  (unixSec t <? unixSec u) || ((unixSec t =? unixSec u) && (nsec t <? nsec u)).

(** [t.Add(d)]. *)
Definition Add (t : Time) (d : Duration) : Time :=
  let dsec := Z.quot d 1000000000 in
  let ns := nsec t + Z.rem d 1000000000 in
  let '(dsec, ns) :=
    if 1000000000 <=? ns then (dsec + 1, ns - 1000000000)
    else if ns <? 0 then (dsec - 1, ns + 1000000000)
    else (dsec, ns) in
  mkTime (unixSec t + dsec) ns (loc t).

(** *** Layouts

    Of the layout elements [time.Format] and [time.Parse] know, the
    model has those that occur in the layouts the program passes:
    [2006], [01], [02], [15], [04], [05] and [Z07:00].  Every other
    character of a layout stands for itself. *)

Inductive Std :=
| stdLongYear | stdZeroMonth | stdZeroDay | stdHour | stdZeroMinute
| stdZeroSecond | stdISO8601ColonTZ.

Inductive chunk := Lit (c : ascii) | Elem (std : Std).

Definition RFC3339 : string := "2006-01-02T15:04:05Z07:00".

(** The element a layout starts with, and its length. *)
Definition stdAt (layout : string) : option (Std * nat) :=
  if String.prefix "2006" layout then Some (stdLongYear, 4%nat)
  else if String.prefix "01" layout then Some (stdZeroMonth, 2%nat)
  else if String.prefix "02" layout then Some (stdZeroDay, 2%nat)
  else if String.prefix "04" layout then Some (stdZeroMinute, 2%nat)
  else if String.prefix "05" layout then Some (stdZeroSecond, 2%nat)
  else if String.prefix "15" layout then Some (stdHour, 2%nat)
  else if String.prefix "Z07:00" layout then Some (stdISO8601ColonTZ, 6%nat)
  else None.

(** The layout cut into elements and literal characters ([skip] counts
    the characters of the element being stepped over). *)
Fixpoint chunksFrom (skip : nat) (layout : string) : list chunk :=
  match layout with
  | EmptyString => []
  | String c rest =>
      match skip with
      | S k => chunksFrom k rest
      | O =>
          match stdAt layout with
          | Some (std, len) => Elem std :: chunksFrom (Nat.pred len) rest
          | None => Lit c :: chunksFrom 0 rest
          end
      end
  end.

Definition chunks (layout : string) : list chunk := chunksFrom 0 layout.

Definition byte (c : ascii) : Z := Z.of_N (N_of_ascii c).
Definition isDigit (c : ascii) : bool := (48 <=? byte c) && (byte c <=? 57).
Definition digitVal (c : ascii) : Z := byte c - 48.
Definition digitChar (d : Z) : ascii := ascii_of_N (Z.to_N (48 + d)).

(** *** Formatting *)

Fixpoint digitsRev (fuel : nat) (u : Z) : string :=
  match fuel with
  | O => ""
  | S k =>
      if u <? 10 then String (digitChar u) ""
      else String (digitChar (u mod 10)) (digitsRev k (u / 10))
  end.

Fixpoint revOnto (s acc : string) : string :=
  match s with
  | EmptyString => acc
  | String c rest => revOnto rest (String c acc)
  end.

Fixpoint zeros (n : nat) : string :=
  match n with
  | O => ""
  | S k => String "0" (zeros k)
  end.

(** [appendInt]: decimal digits of [x], zero-padded to [width], with a
    minus sign in front when [x] is negative. *)
Definition appendInt (x : Z) (width : nat) : string :=
  let u := Z.abs x in
  let ds := revOnto (digitsRev (S (Z.to_nat (Z.log2 u))) u) "" in
  let sign := if x <? 0 then "-" else "" in
  let pad := zeros (width - String.length ds)%nat in
  (sign ++ pad ++ ds)%string.

Definition formatElem (t : Time) (std : Std) : string :=
  match std with
  | stdLongYear => appendInt (Year t) 4
  | stdZeroMonth => appendInt (Month t) 2
  | stdZeroDay => appendInt (Day t) 2
  | stdHour => appendInt (Hour_ t) 2
  | stdZeroMinute => appendInt (Minute t) 2
  | stdZeroSecond => appendInt (Second_ t) 2
  | stdISO8601ColonTZ =>
      let offset := zoneOffset (loc t) in
      if offset =? 0 then "Z"
      else
        let zone := Z.quot offset 60 in
        let sign := if zone <? 0 then "-" else "+" in
        let hh := appendInt (Z.quot (Z.abs zone) 60) 2 in
        let mm := appendInt (Z.rem (Z.abs zone) 60) 2 in
        (sign ++ hh ++ ":" ++ mm)%string
  end.

Fixpoint formatChunks (t : Time) (cs : list chunk) : string :=
  match cs with
  | [] => ""
  | Lit c :: rest => String c (formatChunks t rest)
  | Elem std :: rest => (formatElem t std ++ formatChunks t rest)%string
  end.

(** [t.Format(layout)]. *)
Definition Format (t : Time) (layout : string) : string :=
  formatChunks t (chunks layout).

(** *** Parsing *)

(** The fields [Parse] collects while it reads the value: [month] and
    [day] start at [-1] (not seen), [zoneOffset] at [-1] (none), [z]
    is set when the value names UTC by the letter Z. *)
Record fields := mkFields {
  f_year : Z; f_month : Z; f_day : Z;
  f_hour : Z; f_min : Z; f_sec : Z; f_nsec : Z;
  f_z : option Location; f_zoneOffset : Z
}.

Definition noFields : fields := mkFields 0 (-1) (-1) 0 0 0 0 None (-1).

(** [getnum]: a one- or two-digit number; two digits when [fixed]. *)
Definition getnum (s : string) (fixed : bool) : option (Z * string) :=
  match s with
  | String c0 rest0 =>
      if isDigit c0 then
        match rest0 with
        | String c1 rest1 =>
            if isDigit c1 then Some (digitVal c0 * 10 + digitVal c1, rest1)
            else if fixed then None else Some (digitVal c0, rest0)
        | EmptyString => if fixed then None else Some (digitVal c0, rest0)
        end
      else None
  | EmptyString => None
  end.

(** [atoi] on digits only: [None] on any other character. *)
Fixpoint atoiFrom (acc : Z) (s : string) : option Z :=
  match s with
  | EmptyString => Some acc
  | String c rest =>
      if isDigit c then atoiFrom (acc * 10 + digitVal c) rest else None
  end.

Fixpoint takeDigits (s : string) : string * string :=
  match s with
  | String c rest =>
      if isDigit c then let '(ds, r) := takeDigits rest in (String c ds, r)
      else ("", s)
  | EmptyString => ("", "")
  end.

(** [parseNanoseconds] on the digits after the separator: the first
    nine count, scaled to nanoseconds. *)
Definition parseNanoseconds (digits : string) : option Z :=
  let used := String.substring 0 9 digits in
  match atoiFrom 0 used with
  | Some ns => Some (ns * 10 ^ Z.of_nat (9 - String.length used)%nat)
  | None => None
  end.

Definition commaOrPeriod (c : ascii) : bool :=
  Ascii.eqb c "." || Ascii.eqb c ",".

(** One element of the layout read off the front of the value. *)
Definition parseElem (std : Std) (value : string) (f : fields)
  : option (string * fields) :=
  match std with
  | stdLongYear =>
      match value with
      | String c0 (String c1 (String c2 (String c3 rest))) =>
          match atoiFrom 0 (String c0 (String c1 (String c2 (String c3 "")))) with
          | Some y =>
              Some (rest, mkFields y (f_month f) (f_day f) (f_hour f) (f_min f)
                                   (f_sec f) (f_nsec f) (f_z f) (f_zoneOffset f))
          | None => None
          end
      | _ => None
      end
  | stdZeroMonth =>
      match getnum value true with
      | Some (m, rest) =>
          if (m <=? 0) || (12 <? m) then None
          else Some (rest, mkFields (f_year f) m (f_day f) (f_hour f) (f_min f)
                                    (f_sec f) (f_nsec f) (f_z f) (f_zoneOffset f))
      | None => None
      end
  | stdZeroDay =>
      match getnum value true with
      | Some (d, rest) =>
          Some (rest, mkFields (f_year f) (f_month f) d (f_hour f) (f_min f)
                               (f_sec f) (f_nsec f) (f_z f) (f_zoneOffset f))
      | None => None
      end
  | stdHour =>
      match getnum value false with
      | Some (h, rest) =>
          if (h <? 0) || (24 <=? h) then None
          else Some (rest, mkFields (f_year f) (f_month f) (f_day f) h (f_min f)
                                    (f_sec f) (f_nsec f) (f_z f) (f_zoneOffset f))
      | None => None
      end
  | stdZeroMinute =>
      match getnum value true with
      | Some (m, rest) =>
          if (m <? 0) || (60 <=? m) then None
          else Some (rest, mkFields (f_year f) (f_month f) (f_day f) (f_hour f) m
                                    (f_sec f) (f_nsec f) (f_z f) (f_zoneOffset f))
      | None => None
      end
  | stdZeroSecond =>
      match getnum value true with
      | Some (s, rest) =>
          if (s <? 0) || (60 <=? s) then None
          else
            let f' := mkFields (f_year f) (f_month f) (f_day f) (f_hour f)
                               (f_min f) s (f_nsec f) (f_z f) (f_zoneOffset f) in
            match rest with
            | String p (String d more) =>
                if commaOrPeriod p && isDigit d then
                  (* a fractional second in the value, none in the layout *)
                  let '(ds, rest') := takeDigits (String d more) in
                  match parseNanoseconds ds with
                  | Some ns =>
                      Some (rest', mkFields (f_year f) (f_month f) (f_day f)
                                            (f_hour f) (f_min f) s ns
                                            (f_z f) (f_zoneOffset f))
                  | None => None
                  end
                else Some (rest, f')
            | _ => Some (rest, f')
            end
      | None => None
      end
  | stdISO8601ColonTZ =>
      match value with
      | String "Z" rest =>
          Some (rest, mkFields (f_year f) (f_month f) (f_day f) (f_hour f)
                               (f_min f) (f_sec f) (f_nsec f) (Some UTC)
                               (f_zoneOffset f))
      | String sign (String h0 (String h1 (String colon
          (String m0 (String m1 rest))))) =>
          if negb (Ascii.eqb colon ":") then None
          else
            match getnum (String h0 (String h1 "")) true,
                  getnum (String m0 (String m1 "")) true with
            | Some (hr, _), Some (mm, _) =>
                if (24 <? hr) || (60 <? mm) then None
                else
                  let off := (hr * 60 + mm) * 60 in
                  if Ascii.eqb sign "+" then
                    Some (rest, mkFields (f_year f) (f_month f) (f_day f)
                                         (f_hour f) (f_min f) (f_sec f)
                                         (f_nsec f) (f_z f) off)
                  else if Ascii.eqb sign "-" then
                    Some (rest, mkFields (f_year f) (f_month f) (f_day f)
                                         (f_hour f) (f_min f) (f_sec f)
                                         (f_nsec f) (f_z f) (- off))
                  else None
            | _, _ => None
            end
      | _ => None
      end
  end.

(** The value read against the layout, element by element; nothing may
    be left of the value at the end. *)
Fixpoint parseChunks (cs : list chunk) (value : string) (f : fields)
  : option fields :=
  match cs with
  | [] => match value with EmptyString => Some f | _ => None end
  | Lit c :: rest =>
      match value with
      | String v value' =>
          if Ascii.eqb v c then parseChunks rest value' f else None
      | EmptyString => None
      end
  | Elem std :: rest =>
      match parseElem std value f with
      | Some (value', f') => parseChunks rest value' f'
      | None => None
      end
  end.

(** The instant the collected fields denote. *)
Definition fieldsTime (f : fields) : option Time :=
  let month := if f_month f <? 0 then 1 else f_month f in
  let day := if f_day f <? 0 then 1 else f_day f in
  if (day <? 1) || (daysIn month (f_year f) <? day) then None
  else
    match f_z f with
    | Some z =>
        Some (Date (f_year f) month day (f_hour f) (f_min f) (f_sec f)
                   (f_nsec f) z)
    | None =>
        if negb (f_zoneOffset f =? -1) then
          let t := Date (f_year f) month day (f_hour f) (f_min f) (f_sec f)
                        (f_nsec f) UTC in
          Some (mkTime (unixSec t - f_zoneOffset f) (nsec t)
                       (FixedZone "" (f_zoneOffset f)))
        else
          Some (Date (f_year f) month day (f_hour f) (f_min f) (f_sec f)
                     (f_nsec f) UTC)
    end.

(** [time.Parse(layout, value)]; [None] stands for a parse error. *)
Definition Parse (layout value : string) : option Time :=
  match parseChunks (chunks layout) value noFields with
  | Some f => fieldsTime f
  | None => None
  end.

End time.

(** ** [fmt.Sprintf], for the verbs [%s] and [%v] on strings *)

Module fmt.

Fixpoint Sprintf (format : string) (args : list string) : string :=
  match format with
  | EmptyString => ""
  | String "%" (String verb rest) =>
      if Ascii.eqb verb "s" || Ascii.eqb verb "v" then
        match args with
        | a :: args' => (a ++ Sprintf rest args')%string
        | [] => ("%!" ++ String verb "(MISSING)" ++ Sprintf rest [])%string
        end
      else String "%" (String verb (Sprintf rest args))
  | String c rest => String c (Sprintf rest args)
  end.

End fmt.

(** ** The program *)

(** The two revisions of [main.go] in the repository: the file of that
    name, and the later one that checks for status 204 as well and
    builds the zone with [time.FixedZone]. *)
Inductive Revision := main_go | part_000.

(** *** Data *)

(** [calendar.EventDateTime] and [calendar.Event], with the fields the
    program reads.  [Start] and [End] are pointers in the source
    ([*EventDateTime]): [None] is the nil pointer of an event that has
    no such member. *)
Record EventDateTime := mkEventDateTime { Date : string; DateTime : string }.

Record Event := mkEvent {
  Id : string;
  Summary : string;
  Description : string;
  Location : string;
  Start : option EventDateTime;
  End_ : option EventDateTime
}.

(** The calendar client, made from the credentials. *)
Record Service := mkService { credentialsJSON : string }.

(** Errors and the operands of the formatting calls. *)
Inductive operand := Str (s : string) | Err (e : error)
with error :=
| libraryError (text : string)
| ParseError (layout value : string)
| Errorf (format : string) (operands : list operand).

(** [http.Response], as far as it is read. *)
Record Response := mkResponse { StatusCode : Z; Status : string }.

Definition StatusOK : Z := 200.
Definition StatusNoContent : Z := 204.

(** *** Effects *)

Inductive LogLine :=
| Printf (format : string) (operands : list operand)
| Println (operands : list operand)
| Fatalf (format : string) (operands : list operand).

(** What a run does that can be seen from outside: log lines and the
    two kinds of network call.  The body of a POST is the JSON object
    with the given members. *)
Inductive Effect :=
| Log (l : LogLine)
| EventsList (calendarID timeMin : string)
| HttpPost (url contentType : string) (body : list (string * string)).

(** Everything the program is given from outside its source. *)
Record World := mkWorld {
  dotenvLoad : string -> option error;
  osGetenv : string -> string;
  jsonUnmarshal : string -> option error;
  calendarNewService : string -> option error;
  timeLoadLocation : string -> error + time.Location;
  timeNow : nat -> time.Time;
  eventsListDo : string -> string -> error + list Event;
  httpPost : nat -> string -> list (string * string) -> error + Response
}.

(** How often the clock was read and how many POSTs were made. *)
Record Counters := mkCounters { clockReads : nat; posts : nat }.

(** How a computation ends: with a value, or with the process gone.
    [log.Fatalf] leaves with status 1, a run-time panic that nothing
    recovers with status 2. *)
Inductive Result (A : Type) := Done (a : A) | Exit (code : Z).
Arguments Done {A} a.
Arguments Exit {A} code.

(** A computation reads the world, moves the counters, ends with a
    value or by leaving the process, and emits effects on the way. *)
Definition M (A : Type) : Type :=
  World -> Counters -> Result A * Counters * list Effect.

Definition ret {A} (a : A) : M A := fun _ st => (Done a, st, []).

Definition bind {A B} (c : M A) (k : A -> M B) : M B :=
  fun w st =>
    match c w st with
    | (Done a, st', out) =>
        let '(r, st'', out') := k a w st' in (r, st'', (out ++ out')%list)
    | (Exit code, st', out) => (Exit code, st', out)
    end.

Declare Scope go_scope.
Delimit Scope go_scope with go.
Notation "x <- c ;; k" := (bind c (fun x => k))
  (at level 61, c at next level, right associativity) : go_scope.
Notation "c ;; k" := (bind c (fun _ => k))
  (at level 61, right associativity) : go_scope.
Local Open Scope go_scope.

Definition effects {A} (r : Result A * Counters * list Effect) : list Effect :=
  snd r.
Definition result {A} (r : Result A * Counters * list Effect) : Result A :=
  fst (fst r).
Definition counters {A} (r : Result A * Counters * list Effect) : Counters :=
  snd (fst r).

Definition emit (e : Effect) : M unit := fun _ st => (Done tt, st, [e]).

Definition logPrintf (format : string) (operands : list operand) : M unit :=
  emit (Log (Printf format operands)).

Definition logPrintln (operands : list operand) : M unit :=
  emit (Log (Println operands)).

(** [log.Fatalf]: the line is written and the process exits with 1. *)
Definition logFatalf {A} (format : string) (operands : list operand) : M A :=
  fun _ st => (Exit 1, st, [Log (Fatalf format operands)]).

(** Reading a field through a pointer, [p.f]: on the nil pointer the
    run-time panics, nothing in the program recovers, and the process
    is gone with status 2 and no line in the log. *)
Definition deref {A} (p : option A) : M A :=
  fun _ st =>
    match p with
    | Some a => (Done a, st, [])
    | None => (Exit 2, st, [])
    end.

Definition godotenvLoad (file : string) : M (option error) :=
  fun w st => (Done (dotenvLoad w file), st, []).

Definition Getenv (key : string) : M string :=
  fun w st => (Done (osGetenv w key), st, []).

Definition Unmarshal (data : string) : M (option error) :=
  fun w st => (Done (jsonUnmarshal w data), st, []).

Definition NewService (creds : string) : M (error + Service) :=
  fun w st =>
    (Done (match calendarNewService w creds with
           | Some err => inl err
           | None => inr (mkService creds)
           end), st, []).

Definition LoadLocation (name : string) : M (error + time.Location) :=
  fun w st => (Done (timeLoadLocation w name), st, []).

Definition Now : M time.Time :=
  fun w st =>
    (Done (timeNow w (clockReads st)),
     mkCounters (S (clockReads st)) (posts st), []).

(** [srv.Events.List(calendarID)...TimeMin(t)...Do()]: one request to
    the calendar API. *)
Definition EventsListDo (srv : Service) (calendarID t : string)
  : M (error + list Event) :=
  fun w st => (Done (eventsListDo w calendarID t), st, [EventsList calendarID t]).

(** [http.Post(url, contentType, body)]: one request to the webhook. *)
Definition Post (url contentType : string) (body : list (string * string))
  : M (error + Response) :=
  fun w st =>
    (Done (httpPost w (posts st) url body),
     mkCounters (clockReads st) (S (posts st)),
     [HttpPost url contentType body]).

Fixpoint forEach {A} (xs : list A) (body : A -> M unit) : M unit :=
  match xs with
  | [] => ret tt
  | x :: rest => body x ;; forEach rest body
  end.

(** *** [getCalendarService] *)

Definition getCalendarService : M (error + Service) :=
  credentials <- Getenv "GOOGLE_CREDENTIALS" ;;
  if (credentials =? "")%string then
    ret (inl (Errorf "GOOGLE_CREDENTIALS environment variable not set" []))
  else
    err <- Unmarshal credentials ;;
    match err with
    | Some err =>
        ret (inl (Errorf "unable to parse GOOGLE_CREDENTIALS: %v" [Err err]))
    | None =>
        r <- NewService credentials ;;
        match r with
        | inl err =>
            ret (inl (Errorf "unable to create Calendar client: %v" [Err err]))
        | inr srv => ret (inr srv)
        end
    end.

(** *** [getEvents] *)

Definition getEvents (srv : Service) (calendarID : string)
  : M (error + list Event) :=
  now <- Now ;;
  let t := time.Format now time.RFC3339 in
  r <- EventsListDo srv calendarID t ;;
  match r with
  | inl err => ret (inl err)
  | inr items => ret (inr items)
  end.

(** *** [sendDiscordNotification] *)

(** The test on the status that makes the call fail. *)
Definition statusFails (rev : Revision) (resp : Response) : bool :=
  match rev with
  | main_go => negb (StatusCode resp =? StatusOK)
  | part_000 =>
      negb (StatusCode resp =? StatusOK)
      && negb (StatusCode resp =? StatusNoContent)
  end.

(** [json.Marshal] of a map from strings to strings does not fail, so
    the first error return of the function is never taken; the body of
    the request is the payload itself. *)
Definition sendDiscordNotification (rev : Revision) (webhookURL message : string)
  : M (option error) :=
  let payload := [("content", message)] in
  r <- Post webhookURL "application/json" payload ;;
  match r with
  | inl err => ret (Some err)
  | inr resp =>
      if statusFails rev resp then
        ret (Some (Errorf "failed to send notification: %v" [Str (Status resp)]))
      else ret None
  end.

(** *** [main] *)

Definition nl : string := String "010" "".

(** The line [label: value] as each revision logs it: through
    [log.Printf] with a [%s] in the one, through [log.Println] in the
    other. *)
Definition logField (rev : Revision) (label value : string) : M unit :=
  match rev with
  | main_go => logPrintf (label ++ ": %s") [Str value]
  | part_000 => logPrintln [Str (label ++ ":"); Str value]
  end.

(** The layout of the times in the log. *)
Definition logLayout (rev : Revision) : string :=
  match rev with
  | main_go => "2006-01-02 15:04:05"
  | part_000 => "2006-01-02 15:04"
  end.

(** Window start: midnight of the day after [now]'s day, in [location]. *)
Definition tomorrowStart (now : time.Time) (location : time.Location)
  : time.Time :=
  time.Date (time.Year now) (time.Month now) (time.Day now + 1) 0 0 0 0
            location.

(** Window end: 24 hours later. *)
Definition tomorrowEnd (now : time.Time) (location : time.Location)
  : time.Time :=
  time.Add (tomorrowStart now location) (24 * time.Hour).

(** The text of the notification. *)
Definition message (event : Event) (startTime endTime : time.Time)
    (isAllDay : bool) : string :=
  if isAllDay then
    fmt.Sprintf ("@here" ++ nl ++ "イベント名: %s" ++ nl ++ "場所: %s" ++ nl
                 ++ "終日イベント")
                [Summary event; Location event]
  else
    fmt.Sprintf ("@here" ++ nl ++ "イベント名: %s" ++ nl ++ "場所: %s" ++ nl
                 ++ "開始時間: %s" ++ nl ++ "終了時間: %s")
                [Summary event; Location event;
                 time.Format startTime "2006-01-02 15:04";
                 time.Format endTime "2006-01-02 15:04"].

(** The loop body once start and end are parsed: conversion to the
    zone, the test against the window, the log, the message and the
    POST. *)
Definition notifyIfTomorrow (rev : Revision) (webhookURL : string)
    (location : time.Location) (tomorrowStart tomorrowEnd : time.Time)
    (event : Event) (startTime endTime : time.Time) (isAllDay : bool)
  : M unit :=
  let startTime := time.In startTime location in
  let endTime := time.In endTime location in
  if time.After startTime tomorrowStart && time.Before startTime tomorrowEnd
  then
    logField rev "イベント名" (Summary event) ;;
    logField rev "説明" (Description event) ;;
    logField rev "場所" (Location event) ;;
    (if isAllDay then logField rev "終日イベント" (Summary event)
     else
       logField rev "開始時間" (time.Format startTime (logLayout rev)) ;;
       logField rev "終了時間" (time.Format endTime (logLayout rev))) ;;
    err <- sendDiscordNotification rev webhookURL
             (message event startTime endTime isAllDay) ;;
    match err with
    | Some err => logPrintf "Error sending Discord notification: %v" [Err err]
    | None => logField rev "Notification sent for event" (Summary event)
    end
  else ret tt.

(** The lines the second revision logs at the top of each iteration.
    The last two read [event.Start.DateTime] and [event.End.DateTime]
    with no test on the pointers. *)
Definition logEvent (rev : Revision) (event : Event) : M unit :=
  match rev with
  | main_go => ret tt
  | part_000 =>
      logPrintln [Str "Event ID:"; Str (Id event)] ;;
      logPrintln [Str "Event Summary:"; Str (Summary event)] ;;
      logPrintln [Str "Event Description:"; Str (Description event)] ;;
      logPrintln [Str "Event Location:"; Str (Location event)] ;;
      start <- deref (Start event) ;;
      logPrintln [Str "Event Start DateTime:"; Str (DateTime start)] ;;
      end_ <- deref (End_ event) ;;
      logPrintln [Str "Event End DateTime:"; Str (DateTime end_)]
  end.

(** One iteration of the loop over the events; [continue] is the end of
    the branch.  [event.Start] is read through its pointer at the first
    test, [event.End] only once the start marker is parsed. *)
Definition loopBody (rev : Revision) (webhookURL : string)
    (location : time.Location) (tomorrowStart tomorrowEnd : time.Time)
    (event : Event) : M unit :=
  logEvent rev event ;;
  start <- deref (Start event) ;;
  if negb (DateTime start =? "")%string then
    match time.Parse time.RFC3339 (DateTime start) with
    | None =>
        logPrintf "Unable to parse event DateTime: %v"
                  [Err (ParseError time.RFC3339 (DateTime start))]
    | Some startTime =>
        end_ <- deref (End_ event) ;;
        match time.Parse time.RFC3339 (DateTime end_) with
        | None =>
            logPrintf "Unable to parse event End DateTime: %v"
                      [Err (ParseError time.RFC3339 (DateTime end_))]
        | Some endTime =>
            notifyIfTomorrow rev webhookURL location tomorrowStart tomorrowEnd
                             event startTime endTime false
        end
    end
  else if negb (Date start =? "")%string then
    match time.Parse "2006-01-02" (Date start) with
    | None =>
        logPrintf "Unable to parse event Start Date: %v"
                  [Err (ParseError "2006-01-02" (Date start))]
    | Some startTime =>
        end_ <- deref (End_ event) ;;
        match time.Parse "2006-01-02" (Date end_) with
        | None =>
            logPrintf "Unable to parse event End Date: %v"
                      [Err (ParseError "2006-01-02" (Date end_))]
        | Some endTime =>
            notifyIfTomorrow rev webhookURL location tomorrowStart tomorrowEnd
                             event startTime endTime true
        end
    end
  else
    logPrintf "No valid start time found for event: %s" [Str (Summary event)].

(** [godotenv.Load(".env")], in the first revision only. *)
Definition loadEnvFile (rev : Revision) : M unit :=
  match rev with
  | main_go =>
      err <- godotenvLoad ".env" ;;
      match err with
      | Some _ => logFatalf "Error loading .env file" []
      | None => ret tt
      end
  | part_000 => ret tt
  end.

(** The zone: looked up by name in the first revision, built from the
    offset in the second. *)
Definition tokyo (rev : Revision) : M time.Location :=
  match rev with
  | main_go =>
      r <- LoadLocation "Asia/Tokyo" ;;
      match r with
      | inl err => logFatalf "Unable to load location: %v" [Err err]
      | inr location => ret location
      end
  | part_000 => ret (time.FixedZone "Asia/Tokyo" (9 * 60 * 60))
  end.

Definition main (rev : Revision) : M unit :=
  loadEnvFile rev ;;
  r <- getCalendarService ;;
  match r with
  | inl err => logFatalf "Unable to retrieve Calendar client: %v" [Err err]
  | inr calendarService =>
      calendarID <- Getenv "GOOGLE_CALENDAR_ID" ;;
      webhookURL <- Getenv "DISCORD_WEBHOOK_URL" ;;
      location <- tokyo rev ;;
      t <- Now ;;
      let now := time.In t location in
      let tomorrowStart := tomorrowStart now location in
      let tomorrowEnd := tomorrowEnd now location in
      r <- getEvents calendarService calendarID ;;
      match r with
      | inl err => logFatalf "Unable to retrieve events: %v" [Err err]
      | inr events =>
          forEach events
                  (loopBody rev webhookURL location tomorrowStart tomorrowEnd)
      end
  end.

(** ** Notions the properties are stated in *)

Definition isPost (e : Effect) : bool :=
  match e with HttpPost _ _ _ => true | _ => false end.

Definition isNetworkCall (e : Effect) : bool :=
  match e with HttpPost _ _ _ | EventsList _ _ => true | Log _ => false end.

(** An iteration notifies when it sends a POST to the webhook. *)
Definition notifies (out : list Effect) : bool := existsb isPost out.

Definition networkCalls (out : list Effect) : list Effect :=
  filter isNetworkCall out.

(** The POSTs among the effects, in order. *)
Definition posted (out : list Effect) : list Effect := filter isPost out.

(** The request that carries [message] to the webhook. *)
Definition webhookPost (webhookURL message : string) : Effect :=
  HttpPost webhookURL "application/json" [("content", message)].

(** The test of the loop on a start time. *)
Definition inWindow (location : time.Location)
    (tomorrowStart tomorrowEnd startTime : time.Time) : bool :=
  time.After (time.In startTime location) tomorrowStart
  && time.Before (time.In startTime location) tomorrowEnd.

(** The instant of [t] in nanoseconds since the Unix epoch. *)
Definition UnixNano (t : time.Time) : Z :=
  time.unixSec t * 1000000000 + time.nsec t.

(** The markers of a start or end member; an event without the member
    has neither marker. *)
Definition markers (member : option EventDateTime) : EventDateTime :=
  match member with
  | Some m => m
  | None => mkEventDateTime "" ""
  end.

Definition isNil {A} (p : option A) : bool :=
  match p with Some _ => false | None => true end.

(** The iteration on [event] reads a field through a nil pointer.  The
    first revision reads [event.Start] at its first test and
    [event.End] once the start marker is parsed; the second reads both
    for its log lines, whatever the markers. *)
Definition panics (rev : Revision) (event : Event) : bool :=
  match rev with
  | main_go =>
      match Start event with
      | None => true
      | Some start =>
          if negb (DateTime start =? "")%string then
            match time.Parse time.RFC3339 (DateTime start) with
            | Some _ => isNil (End_ event)
            | None => false
            end
          else if negb (Date start =? "")%string then
            match time.Parse "2006-01-02" (Date start) with
            | Some _ => isNil (End_ event)
            | None => false
            end
          else false
      end
  | part_000 => isNil (Start event) || isNil (End_ event)
  end.

(** The events the loop gets through: those before the first one whose
    iteration panics. *)
Fixpoint beforePanic (rev : Revision) (events : list Event) : list Event :=
  match events with
  | [] => []
  | event :: rest =>
      if panics rev event then [] else event :: beforePanic rev rest
  end.

(** What the parsing at the top of an iteration arrives at: start,
    end and whether the event is an all-day one, or nothing when the
    iteration ends there. *)
Definition eventTimes (event : Event) : option (time.Time * time.Time * bool) :=
  if negb (DateTime (markers (Start event)) =? "")%string then
    match time.Parse time.RFC3339 (DateTime (markers (Start event))),
          time.Parse time.RFC3339 (DateTime (markers (End_ event))) with
    | Some startTime, Some endTime => Some (startTime, endTime, false)
    | _, _ => None
    end
  else if negb (Date (markers (Start event)) =? "")%string then
    match time.Parse "2006-01-02" (Date (markers (Start event))),
          time.Parse "2006-01-02" (Date (markers (End_ event))) with
    | Some startTime, Some endTime => Some (startTime, endTime, true)
    | _, _ => None
    end
  else None.

(** The lines the loop logs when it gives an event up. *)
Definition diagnostics : list string :=
  ["Unable to parse event DateTime: %v";
   "Unable to parse event End DateTime: %v";
   "Unable to parse event Start Date: %v";
   "Unable to parse event End Date: %v";
   "No valid start time found for event: %s"].

Definition isDiagnostic (e : Effect) : bool :=
  match e with
  | Log (Printf format _) => existsb (String.eqb format) diagnostics
  | _ => false
  end.

(** The end marker the loop reads for this event parses. *)
Definition endParses (event : Event) : bool :=
  if negb (DateTime (markers (Start event)) =? "")%string then
    match time.Parse time.RFC3339 (DateTime (markers (End_ event))) with
    | Some _ => true
    | None => false
    end
  else
    match time.Parse "2006-01-02" (Date (markers (End_ event))) with
    | Some _ => true
    | None => false
    end.

(** The same event with other end markers. *)
Definition withEnd (event : Event) (end' : EventDateTime) : Event :=
  mkEvent (Id event) (Summary event) (Description event) (Location event)
          (Start event) (Some end').

(** The same event without its date-only markers. *)
Definition withoutDates (event : Event) : Event :=
  let timestampOnly m := mkEventDateTime "" (DateTime m) in
  mkEvent (Id event) (Summary event) (Description event) (Location event)
          (option_map timestampOnly (Start event))
          (option_map timestampOnly (End_ event)).




(** A time at minute precision: date, hour and minute, nothing else. *)
Definition minuteStamp (t : time.Time) : string :=
  time.appendInt (time.Year t) 4 ++ "-" ++ time.appendInt (time.Month t) 2
  ++ "-" ++ time.appendInt (time.Day t) 2 ++ " "
  ++ time.appendInt (time.Hour_ t) 2 ++ ":" ++ time.appendInt (time.Minute t) 2.

(** A date, as the first ten characters of [minuteStamp]. *)
Definition dateStamp (t : time.Time) : string :=
  time.appendInt (time.Year t) 4 ++ "-" ++ time.appendInt (time.Month t) 2
  ++ "-" ++ time.appendInt (time.Day t) 2.

(** The two messages, written out field by field. *)
Definition allDayText (summary location : string) : string :=
  "@here" ++ nl ++ "イベント名: " ++ summary ++ nl ++ "場所: " ++ location ++ nl
  ++ "終日イベント".

Definition timedText (summary location start end_ : string) : string :=
  "@here" ++ nl ++ "イベント名: " ++ summary ++ nl ++ "場所: " ++ location ++ nl
  ++ "開始時間: " ++ start ++ nl ++ "終了時間: " ++ end_.

(** The run has everything it needs up to the loop: the zone is
    [location] and the calendar answers with [events]. *)
Definition setupOk (rev : Revision) (w : World) (st : Counters)
    (location : time.Location) (events : list Event) : Prop :=
  let credentials := osGetenv w "GOOGLE_CREDENTIALS" in
  (rev = main_go -> dotenvLoad w ".env" = None)
  /\ credentials <> ""
  /\ jsonUnmarshal w credentials = None
  /\ calendarNewService w credentials = None
  /\ match rev with
     | main_go => timeLoadLocation w "Asia/Tokyo" = inr location
     | part_000 => location = time.FixedZone "Asia/Tokyo" (9 * 60 * 60)
     end
  /\ eventsListDo w (osGetenv w "GOOGLE_CALENDAR_ID")
                  (time.Format (timeNow w (S (clockReads st))) time.RFC3339)
     = inr events.

(** An instant has its nanoseconds within the second. *)
Definition wellFormed (t : time.Time) : Prop := 0 <= time.nsec t < 1000000000.

(** *** A sample run *)

Definition tokyoZone : time.Location := time.FixedZone "Asia/Tokyo" (9 * 60 * 60).

(** 2024-05-10 21:30:15.25 in Tokyo. *)
Definition sampleNow : time.Time :=
  time.Date 2024 5 10 21 30 15 250000000 tokyoZone.

Definition meeting : Event :=
  mkEvent "e1" "Standup" "daily" "Room A"
          (Some (mkEventDateTime "" "2024-05-11T10:00:00+09:00"))
          (Some (mkEventDateTime "" "2024-05-11T11:00:00+09:00")).

Definition holiday : Event :=
  mkEvent "e2" "Holiday" "" "Office"
          (Some (mkEventDateTime "2024-05-11" ""))
          (Some (mkEventDateTime "2024-05-12" "")).

Definition atMidnight : Event :=
  mkEvent "e3" "Release" "" ""
          (Some (mkEventDateTime "" "2024-05-11T00:00:00+09:00"))
          (Some (mkEventDateTime "" "2024-05-11T01:00:00+09:00")).


Definition laterEnd : EventDateTime :=
  mkEventDateTime "" "2024-05-11T12:30:00+09:00".


Definition sampleEnv (key : string) : string :=
  if (key =? "GOOGLE_CREDENTIALS")%string then "{}"
  else if (key =? "GOOGLE_CALENDAR_ID")%string then "primary"
  else if (key =? "DISCORD_WEBHOOK_URL")%string then "https://discord.example/hook"
  else "".

(** A world in which everything is set up, the calendar holds [events]
    and the webhook answers every POST with [answer]. *)
Definition sampleWorld (events : list Event) (answer : error + Response)
  : World :=
  mkWorld (fun _ => None) sampleEnv (fun _ => None) (fun _ => None)
          (fun _ => inr tokyoZone) (fun _ => sampleNow)
          (fun _ _ => inr events) (fun _ _ _ => answer).

Definition noContent : error + Response := inr (mkResponse 204 "204 No Content").

Definition start0 : Counters := mkCounters 0 0.

(** The world [w] with a webhook that answers every POST with [answer]. *)
Definition answering (w : World) (answer : error + Response) : World :=
  mkWorld (dotenvLoad w) (osGetenv w) (jsonUnmarshal w) (calendarNewService w)
          (timeLoadLocation w) (timeNow w) (eventsListDo w)
          (fun _ _ _ => answer).

Definition serverError : error + Response :=
  inr (mkResponse 500 "500 Internal Server Error").

(** A world whose credentials are not JSON. *)
Definition brokenCredentials : World :=
  mkWorld (fun _ => None)
          (fun key => if (key =? "GOOGLE_CREDENTIALS")%string then "{oops" else "")
          (fun _ => Some (libraryError "invalid character 'o' looking for beginning of object key string"))
          (fun _ => None) (fun _ => inr tokyoZone) (fun _ => sampleNow)
          (fun _ _ => inr []) (fun _ _ _ => noContent).

Definition hook : string := "https://discord.example/hook".

(** The instants the timestamps of [meeting] denote. *)
Definition meetingStart : time.Time :=
  time.mkTime 1715389200 0 (time.FixedZone "" 32400).
Definition meetingEnd : time.Time :=
  time.mkTime 1715392800 0 (time.FixedZone "" 32400).

(** The instants the dates of [holiday] denote. *)
Definition holidayStart : time.Time := time.mkTime 1715385600 0 time.UTC.
Definition holidayEnd : time.Time := time.mkTime 1715472000 0 time.UTC.



(** *** Notions for the traces of whole runs *)

Definition isLog (e : Effect) : bool :=
  match e with Log _ => true | _ => false end.

(** What [sendDiscordNotification] returns on an answer of the webhook. *)
Definition sendResult (rev : Revision) (answer : error + Response)
  : option error :=
  match answer with
  | inl err => Some err
  | inr resp =>
      if statusFails rev resp
      then Some (Errorf "failed to send notification: %v" [Str (Status resp)])
      else None
  end.

(** The line the loop logs after the request. *)
Definition outcomeLine (rev : Revision) (event : Event)
    (answer : error + Response) : Effect :=
  match sendResult rev answer with
  | Some err =>
      Log (Printf "Error sending Discord notification: %v" [Err err])
  | None =>
      match rev with
      | main_go =>
          Log (Printf "Notification sent for event: %s" [Str (Summary event)])
      | part_000 =>
          Log (Println [Str "Notification sent for event:";
                        Str (Summary event)])
      end
  end.

(** The request an event gives rise to, if any. *)
Definition eventPost (webhookURL : string) (location : time.Location)
    (windowStart windowEnd : time.Time) (event : Event) : list Effect :=
  match eventTimes event with
  | Some (s, e, isAllDay) =>
      if inWindow location windowStart windowEnd s
      then [webhookPost webhookURL
              (message event (time.In s location) (time.In e location) isAllDay)]
      else []
  | None => []
  end.

(** The same event under another identifier and description. *)
Definition withIdDescription (event : Event) (id description : string)
  : Event :=
  mkEvent id (Summary event) description (Location event)
          (Start event) (End_ event).

(** The same event with other start and end timestamps. *)
Definition withDateTimes (event : Event) (start end_ : string) : Event :=
  mkEvent (Id event) (Summary event) (Description event) (Location event)
          (Some (mkEventDateTime (Date (markers (Start event))) start))
          (Some (mkEventDateTime (Date (markers (End_ event))) end_)).

(** The lines the second revision logs at the top of an iteration,
    line by line. *)
Definition eventLines (rev : Revision) (event : Event) : list Effect :=
  match rev with
  | main_go => []
  | part_000 =>
      [Log (Println [Str "Event ID:"; Str (Id event)]);
       Log (Println [Str "Event Summary:"; Str (Summary event)]);
       Log (Println [Str "Event Description:"; Str (Description event)]);
       Log (Println [Str "Event Location:"; Str (Location event)]);
       Log (Println [Str "Event Start DateTime:";
                     Str (DateTime (markers (Start event)))]);
       Log (Println [Str "Event End DateTime:";
                     Str (DateTime (markers (End_ event)))])]
  end.

(** The lines an iteration logs about an event it notifies, before it
    sends the request, line by line. *)
Definition notifiedLines (rev : Revision) (event : Event)
    (startTime endTime : time.Time) (isAllDay : bool) : list Effect :=
  match rev with
  | main_go =>
      [Log (Printf "イベント名: %s" [Str (Summary event)]);
       Log (Printf "説明: %s" [Str (Description event)]);
       Log (Printf "場所: %s" [Str (Location event)])]
      ++ (if isAllDay
          then [Log (Printf "終日イベント: %s" [Str (Summary event)])]
          else [Log (Printf "開始時間: %s"
                       [Str (time.Format startTime "2006-01-02 15:04:05")]);
                Log (Printf "終了時間: %s"
                       [Str (time.Format endTime "2006-01-02 15:04:05")])])
  | part_000 =>
      [Log (Println [Str "イベント名:"; Str (Summary event)]);
       Log (Println [Str "説明:"; Str (Description event)]);
       Log (Println [Str "場所:"; Str (Location event)])]
      ++ (if isAllDay
          then [Log (Println [Str "終日イベント:"; Str (Summary event)])]
          else [Log (Println [Str "開始時間:";
                              Str (time.Format startTime "2006-01-02 15:04")]);
                Log (Println [Str "終了時間:";
                              Str (time.Format endTime "2006-01-02 15:04")])])
  end.

(** An event without its start and end members. *)
Definition noStart : Event := mkEvent "e8" "Cancelled" "" "" None None.

(** A timed event of the target day without its end member. *)
Definition noEnd : Event :=
  mkEvent "e9" "Open house" "" "Lobby"
          (Some (mkEventDateTime "" "2024-05-11T13:00:00+09:00")) None.

(** A world without its [.env] file. *)
Definition noEnvFile : World :=
  mkWorld (fun _ => Some (libraryError "open .env: no such file or directory"))
          sampleEnv (fun _ => None) (fun _ => None)
          (fun _ => inr tokyoZone) (fun _ => sampleNow)
          (fun _ _ => inr [meeting]) (fun _ _ _ => noContent).

(** A world whose calendar refuses the request. *)
Definition calendarDown : World :=
  mkWorld (fun _ => None) sampleEnv (fun _ => None) (fun _ => None)
          (fun _ => inr tokyoZone) (fun _ => sampleNow)
          (fun _ _ => inl (libraryError "googleapi: Error 403: Forbidden"))
          (fun _ _ _ => noContent).

(** The timestamps of [meeting] written in UTC. *)
Definition meetingInUTC : Event :=
  withDateTimes meeting "2024-05-11T01:00:00Z" "2024-05-11T02:00:00Z".

Definition meetingStartUTC : time.Time := time.mkTime 1715389200 0 time.UTC.
Definition meetingEndUTC : time.Time := time.mkTime 1715392800 0 time.UTC.

(** An all-day event of the target day whose end date is not a date. *)
Definition badEnd : Event :=
  mkEvent "e6" "Offsite" "" "Hall"
          (Some (mkEventDateTime "2024-05-11" ""))
          (Some (mkEventDateTime "2024-05-1x" "")).

(** An event under way when the sample run starts. *)
Definition underWay : Event :=
  mkEvent "e7" "Workshop" "" "Lab"
          (Some (mkEventDateTime "" "2024-05-10T20:00:00+09:00"))
          (Some (mkEventDateTime "" "2024-05-11T20:00:00+09:00")).

Definition underWayStart : time.Time :=
  time.mkTime 1715338800 0 (time.FixedZone "" 32400).
Definition underWayEnd : time.Time :=
  time.mkTime 1715425200 0 (time.FixedZone "" 32400).

(** The instants the timestamps of [atMidnight] denote. *)
Definition atMidnightStart : time.Time :=
  time.mkTime 1715353200 0 (time.FixedZone "" 32400).
Definition atMidnightEnd : time.Time :=
  time.mkTime 1715356800 0 (time.FixedZone "" 32400).

(** The sample clock one day later. *)
Definition nextNow : time.Time :=
  time.Date 2024 5 11 6 0 0 0 tokyoZone.

(** *** Definitions used in the proofs about the calendar *)

(** [yearDate] and [daysIn] read the year only to know whether it is a
    leap year; these are the same functions of that one bit. *)
Definition monthDay (leap : bool) (yday : Z) : Z * Z :=
  if leap && (yday =? 31 + 29 - 1) then (2, 29)
  else
    let day := if leap && (31 + 29 - 1 <? yday) then yday - 1 else yday in
    let month := day / 31 in
    let fin := time.daysBefore (month + 1) in
    let '(month, begin) :=
      if fin <=? day then (month + 1, fin) else (month, time.daysBefore month) in
    (month + 1, day - begin + 1).

Definition monthLen (leap : bool) (month : Z) : Z :=
  if (month =? 2) && leap then 29
  else time.daysBefore month - time.daysBefore (month - 1).

Definition leapAdj (leap : bool) (month : Z) : Z :=
  if leap && (3 <=? month) then 1 else 0.

(** [p] holds of the [n] integers from [i] on. *)
Fixpoint allFrom (n : nat) (i : Z) (p : Z -> bool) : bool :=
  match n with
  | O => true
  | S k => if p i then allFrom k (i + 1) p else false
  end.

(** The month and day found for a day of the year are in range and
    lead back to it. *)
Definition ydayOk (leap : bool) (yday : Z) : bool :=
  let '(m, d) := monthDay leap yday in
  (1 <=? m) && (m <=? 12) && (1 <=? d) && (d <=? monthLen leap m)
  && (time.daysBefore (m - 1) + leapAdj leap m + (d - 1) =? yday).

(** A valid month and day lead to a day of the year in range, from
    which [monthDay] finds them again. *)
Definition dateOk (leap : bool) (m d : Z) : bool :=
  if d <=? monthLen leap m then
    let yday := time.daysBefore (m - 1) + leapAdj leap m + (d - 1) in
    (0 <=? yday) && (yday <? 365 + (if leap then 1 else 0))
    && (let '(m', d') := monthDay leap yday in (m' =? m) && (d' =? d))
  else true.

Definition datesOk (leap : bool) : bool :=
  allFrom 12 1 (fun m => (monthLen leap m <=? 31)
                         && allFrom 31 1 (fun d => dateOk leap m d)).

(** Two digits, and four, as [appendInt] writes them. *)
Definition twoDigitsOk (a b : Z) : bool :=
  String.eqb (time.appendInt (a * 10 + b) 2)
             (String (time.digitChar a) (String (time.digitChar b) "")).

Definition fourDigitsOk (a b c d : Z) : bool :=
  String.eqb (time.appendInt (((a * 10 + b) * 10 + c) * 10 + d) 4)
             (String (time.digitChar a)
                (String (time.digitChar b)
                   (String (time.digitChar c) (String (time.digitChar d) "")))).

(** ** The calendar *)

Section Calendar.

Import time.

Lemma allFrom_spec n : forall i p, allFrom n i p = true ->
  forall j, i <= j < i + Z.of_nat n -> p j = true.
Proof.
  induction n as [|k IH]; intros i p H j Hj.
  - simpl in Hj. lia.
  - simpl in H. destruct (p i) eqn:Hp; [|discriminate].
    destruct (Z.eq_dec j i) as [->|Hne]; [assumption|].
    apply (IH (i + 1) p H). lia.
Qed.

Lemma ydayOk_all (leap : bool) yday :
  0 <= yday < 365 + (if leap then 1 else 0) -> ydayOk leap yday = true.
Proof.
  intros H. destruct leap.
  - apply (allFrom_spec 366%nat 0 (ydayOk true));
      [vm_compute; reflexivity | simpl; lia].
  - apply (allFrom_spec 365%nat 0 (ydayOk false));
      [vm_compute; reflexivity | simpl; lia].
Qed.

(** A year written by its place in the 400-year cycle: century [a],
    four-year group [b], year [c]. *)
Lemma daysSinceEpoch_digits q a b c :
  0 <= a <= 3 -> 0 <= b <= 24 -> 0 <= c <= 3 ->
  daysSinceEpoch (400 * q + 100 * a + 4 * b + c + 1)
  = 146097 * q + 36524 * a + 1461 * b + 365 * c.
Proof.
  intros Ha Hb Hc.
  unfold daysSinceEpoch, daysPer400Years, daysPer100Years, daysPer4Years.
  cbv zeta. Z.div_mod_to_equations. lia.
Qed.

Lemma isLeap_digits q a b c :
  0 <= a <= 3 -> 0 <= b <= 24 -> 0 <= c <= 3 ->
  isLeap (400 * q + 100 * a + 4 * b + c + 1)
  = (c =? 3) && (negb (b =? 24) || (a =? 3)).
Proof.
  intros Ha Hb Hc. unfold isLeap.
  set (y := 400 * q + 100 * a + 4 * b + c + 1).
  assert (E4 : y mod 4 = (c + 1) mod 4).
  { replace y with (c + 1 + (100 * q + 25 * a + b) * 4) by (subst y; lia).
    apply Z.mod_add. lia. }
  assert (E100 : y mod 100 = (4 * b + c + 1) mod 100).
  { replace y with (4 * b + c + 1 + (4 * q + a) * 100) by (subst y; lia).
    apply Z.mod_add. lia. }
  assert (E400 : y mod 400 = (100 * a + 4 * b + c + 1) mod 400).
  { replace y with (100 * a + 4 * b + c + 1 + q * 400) by (subst y; lia).
    apply Z.mod_add. lia. }
  rewrite E4, E100, E400. clear E4 E100 E400 y.
  destruct (Z.eqb_spec c 3) as [->|Hc3].
  - change ((3 + 1) mod 4) with 0. simpl (0 =? 0). rewrite !andb_true_l.
    destruct (Z.eqb_spec b 24) as [->|Hb24].
    + change ((4 * 24 + 3 + 1) mod 100) with 0. simpl (negb _).
      rewrite !orb_false_l.
      destruct (Z.eqb_spec a 3) as [->|Ha3]; [reflexivity|].
      apply Z.eqb_neq. Z.div_mod_to_equations. lia.
    + simpl (negb false). rewrite orb_true_l.
      replace ((4 * b + 3 + 1) mod 100 =? 0) with false; [reflexivity|].
      symmetry. apply Z.eqb_neq. Z.div_mod_to_equations. lia.
  - replace ((c + 1) mod 4 =? 0) with false; [reflexivity|].
    symmetry. apply Z.eqb_neq. Z.div_mod_to_equations. lia.
Qed.

(** [absYear] finds the place of a day in the cycle. *)
Lemma absYear_digits d :
  exists q a b c yd,
    absYear d = (400 * q + 100 * a + 4 * b + c + 1, yd) /\
    0 <= a <= 3 /\ 0 <= b <= 24 /\ 0 <= c <= 3 /\
    d = 146097 * q + 36524 * a + 1461 * b + 365 * c + yd /\
    0 <= yd < 365 + (if (c =? 3) && (negb (b =? 24) || (a =? 3)) then 1 else 0).
Proof.
  unfold absYear, daysPer400Years, daysPer100Years, daysPer4Years.
  rewrite !Z.shiftr_div_pow2 by lia. change (2 ^ 2) with 4. cbv zeta.
  set (q := d / 146097).
  set (r := d - 146097 * q).
  assert (Hr : 0 <= r < 146097) by (subst r q; Z.div_mod_to_equations; lia).
  set (n1 := r / 36524).
  set (a := n1 - n1 / 4).
  assert (Ha : 0 <= a <= 3 /\ 36524 * a <= r /\ (r < 36524 * (a + 1) \/ a = 3)).
  { subst a n1. Z.div_mod_to_equations. lia. }
  clearbody a. clear n1.
  set (d1 := r - 36524 * a) in *.
  set (b := d1 / 1461) in *.
  set (d2 := d1 - 1461 * b) in *.
  set (n3 := d2 / 365) in *.
  set (c := n3 - n3 / 4) in *.
  assert (Hb : 0 <= b <= 24 /\ 0 <= d2 < 1461 /\ (b = 24 -> a = 3 \/ d2 < 1460)).
  { subst d2 b d1. Z.div_mod_to_equations. lia. }
  assert (Hc : 0 <= c <= 3 /\ 365 * c <= d2 /\ (d2 < 365 * (c + 1) \/ c = 3)).
  { subst c n3. Z.div_mod_to_equations. lia. }
  clearbody c. clear n3.
  exists q, a, b, c, (d2 - 365 * c).
  split; [reflexivity|].
  split; [lia|]. split; [lia|]. split; [lia|].
  split; [subst d2 d1 r; lia|].
  destruct (Z.eqb_spec c 3); destruct (Z.eqb_spec b 24);
    destruct (Z.eqb_spec a 3); cbn [andb orb negb]; lia.
Qed.

(** The civil date of a day number is a valid date, and [civilDays]
    takes it back to the day number. *)
Lemma absDate_civilDays d y m dd :
  absDate d = (y, m, dd) ->
  civilDays y m dd = d /\ 1 <= m <= 12 /\ 1 <= dd <= daysIn m y.
Proof.
  unfold absDate.
  destruct (absYear_digits d) as (q & a & b & c & yd & E & Ha & Hb & Hc & Hd & Hyd).
  rewrite E.
  pose proof (isLeap_digits q a b c Ha Hb Hc) as HL.
  pose proof (daysSinceEpoch_digits q a b c Ha Hb Hc) as HD.
  set (yr := 400 * q + 100 * a + 4 * b + c + 1) in *.
  rewrite <- HL in Hyd.
  pose proof (ydayOk_all (isLeap yr) yd Hyd) as Hok.
  unfold ydayOk in Hok.
  change (yearDate yr yd) with (monthDay (isLeap yr) yd).
  destruct (monthDay (isLeap yr) yd) as [m' d'].
  intros H. injection H as <- <- <-.
  rewrite !andb_true_iff in Hok. destruct Hok as ((((H1 & H2) & H3) & H4) & H5).
  unfold civilDays, daysIn.
  fold (leapAdj (isLeap yr) m'). fold (monthLen (isLeap yr) m').
  rewrite HD. lia.
Qed.

(** Two day numbers with the same civil date are the same day. *)
Lemma absDate_inj d d' : absDate d = absDate d' -> d = d'.
Proof.
  intros H.
  destruct (absDate d) as [[y m] dd] eqn:E.
  symmetry in H.
  apply absDate_civilDays in E. apply absDate_civilDays in H. lia.
Qed.

(** The other direction: [civilDays] is one-to-one on valid dates. *)
Lemma daysSinceEpoch_closed y :
  daysSinceEpoch y = 365 * (y - 1) + (y - 1) / 4 - (y - 1) / 100 + (y - 1) / 400.
Proof.
  unfold daysSinceEpoch, daysPer400Years, daysPer100Years, daysPer4Years.
  cbv zeta. Z.div_mod_to_equations. lia.
Qed.

Lemma daysSinceEpoch_succ y :
  daysSinceEpoch (y + 1) = daysSinceEpoch y + 365 + (if isLeap y then 1 else 0).
Proof.
  rewrite !daysSinceEpoch_closed. unfold isLeap.
  replace (y + 1 - 1) with y by lia.
  destruct (Z.eqb_spec (y mod 4) 0); destruct (Z.eqb_spec (y mod 100) 0);
    destruct (Z.eqb_spec (y mod 400) 0); cbn [andb orb negb];
    Z.div_mod_to_equations; lia.
Qed.

Lemma daysSinceEpoch_mono y y' :
  y <= y' -> daysSinceEpoch y <= daysSinceEpoch y'.
Proof.
  intros H. rewrite !daysSinceEpoch_closed. Z.div_mod_to_equations. lia.
Qed.

Lemma dateOk_all (leap : bool) m d :
  1 <= m <= 12 -> 1 <= d <= monthLen leap m -> dateOk leap m d = true.
Proof.
  intros Hm Hd.
  assert (H : datesOk leap = true) by (destruct leap; vm_compute; reflexivity).
  unfold datesOk in H.
  pose proof (allFrom_spec _ _ _ H m ltac:(simpl; lia)) as Hm'.
  cbv beta in Hm'. apply andb_true_iff in Hm'. destruct Hm' as [H31 Hall].
  apply Z.leb_le in H31.
  exact (allFrom_spec _ _ _ Hall d ltac:(simpl; lia)).
Qed.

Lemma civilDays_inj y m d y' m' d' :
  1 <= m <= 12 -> 1 <= d <= daysIn m y ->
  1 <= m' <= 12 -> 1 <= d' <= daysIn m' y' ->
  civilDays y m d = civilDays y' m' d' ->
  y = y' /\ m = m' /\ d = d'.
Proof.
  unfold daysIn, civilDays.
  fold (leapAdj (isLeap y) m) (leapAdj (isLeap y') m').
  fold (monthLen (isLeap y) m) (monthLen (isLeap y') m').
  intros Hm Hd Hm' Hd' H.
  pose proof (dateOk_all _ m d Hm Hd) as R.
  pose proof (dateOk_all _ m' d' Hm' Hd') as R'.
  unfold dateOk in R, R'.
  replace (d <=? monthLen (isLeap y) m) with true in R
    by (symmetry; apply Z.leb_le; lia).
  replace (d' <=? monthLen (isLeap y') m') with true in R'
    by (symmetry; apply Z.leb_le; lia).
  cbv zeta in R, R'.
  set (yd := daysBefore (m - 1) + leapAdj (isLeap y) m + (d - 1)) in *.
  set (yd' := daysBefore (m' - 1) + leapAdj (isLeap y') m' + (d' - 1)) in *.
  apply andb_true_iff in R. destruct R as [R Rm].
  apply andb_true_iff in R. destruct R as [R0 R1].
  apply andb_true_iff in R'. destruct R' as [R' Rm'].
  apply andb_true_iff in R'. destruct R' as [R0' R1'].
  apply Z.leb_le in R0, R0'. apply Z.ltb_lt in R1, R1'.
  assert (Hy : y = y').
  { destruct (Z.lt_trichotomy y y') as [L | [E | L]]; [|exact E|].
    - pose proof (daysSinceEpoch_mono (y + 1) y' ltac:(lia)).
      pose proof (daysSinceEpoch_succ y). lia.
    - pose proof (daysSinceEpoch_mono (y' + 1) y ltac:(lia)).
      pose proof (daysSinceEpoch_succ y'). lia. }
  subst y'. split; [reflexivity|].
  assert (Hyd : yd = yd') by lia.
  rewrite <- Hyd in Rm'.
  destruct (monthDay (isLeap y) yd) as [m0 d0].
  apply andb_true_iff in Rm, Rm'.
  destruct Rm as [A B]. destruct Rm' as [A' B'].
  apply Z.eqb_eq in A, B, A', B'. lia.
Qed.

Lemma absDate_of_civilDays y m d :
  1 <= m <= 12 -> 1 <= d <= daysIn m y ->
  absDate (civilDays y m d) = (y, m, d).
Proof.
  intros Hm Hd.
  destruct (absDate (civilDays y m d)) as [[y' m'] d'] eqn:E.
  apply absDate_civilDays in E. destruct E as (E & Hm' & Hd').
  destruct (civilDays_inj y' m' d' y m d Hm' Hd' Hm Hd E) as (-> & -> & ->).
  reflexivity.
Qed.
Lemma norm_small hi lo base : 0 <= lo < base -> norm hi lo base = (hi, lo).
Proof.
  intros H. unfold norm.
  rewrite Z.div_small, Z.mod_small by lia. f_equal. lia.
Qed.

(** [Date] at midnight, for a month in range. *)
Lemma Date_midnight y m d l :
  1 <= m <= 12 ->
  Date y m d 0 0 0 0 l
  = mkTime ((civilDays y m d - unixEpochDays) * secondsPerDay - zoneOffset l) 0 l.
Proof.
  intros Hm. unfold Date.
  rewrite (norm_small y (m - 1) 12) by lia. cbv beta iota zeta.
  rewrite (norm_small 0 0 1000000000) by lia. cbv beta iota zeta.
  rewrite (norm_small 0 0 60) by lia. cbv beta iota zeta.
  rewrite (norm_small 0 0 60) by lia. cbv beta iota zeta.
  rewrite (norm_small d 0 24) by lia. cbv beta iota zeta.
  replace (m - 1 + 1) with m by lia.
  unfold secondsPerDay, unixEpochDays. f_equal. lia.
Qed.

End Calendar.

(** ** Instants and the window *)

Section Window.

Import time.

Lemma After_UnixNano t u :
  wellFormed t -> wellFormed u ->
  (After t u = true <-> UnixNano u < UnixNano t).
Proof.
  unfold wellFormed, After, UnixNano. intros Ht Hu.
  rewrite orb_true_iff, andb_true_iff, !Z.ltb_lt, Z.eqb_eq. lia.
Qed.

Lemma Before_UnixNano t u :
  wellFormed t -> wellFormed u ->
  (Before t u = true <-> UnixNano t < UnixNano u).
Proof.
  unfold wellFormed, Before, UnixNano. intros Ht Hu.
  rewrite orb_true_iff, andb_true_iff, !Z.ltb_lt, Z.eqb_eq. lia.
Qed.

Lemma In_wellFormed t l : wellFormed t -> wellFormed (In t l).
Proof. exact (fun H => H). Qed.

Lemma In_UnixNano t l : UnixNano (In t l) = UnixNano t.
Proof. reflexivity. Qed.

Lemma Date_wellFormed y m d hh mi ss ns l :
  wellFormed (Date y m d hh mi ss ns l).
Proof.
  unfold wellFormed, Date, norm. cbv beta iota zeta. simpl nsec.
  apply Z.mod_pos_bound. lia.
Qed.

Lemma Some_wellFormed (a t : Time) :
  Some a = Some t -> wellFormed a -> wellFormed t.
Proof. intros H Ha. injection H as <-. exact Ha. Qed.

(** Every instant [Parse] returns is well formed. *)
Lemma Parse_wellFormed layout value t :
  Parse layout value = Some t -> wellFormed t.
Proof.
  unfold Parse, fieldsTime.
  destruct (parseChunks (chunks layout) value noFields) as [f|]; [|discriminate].
  destruct (_ || _); [discriminate|].
  destruct (f_z f) as [z|].
  - intros H. apply (Some_wellFormed _ _ H). apply Date_wellFormed.
  - destruct (negb _); cbv zeta; intros H; apply (Some_wellFormed _ _ H).
    + unfold wellFormed. cbn [nsec]. apply Date_wellFormed.
    + apply Date_wellFormed.
Qed.

(** The window starts at the midnight that ends [now]'s day in the
    zone, whatever the length of the month. *)
Lemma tomorrowStart_eq now l :
  tomorrowStart now l
  = mkTime ((abs now / secondsPerDay + 1 - unixEpochDays) * secondsPerDay
            - zoneOffset l) 0 l.
Proof.
  unfold tomorrowStart, Year, Month, Day, date.
  destruct (absDate (abs now / secondsPerDay)) as [[y m] d] eqn:E.
  apply absDate_civilDays in E. destruct E as (Hc & Hm & Hd).
  cbn [fst snd]. rewrite Date_midnight by lia.
  f_equal. rewrite <- Hc. unfold civilDays. lia.
Qed.

Lemma tomorrowEnd_eq now l :
  tomorrowEnd now l
  = mkTime (unixSec (tomorrowStart now l) + secondsPerDay) 0 l.
Proof.
  unfold tomorrowEnd. rewrite tomorrowStart_eq. reflexivity.
Qed.

Lemma tomorrowStart_wellFormed now l : wellFormed (tomorrowStart now l).
Proof. rewrite tomorrowStart_eq. unfold wellFormed. simpl. lia. Qed.

Lemma tomorrowEnd_wellFormed now l : wellFormed (tomorrowEnd now l).
Proof. rewrite tomorrowEnd_eq. unfold wellFormed. simpl. lia. Qed.

(** The wall clock of the window start reads the first second of the
    day after [now]'s, when [now] is shown in the same zone. *)
Lemma tomorrowStart_abs now l :
  loc now = l ->
  abs (tomorrowStart now l) = (abs now / secondsPerDay + 1) * secondsPerDay.
Proof.
  intros <-. rewrite tomorrowStart_eq. unfold abs. simpl.
  unfold secondsPerDay, unixEpochDays. lia.
Qed.

(** The test of the loop, in instants. *)
Lemma window_test now l t :
  wellFormed t ->
  inWindow l (tomorrowStart now l) (tomorrowEnd now l) t = true
  <-> UnixNano (tomorrowStart now l) < UnixNano t < UnixNano (tomorrowEnd now l).
Proof.
  intros Ht. unfold inWindow. rewrite andb_true_iff.
  rewrite (After_UnixNano (In t l) (tomorrowStart now l)
             (In_wellFormed t l Ht) (tomorrowStart_wellFormed now l)).
  rewrite (Before_UnixNano (In t l) (tomorrowEnd now l)
             (In_wellFormed t l Ht) (tomorrowEnd_wellFormed now l)).
  rewrite In_UnixNano. tauto.
Qed.

End Window.

(** ** Running the program *)

(** Unfolds the plumbing of a computation, and nothing of what it
    computes with. *)
Ltac run :=
  cbv [bind ret emit logField logPrintf logPrintln logFatalf logEvent deref
       sendDiscordNotification Post Getenv Unmarshal NewService LoadLocation
       Now godotenvLoad EventsListDo effects result counters
       app fst snd posted notifies existsb filter isPost isNetworkCall
       networkCalls webhookPost].

Section Runs.

(** One step of a run. *)
Lemma bind_run {A B} (c : M A) (k : A -> M B) w st :
  bind c k w st
  = match c w st with
    | (Done a, st', out) =>
        let '(r, st'', out') := k a w st' in (r, st'', (out ++ out')%list)
    | (Exit code, st', out) => (Exit code, st', out)
    end.
Proof. reflexivity. Qed.

Lemma notifies_posted out :
  notifies out = true <-> posted out <> [].
Proof.
  unfold notifies, posted. induction out as [|e out IH]; simpl.
  - split; [discriminate | congruence].
  - destruct (isPost e); simpl; [split; [discriminate | reflexivity] | exact IH].
Qed.

Lemma notifies_no_post out :
  notifies out = false <-> posted out = [].
Proof.
  unfold notifies, posted. induction out as [|e out IH]; simpl.
  - split; reflexivity.
  - destruct (isPost e); simpl; [split; discriminate | exact IH].
Qed.

Lemma posted_app out out' : posted (out ++ out') = (posted out ++ posted out')%list.
Proof. apply filter_app. Qed.

Lemma posted_logs out : forallb isLog out = true -> posted out = [].
Proof.
  induction out as [|e out IH]; [reflexivity|].
  cbn [forallb]. intros H. apply andb_true_iff in H. destruct H as [He Ho].
  destruct e; try discriminate. unfold posted. cbn [filter isPost].
  exact (IH Ho).
Qed.

Lemma networkCalls_logs out :
  forallb isLog out = true -> networkCalls out = [].
Proof.
  induction out as [|e out IH]; [reflexivity|].
  cbn [forallb]. intros H. apply andb_true_iff in H. destruct H as [He Ho].
  destruct e; try discriminate. unfold networkCalls. cbn [filter isNetworkCall].
  exact (IH Ho).
Qed.

Lemma outcomeLine_isLog rev ev answer :
  exists line, outcomeLine rev ev answer = Log line.
Proof.
  unfold outcomeLine. destruct (sendResult rev answer); destruct rev;
    eexists; reflexivity.
Qed.

(** The part of an iteration after the parsing, effect by effect. *)
Lemma notifyIfTomorrow_shape rev url l ts te ev s e isAllDay w st :
  exists pre,
    forallb isLog pre = true
    /\ notifyIfTomorrow rev url l ts te ev s e isAllDay w st
       = if inWindow l ts te s
         then
           let text := message ev (time.In s l) (time.In e l) isAllDay in
           (Done tt, mkCounters (clockReads st) (S (posts st)),
            pre ++ [webhookPost url text;
                    outcomeLine rev ev
                      (httpPost w (posts st) url [("content", text)])])%list
         else (Done tt, st, []).
Proof.
  unfold notifyIfTomorrow, inWindow.
  destruct (time.After (time.In s l) ts && time.Before (time.In s l) te);
    [|exists []; split; reflexivity].
  cbv zeta. unfold outcomeLine, sendResult.
  destruct rev, isAllDay; run;
    (destruct (httpPost w (posts st) url _) as [err|resp];
     [|destruct (statusFails _ resp)]);
    run;
    match goal with
    | |- context [(Done tt, _, ?L)] =>
        exists (firstn (List.length L - 2) L)
    end;
    split; reflexivity.
Qed.

(** The part of an iteration after the parsing: one POST with the
    message when the start is in the window, nothing otherwise; the
    loop goes on in both cases. *)
Lemma notifyIfTomorrow_run rev url l ts te ev s e isAllDay w st :
  result (notifyIfTomorrow rev url l ts te ev s e isAllDay w st) = Done tt
  /\ posted (effects (notifyIfTomorrow rev url l ts te ev s e isAllDay w st))
     = if inWindow l ts te s
       then [webhookPost url (message ev (time.In s l) (time.In e l) isAllDay)]
       else [].
Proof.
  unfold notifyIfTomorrow, inWindow.
  destruct (time.After (time.In s l) ts && time.Before (time.In s l) te).
  - destruct rev, isAllDay; run;
      (destruct (httpPost w (posts st) url _) as [err|resp];
       [split; reflexivity|]);
      unfold statusFails;
      destruct (negb _); try destruct (negb _); split; reflexivity.
  - split; reflexivity.
Qed.

Lemma Parse_RFC3339_empty : time.Parse time.RFC3339 "" = None.
Proof. reflexivity. Qed.

Lemma Parse_date_empty : time.Parse "2006-01-02" "" = None.
Proof. reflexivity. Qed.

(** A member with a marker that parses is there. *)
Lemma timestamp_present member t :
  time.Parse time.RFC3339 (DateTime (markers member)) = Some t ->
  member = Some (markers member).
Proof.
  destruct member; [reflexivity|].
  cbn [markers DateTime]. rewrite Parse_RFC3339_empty. discriminate.
Qed.

Lemma date_present member t :
  time.Parse "2006-01-02" (Date (markers member)) = Some t ->
  member = Some (markers member).
Proof.
  destruct member; [reflexivity|].
  cbn [markers Date]. rewrite Parse_date_empty. discriminate.
Qed.

(** An event that has both members takes no iteration into a panic. *)
Lemma panics_present rev ev start end_ :
  Start ev = Some start -> End_ ev = Some end_ -> panics rev ev = false.
Proof.
  intros Hs He. unfold panics. rewrite Hs, He. cbn [isNil orb].
  destruct rev; [|reflexivity].
  repeat match goal with
         | |- context [if ?b then _ else _] => destruct b
         | |- context [match time.Parse ?a ?b with _ => _ end] =>
             destruct (time.Parse a b)
         end; reflexivity.
Qed.

Lemma no_nil_member_no_panic rev events :
  (forall ev, List.In ev events -> Start ev <> None /\ End_ ev <> None) ->
  existsb (panics rev) events = false.
Proof.
  induction events as [|ev rest IH]; [reflexivity|].
  intros H. cbn [existsb]. rewrite IH by (intros; apply H; right; assumption).
  destruct (H ev (or_introl eq_refl)) as [Hs He].
  destruct (Start ev) as [start|] eqn:Es; [|congruence].
  destruct (End_ ev) as [end_|] eqn:Ee; [|congruence].
  rewrite (panics_present rev ev start end_ Es Ee). reflexivity.
Qed.

Lemma nil_start_panics rev events :
  (exists ev, List.In ev events /\ Start ev = None) ->
  existsb (panics rev) events = true.
Proof.
  intros (ev & Hin & Hs). apply existsb_exists. exists ev.
  split; [exact Hin|]. unfold panics. rewrite Hs. destruct rev; reflexivity.
Qed.

(** The parsing arrives at times only for an event with both members. *)
Lemma eventTimes_present ev x :
  eventTimes ev = Some x ->
  Start ev = Some (markers (Start ev)) /\ End_ ev = Some (markers (End_ ev)).
Proof.
  unfold eventTimes.
  destruct (negb (DateTime (markers (Start ev)) =? "")%string).
  - destruct (time.Parse time.RFC3339 (DateTime (markers (Start ev))))
      as [s|] eqn:Hs; [|discriminate].
    destruct (time.Parse time.RFC3339 (DateTime (markers (End_ ev))))
      as [e|] eqn:He; [|discriminate].
    intros _. split; [exact (timestamp_present _ _ Hs)
                     | exact (timestamp_present _ _ He)].
  - destruct (negb (Date (markers (Start ev)) =? "")%string); [|discriminate].
    destruct (time.Parse "2006-01-02" (Date (markers (Start ev))))
      as [s|] eqn:Hs; [|discriminate].
    destruct (time.Parse "2006-01-02" (Date (markers (End_ ev))))
      as [e|] eqn:He; [|discriminate].
    intros _. split; [exact (date_present _ _ Hs) | exact (date_present _ _ He)].
Qed.

Lemma eventTimes_panics rev ev x :
  eventTimes ev = Some x -> panics rev ev = false.
Proof.
  intros H. destruct (eventTimes_present ev x H) as [Hs He].
  exact (panics_present rev ev _ _ Hs He).
Qed.

Lemma eventTimes_timed ev s e :
  time.Parse time.RFC3339 (DateTime (markers (Start ev))) = Some s ->
  time.Parse time.RFC3339 (DateTime (markers (End_ ev))) = Some e ->
  eventTimes ev = Some (s, e, false).
Proof.
  intros Hs He. unfold eventTimes.
  destruct (String.eqb_spec (DateTime (markers (Start ev))) "") as [E|E].
  { rewrite E, Parse_RFC3339_empty in Hs. discriminate. }
  cbn [negb]. rewrite Hs, He. reflexivity.
Qed.

Lemma eventTimes_allDay ev s e :
  DateTime (markers (Start ev)) = "" ->
  time.Parse "2006-01-02" (Date (markers (Start ev))) = Some s ->
  time.Parse "2006-01-02" (Date (markers (End_ ev))) = Some e ->
  eventTimes ev = Some (s, e, true).
Proof.
  intros H0 Hs He. unfold eventTimes. rewrite H0. cbn [String.eqb negb].
  destruct (String.eqb_spec (Date (markers (Start ev))) "") as [E|E].
  { rewrite E, Parse_date_empty in Hs. discriminate. }
  cbn [negb]. rewrite Hs, He. reflexivity.
Qed.

(** The lines at the top of an iteration: log lines, and in the second
    revision the end of the run for an event without start or end. *)
Lemma logEvent_shape rev ev w st :
  exists lines,
    forallb isLog lines = true
    /\ logEvent rev ev w st
       = (match rev with
          | main_go => Done tt
          | part_000 =>
              if isNil (Start ev) || isNil (End_ ev) then Exit 2 else Done tt
          end, st, lines).
Proof.
  destruct rev; run; [exists []; split; reflexivity|].
  destruct (Start ev); [destruct (End_ ev)|];
    eexists; (split; [|reflexivity]); reflexivity.
Qed.

(** A whole iteration, effect by effect: log lines, among them the
    diagnostic when the parsing gives the event up; then, for an event
    in the window, the request and the line that tells how it went.  An
    iteration that reads through a nil pointer ends the run there. *)
Lemma loopBody_shape rev url l ts te ev w st :
  exists pre,
    forallb isLog pre = true
    /\ (panics rev ev = false -> eventTimes ev = None ->
        existsb isDiagnostic pre = true)
    /\ loopBody rev url l ts te ev w st
       = if panics rev ev then (Exit 2, st, pre)
         else
           match eventTimes ev with
           | Some (s, e, isAllDay) =>
               if inWindow l ts te s
               then
                 let text := message ev (time.In s l) (time.In e l) isAllDay in
                 (Done tt, mkCounters (clockReads st) (S (posts st)),
                  pre ++ [webhookPost url text;
                          outcomeLine rev ev
                            (httpPost w (posts st) url [("content", text)])])%list
               else (Done tt, st, pre)
           | None => (Done tt, st, pre)
           end.
Proof.
  destruct (logEvent_shape rev ev w st) as (lines & Hlog & Hl).
  unfold loopBody. rewrite bind_run, Hl.
  match goal with
  | |- context [bind (deref (Start ev)) ?k] =>
      assert (Hrest : exists pre,
        forallb isLog pre = true
        /\ (panics main_go ev = false -> eventTimes ev = None ->
            existsb isDiagnostic pre = true)
        /\ bind (deref (Start ev)) k w st
           = if panics main_go ev then (Exit 2, st, pre)
             else
               match eventTimes ev with
               | Some (s, e, isAllDay) =>
                   if inWindow l ts te s
                   then
                     let text :=
                       message ev (time.In s l) (time.In e l) isAllDay in
                     (Done tt, mkCounters (clockReads st) (S (posts st)),
                      pre ++ [webhookPost url text;
                              outcomeLine rev ev
                                (httpPost w (posts st) url
                                          [("content", text)])])%list
                   else (Done tt, st, pre)
               | None => (Done tt, st, pre)
               end)
  end.
  { unfold panics, eventTimes. rewrite bind_run. unfold deref at 1.
    destruct (Start ev) as [start|]; cbn [markers];
      [|exists []; split; [reflexivity|]; split; [discriminate | reflexivity]].
    cbv beta iota zeta.
    destruct (negb (DateTime start =? "")%string).
    - destruct (time.Parse time.RFC3339 (DateTime start)) as [s|];
        [|eexists; (split; [|split; [|reflexivity]]); reflexivity].
      rewrite bind_run. unfold deref at 1.
      destruct (End_ ev) as [end_|]; cbn [markers isNil];
        [|exists []; split; [reflexivity|]; split;
          [discriminate | reflexivity]].
      cbv beta iota zeta.
      destruct (time.Parse time.RFC3339 (DateTime end_)) as [e|];
        [|eexists; (split; [|split; [|reflexivity]]); reflexivity].
      destruct (notifyIfTomorrow_shape rev url l ts te ev s e false w st)
        as (pre & Hp & Hn).
      rewrite Hn.
      destruct (inWindow l ts te s);
        [exists pre; split; [exact Hp|] | exists []; split; [reflexivity|]];
        (split; [discriminate | reflexivity]).
    - destruct (negb (Date start =? "")%string);
        [|eexists; (split; [|split; [|reflexivity]]); reflexivity].
      destruct (time.Parse "2006-01-02" (Date start)) as [s|];
        [|eexists; (split; [|split; [|reflexivity]]); reflexivity].
      rewrite bind_run. unfold deref at 1.
      destruct (End_ ev) as [end_|]; cbn [markers isNil];
        [|exists []; split; [reflexivity|]; split;
          [discriminate | reflexivity]].
      cbv beta iota zeta.
      destruct (time.Parse "2006-01-02" (Date end_)) as [e|];
        [|eexists; (split; [|split; [|reflexivity]]); reflexivity].
      destruct (notifyIfTomorrow_shape rev url l ts te ev s e true w st)
        as (pre & Hp & Hn).
      rewrite Hn.
      destruct (inWindow l ts te s);
        [exists pre; split; [exact Hp|] | exists []; split; [reflexivity|]];
        (split; [discriminate | reflexivity]). }
  destruct Hrest as (pre & Hp & Hd & Hrest).
  assert (Hdone : forall p,
             panics rev ev = p -> panics main_go ev = p ->
             exists pre0,
               forallb isLog pre0 = true
               /\ (p = false -> eventTimes ev = None ->
                   existsb isDiagnostic pre0 = true)
               /\ (let '(r, st'', out') :=
                     (if p then (Exit 2, st, pre)
                      else
                        match eventTimes ev with
                        | Some (s, e, isAllDay) =>
                            if inWindow l ts te s
                            then
                              let text :=
                                message ev (time.In s l) (time.In e l)
                                        isAllDay in
                              (Done tt,
                               mkCounters (clockReads st) (S (posts st)),
                               pre ++ [webhookPost url text;
                                       outcomeLine rev ev
                                         (httpPost w (posts st) url
                                                   [("content", text)])])%list
                            else (Done tt, st, pre)
                        | None => (Done tt, st, pre)
                        end) in
                   (r, st'', (lines ++ out')%list))
                  = if p then (Exit 2, st, pre0)
                    else
                      match eventTimes ev with
                      | Some (s, e, isAllDay) =>
                          if inWindow l ts te s
                          then
                            let text :=
                              message ev (time.In s l) (time.In e l)
                                      isAllDay in
                            (Done tt,
                             mkCounters (clockReads st) (S (posts st)),
                             pre0 ++ [webhookPost url text;
                                      outcomeLine rev ev
                                        (httpPost w (posts st) url
                                                  [("content", text)])])%list
                          else (Done tt, st, pre0)
                      | None => (Done tt, st, pre0)
                      end).
  { intros p _ Hm. exists (lines ++ pre)%list.
    split; [rewrite forallb_app, Hlog, Hp; reflexivity|].
    split.
    - intros H0 Hn. rewrite H0 in Hm. rewrite existsb_app, (Hd Hm Hn).
      apply orb_true_r.
    - destruct p; [reflexivity|].
      destruct (eventTimes ev) as [[[s e] a]|]; [|reflexivity].
      destruct (inWindow l ts te s); [|reflexivity].
      cbv beta iota zeta. rewrite app_assoc. reflexivity. }
  destruct rev.
  - cbv beta iota zeta. rewrite Hrest.
    destruct (Hdone (panics main_go ev) eq_refl eq_refl) as (pre0 & H1 & H2 & H3).
    exists pre0. split; [exact H1|]. split; [exact H2 | exact H3].
  - destruct (Start ev) as [start|] eqn:Es;
      [destruct (End_ ev) as [end_|] eqn:Ee|].
    + cbn [isNil orb]. cbv beta iota zeta. rewrite Hrest.
      pose proof (panics_present part_000 ev _ _ Es Ee) as P1.
      pose proof (panics_present main_go ev _ _ Es Ee) as P2.
      destruct (Hdone false P1 P2) as (pre0 & H1 & H2 & H3).
      rewrite P2 in *. rewrite P1.
      exists pre0. split; [exact H1|]. split; [intros _; exact (H2 eq_refl) | exact H3].
    + exists lines. unfold panics. rewrite Es, Ee. cbn [isNil orb].
      split; [exact Hlog|]. split; [discriminate | reflexivity].
    + exists lines. unfold panics. rewrite Es. cbn [isNil orb].
      split; [exact Hlog|]. split; [discriminate | reflexivity].
Qed.

(** How an iteration ends: the loop goes on, unless the iteration read
    through a nil pointer. *)
Lemma loopBody_result rev url l ts te ev w st :
  result (loopBody rev url l ts te ev w st)
  = if panics rev ev then Exit 2 else Done tt.
Proof.
  destruct (loopBody_shape rev url l ts te ev w st) as (pre & _ & _ & H).
  rewrite H. destruct (panics rev ev); [reflexivity|].
  destruct (eventTimes ev) as [[[s e] a]|]; [|reflexivity].
  destruct (inWindow l ts te s); reflexivity.
Qed.

(** What an iteration posts, read off the parsing. *)
Lemma loopBody_posted rev url l ts te ev w st :
  posted (effects (loopBody rev url l ts te ev w st))
  = match eventTimes ev with
    | Some (s, e, isAllDay) =>
        if inWindow l ts te s
        then [webhookPost url (message ev (time.In s l) (time.In e l) isAllDay)]
        else []
    | None => []
    end.
Proof.
  destruct (loopBody_shape rev url l ts te ev w st) as (pre & Hp & _ & H).
  rewrite H.
  destruct (eventTimes ev) as [[[s e] a]|] eqn:Et.
  - rewrite (eventTimes_panics rev ev _ Et).
    destruct (inWindow l ts te s); cbv zeta; unfold effects; cbn [snd];
      [|exact (posted_logs pre Hp)].
    rewrite posted_app, (posted_logs pre Hp).
    destruct (outcomeLine_isLog rev ev
                (httpPost w (posts st) url
                   [("content", message ev (time.In s l) (time.In e l) a)]))
      as (line & ->).
    reflexivity.
  - destruct (panics rev ev); unfold effects; cbn [snd];
      exact (posted_logs pre Hp).
Qed.

(** An iteration on an event with a start timestamp, both timestamps
    parsing. *)
Lemma loopBody_timed rev url l ts te ev s e w st :
  time.Parse time.RFC3339 (DateTime (markers (Start ev))) = Some s ->
  time.Parse time.RFC3339 (DateTime (markers (End_ ev))) = Some e ->
  result (loopBody rev url l ts te ev w st) = Done tt
  /\ posted (effects (loopBody rev url l ts te ev w st))
     = if inWindow l ts te s
       then [webhookPost url (message ev (time.In s l) (time.In e l) false)]
       else [].
Proof.
  intros Hs He. pose proof (eventTimes_timed ev s e Hs He) as Et.
  rewrite loopBody_result, loopBody_posted, Et, (eventTimes_panics rev ev _ Et).
  split; reflexivity.
Qed.

(** An iteration on an event with no start timestamp and a start date,
    both dates parsing. *)
Lemma loopBody_allDay rev url l ts te ev s e w st :
  DateTime (markers (Start ev)) = "" ->
  time.Parse "2006-01-02" (Date (markers (Start ev))) = Some s ->
  time.Parse "2006-01-02" (Date (markers (End_ ev))) = Some e ->
  result (loopBody rev url l ts te ev w st) = Done tt
  /\ posted (effects (loopBody rev url l ts te ev w st))
     = if inWindow l ts te s
       then [webhookPost url (message ev (time.In s l) (time.In e l) true)]
       else [].
Proof.
  intros H0 Hs He. pose proof (eventTimes_allDay ev s e H0 Hs He) as Et.
  rewrite loopBody_result, loopBody_posted, Et, (eventTimes_panics rev ev _ Et).
  split; reflexivity.
Qed.

(** An iteration that ends at the parsing logs why. *)
Lemma loopBody_diagnostic rev url l ts te ev w st :
  panics rev ev = false ->
  eventTimes ev = None ->
  loopBody rev url l ts te ev w st
  = (Done tt, st, effects (loopBody rev url l ts te ev w st))
  /\ existsb isDiagnostic (effects (loopBody rev url l ts te ev w st)) = true.
Proof.
  intros Hp Hn.
  destruct (loopBody_shape rev url l ts te ev w st) as (pre & _ & Hd & H).
  rewrite H, Hp, Hn. unfold effects. cbn [snd].
  split; [reflexivity | exact (Hd Hp Hn)].
Qed.

(** The loop: it gets through the events before the first whose
    iteration panics, and posts for them event by event. *)
Lemma forEach_loopBody_run rev url l ts te events :
  forall w st,
    result (forEach events (loopBody rev url l ts te) w st)
    = (if existsb (panics rev) events then Exit 2 else Done tt)
    /\ posted (effects (forEach events (loopBody rev url l ts te) w st))
       = flat_map (eventPost url l ts te) (beforePanic rev events)
    /\ networkCalls (effects (forEach events (loopBody rev url l ts te) w st))
       = flat_map (eventPost url l ts te) (beforePanic rev events).
Proof.
  induction events as [|ev rest IH]; intros w st.
  - repeat split; reflexivity.
  - cbn [forEach flat_map existsb beforePanic]. rewrite bind_run.
    destruct (loopBody_shape rev url l ts te ev w st) as (pre & Hpre & _ & Hb).
    destruct (panics rev ev) eqn:Hp.
    { rewrite Hb. unfold result, effects. cbn [fst snd orb flat_map].
      rewrite posted_logs, networkCalls_logs by exact Hpre.
      repeat split; reflexivity. }
    assert (Hone : exists st',
               loopBody rev url l ts te ev w st
               = (Done tt, st', effects (loopBody rev url l ts te ev w st))
               /\ posted (effects (loopBody rev url l ts te ev w st))
                  = eventPost url l ts te ev
               /\ networkCalls (effects (loopBody rev url l ts te ev w st))
                  = eventPost url l ts te ev).
    { rewrite Hb. unfold eventPost.
      destruct (eventTimes ev) as [[[s e] a]|];
        [destruct (inWindow l ts te s)|]; cbv zeta; eexists;
        (split; [reflexivity|]); unfold effects; cbn [snd].
      - unfold posted, networkCalls. rewrite !filter_app.
        fold (posted pre) (networkCalls pre).
        rewrite posted_logs, networkCalls_logs by exact Hpre.
        destruct (outcomeLine_isLog rev ev
                    (httpPost w (posts st) url
                       [("content",
                         message ev (time.In s l) (time.In e l) a)]))
          as (line & ->).
        split; reflexivity.
      - rewrite posted_logs, networkCalls_logs by exact Hpre.
        split; reflexivity.
      - rewrite posted_logs, networkCalls_logs by exact Hpre.
        split; reflexivity. }
    destruct Hone as (st' & Hrun & Hpo & Hn).
    rewrite Hrun. cbv beta iota zeta.
    destruct (IH w st') as (Ir & Ip & In').
    destruct (forEach rest (loopBody rev url l ts te) w st') as [[r st''] out].
    unfold result, effects in *. cbn [fst snd orb flat_map] in *.
    split; [exact Ir|].
    unfold posted, networkCalls in *. rewrite !filter_app.
    rewrite Hpo, Hn, Ip, In'. split; reflexivity.
Qed.

(** The part of an iteration after the parsing, line by line, for a
    start in the window. *)
Lemma notifyIfTomorrow_notified rev url l ts te ev s e isAllDay w st :
  inWindow l ts te s = true ->
  notifyIfTomorrow rev url l ts te ev s e isAllDay w st
  = let text := message ev (time.In s l) (time.In e l) isAllDay in
    (Done tt, mkCounters (clockReads st) (S (posts st)),
     notifiedLines rev ev (time.In s l) (time.In e l) isAllDay
     ++ [webhookPost url text;
         outcomeLine rev ev (httpPost w (posts st) url [("content", text)])])%list.
Proof.
  unfold notifyIfTomorrow, inWindow. intros ->.
  cbv zeta. unfold outcomeLine, sendResult, notifiedLines.
  destruct rev, isAllDay; run;
    (destruct (httpPost w (posts st) url _) as [err|resp];
     [|destruct (statusFails _ resp)]);
    reflexivity.
Qed.

(** A whole iteration that notifies, line by line. *)
Lemma loopBody_notified rev url l ts te ev s e isAllDay w st :
  eventTimes ev = Some (s, e, isAllDay) ->
  inWindow l ts te s = true ->
  loopBody rev url l ts te ev w st
  = let text := message ev (time.In s l) (time.In e l) isAllDay in
    (Done tt, mkCounters (clockReads st) (S (posts st)),
     eventLines rev ev
     ++ notifiedLines rev ev (time.In s l) (time.In e l) isAllDay
     ++ [webhookPost url text;
         outcomeLine rev ev (httpPost w (posts st) url [("content", text)])])%list.
Proof.
  intros Et Hw.
  destruct (eventTimes_present ev _ Et) as [Hs He].
  unfold loopBody, eventLines, logEvent.
  unfold eventTimes in Et.
  destruct (Start ev) as [start|]; [|discriminate].
  destruct (End_ ev) as [end_|]; [|discriminate].
  cbn [markers] in *. clear Hs He.
  destruct rev; run;
    (destruct (negb (DateTime start =? "")%string);
     [destruct (time.Parse time.RFC3339 (DateTime start)) as [s'|];
      [|discriminate];
      destruct (time.Parse time.RFC3339 (DateTime end_)) as [e'|];
      [|discriminate]
     |destruct (negb (Date start =? "")%string); [|discriminate];
      destruct (time.Parse "2006-01-02" (Date start)) as [s'|];
      [|discriminate];
      destruct (time.Parse "2006-01-02" (Date end_)) as [e'|];
      [|discriminate]]);
    injection Et as -> -> <-;
    rewrite (notifyIfTomorrow_notified _ url l ts te ev s e _ w st Hw);
    reflexivity.
Qed.

(** How the loop ends: normally, whatever the webhook answers, unless
    an iteration read through a nil pointer. *)
Lemma forEach_loopBody_result rev url l ts te events :
  forall w st,
    result (forEach events (loopBody rev url l ts te) w st)
    = if existsb (panics rev) events then Exit 2 else Done tt.
Proof.
  intros w st. exact (proj1 (forEach_loopBody_run rev url l ts te events w st)).
Qed.

End Runs.

(** ** The window filter *)

Section Filter.

Variables (rev : Revision) (webhookURL : string) (location : time.Location).
Variable now : time.Time.
Variables (w : World) (st : Counters).

(** C1. An event whose start and end timestamps parse is notified if
    and only if its start instant, converted to the zone, lies strictly
    between the window start and the window end; a start equal to
    either end of the window is not notified. *)
Theorem C1_timed_event_strictly_inside_window :
  forall (ev : Event) (startTime endTime : time.Time),
    time.Parse time.RFC3339 (DateTime (markers (Start ev))) = Some startTime ->
    time.Parse time.RFC3339 (DateTime (markers (End_ ev))) = Some endTime ->
    let windowStart := tomorrowStart now location in
    let windowEnd := tomorrowEnd now location in
    let out :=
      effects (loopBody rev webhookURL location windowStart windowEnd ev w st) in
    let start := time.In startTime location in
    (notifies out = true
     <-> UnixNano windowStart < UnixNano start < UnixNano windowEnd)
    /\ (UnixNano start = UnixNano windowStart -> notifies out = false)
    /\ (UnixNano start = UnixNano windowEnd -> notifies out = false).
Proof.
  intros ev s e Hs He windowStart windowEnd out start.
  destruct (loopBody_timed rev webhookURL location windowStart windowEnd
              ev s e w st Hs He) as [_ Hp].
  pose proof (window_test now location s (Parse_wellFormed _ _ _ Hs)) as Hw.
  subst out start windowStart windowEnd. rewrite In_UnixNano.
  match goal with |- (?n = true <-> ?P) /\ _ =>
    assert (Hiff : n = true <-> P)
  end.
  { rewrite notifies_posted, Hp, <- Hw.
    destruct (inWindow _ _ _ s); split; intros H; congruence. }
  split; [exact Hiff|].
  split; intros Heq;
    (destruct (notifies _); [|reflexivity]);
    pose proof (proj1 Hiff eq_refl); lia.
Qed.

End Filter.

Lemma C1_witness :
  time.Parse time.RFC3339 (DateTime (markers (Start meeting))) = Some meetingStart
  /\ time.Parse time.RFC3339 (DateTime (markers (End_ meeting))) = Some meetingEnd
  /\ notifies
       (effects
          (loopBody part_000 hook tokyoZone (tomorrowStart sampleNow tokyoZone)
                    (tomorrowEnd sampleNow tokyoZone) meeting
                    (sampleWorld [meeting] noContent) start0)) = true.
Proof.
  split; [vm_compute; reflexivity|]. split; [vm_compute; reflexivity|].
  apply (proj1 (C1_timed_event_strictly_inside_window
                  part_000 hook tokyoZone sampleNow
                  (sampleWorld [meeting] noContent) start0
                  meeting meetingStart meetingEnd
                  ltac:(vm_compute; reflexivity) ltac:(vm_compute; reflexivity))).
  vm_compute. split; reflexivity.
Defined.

(** ** Strings *)

Lemma append_assoc (a b c : string) : ((a ++ b) ++ c = a ++ b ++ c)%string.
Proof. induction a as [|x a IH]; simpl; [reflexivity | now rewrite IH]. Qed.

Lemma append_nil_r (a : string) : (a ++ "")%string = a.
Proof. induction a as [|x a IH]; simpl; [reflexivity | now rewrite IH]. Qed.

(** ** Dates without a time of day *)

Section DateOnly.

Import time.

(** A digit is the character of its value. *)
Lemma isDigit_digitChar c :
  isDigit c = true -> 0 <= digitVal c <= 9 /\ digitChar (digitVal c) = c.
Proof.
  destruct c as [b0 b1 b2 b3 b4 b5 b6 b7].
  destruct b0, b1, b2, b3, b4, b5, b6, b7; intros H;
    try discriminate H; vm_compute; repeat split; congruence.
Qed.

Lemma twoDigits a b :
  0 <= a <= 9 -> 0 <= b <= 9 ->
  appendInt (a * 10 + b) 2 = String (digitChar a) (String (digitChar b) "").
Proof.
  intros Ha Hb. apply String.eqb_eq.
  assert (H : allFrom 10 0 (fun a => allFrom 10 0 (twoDigitsOk a)) = true)
    by (vm_compute; reflexivity).
  pose proof (allFrom_spec _ _ _ H a ltac:(simpl; lia)) as H'.
  exact (allFrom_spec _ _ _ H' b ltac:(simpl; lia)).
Qed.

Lemma fourDigits a b c d :
  0 <= a <= 9 -> 0 <= b <= 9 -> 0 <= c <= 9 -> 0 <= d <= 9 ->
  appendInt (((a * 10 + b) * 10 + c) * 10 + d) 4
  = String (digitChar a)
      (String (digitChar b) (String (digitChar c) (String (digitChar d) ""))).
Proof.
  intros Ha Hb Hc Hd. apply String.eqb_eq.
  assert (H : allFrom 10 0 (fun a =>
              allFrom 10 0 (fun b =>
              allFrom 10 0 (fun c =>
              allFrom 10 0 (fourDigitsOk a b c)))) = true)
    by (vm_compute; reflexivity).
  pose proof (allFrom_spec _ _ _ H a ltac:(simpl; lia)) as H1.
  pose proof (allFrom_spec _ _ _ H1 b ltac:(simpl; lia)) as H2.
  pose proof (allFrom_spec _ _ _ H2 c ltac:(simpl; lia)) as H3.
  exact (allFrom_spec _ _ _ H3 d ltac:(simpl; lia)).
Qed.

(** Two digits read by [getnum] are the two digits [appendInt] writes. *)
Lemma getnum_fixed v n rest :
  getnum v true = Some (n, rest) ->
  0 <= n /\ v = (appendInt n 2 ++ rest)%string.
Proof.
  unfold getnum.
  destruct v as [|c0 [|c1 v']].
  - discriminate.
  - destruct (isDigit c0); discriminate.
  - destruct (isDigit c0) eqn:E0; [|discriminate].
    destruct (isDigit c1) eqn:E1; [|discriminate].
    intros H. injection H as <- <-.
    destruct (isDigit_digitChar c0 E0) as [R0 D0].
    destruct (isDigit_digitChar c1 E1) as [R1 D1].
    split; [lia|].
    rewrite twoDigits by assumption. rewrite D0, D1. reflexivity.
Qed.

Lemma parseElem_year v f v' f' :
  parseElem stdLongYear v f = Some (v', f') ->
  exists y,
    v = (appendInt y 4 ++ v')%string
    /\ f' = mkFields y (f_month f) (f_day f) (f_hour f) (f_min f) (f_sec f)
                     (f_nsec f) (f_z f) (f_zoneOffset f).
Proof.
  unfold parseElem.
  destruct v as [|c0 [|c1 [|c2 [|c3 rest]]]]; try discriminate.
  cbn [atoiFrom].
  destruct (isDigit c0) eqn:E0; [|discriminate].
  destruct (isDigit c1) eqn:E1; [|discriminate].
  destruct (isDigit c2) eqn:E2; [|discriminate].
  destruct (isDigit c3) eqn:E3; [|discriminate].
  intros H. injection H as <- <-.
  destruct (isDigit_digitChar c0 E0) as [R0 D0].
  destruct (isDigit_digitChar c1 E1) as [R1 D1].
  destruct (isDigit_digitChar c2 E2) as [R2 D2].
  destruct (isDigit_digitChar c3 E3) as [R3 D3].
  eexists. split; [|reflexivity].
  replace (0 * 10 + digitVal c0) with (digitVal c0) by lia.
  rewrite fourDigits by assumption. rewrite D0, D1, D2, D3. reflexivity.
Qed.

Lemma parseElem_month v f v' f' :
  parseElem stdZeroMonth v f = Some (v', f') ->
  exists m,
    1 <= m <= 12 /\ v = (appendInt m 2 ++ v')%string
    /\ f' = mkFields (f_year f) m (f_day f) (f_hour f) (f_min f) (f_sec f)
                     (f_nsec f) (f_z f) (f_zoneOffset f).
Proof.
  unfold parseElem.
  destruct (getnum v true) as [[m rest]|] eqn:G; [|discriminate].
  destruct ((m <=? 0) || (12 <? m)) eqn:E; [discriminate|].
  intros H. injection H as <- <-. exists m.
  apply orb_false_iff in E. destruct E as [E1 E2].
  apply Z.leb_gt in E1. apply Z.ltb_ge in E2.
  apply getnum_fixed in G. destruct G as [_ G].
  split; [lia|]. split; [exact G | reflexivity].
Qed.

Lemma parseElem_day v f v' f' :
  parseElem stdZeroDay v f = Some (v', f') ->
  exists d,
    0 <= d /\ v = (appendInt d 2 ++ v')%string
    /\ f' = mkFields (f_year f) (f_month f) d (f_hour f) (f_min f) (f_sec f)
                     (f_nsec f) (f_z f) (f_zoneOffset f).
Proof.
  unfold parseElem.
  destruct (getnum v true) as [[d rest]|] eqn:G; [|discriminate].
  intros H. injection H as <- <-. exists d.
  apply getnum_fixed in G. destruct G as [G0 G].
  split; [exact G0|]. split; [exact G | reflexivity].
Qed.

(** A value read as a date is the midnight in UTC that begins a valid
    civil date, and the value is that date written out. *)
Lemma Parse_date_midnight value t :
  Parse "2006-01-02" value = Some t ->
  exists y m d,
    1 <= m <= 12 /\ 1 <= d <= daysIn m y /\ t = Date y m d 0 0 0 0 UTC
    /\ value = (appendInt y 4 ++ "-" ++ appendInt m 2 ++ "-" ++ appendInt d 2)%string.
Proof.
  unfold Parse.
  change (chunks "2006-01-02")
    with [Elem stdLongYear; Lit "-"; Elem stdZeroMonth; Lit "-"; Elem stdZeroDay].
  cbn [parseChunks].
  destruct (parseElem stdLongYear value noFields) as [[v1 f1]|] eqn:E1;
    [|discriminate].
  destruct v1 as [|c1 v2]; [discriminate|].
  destruct (Ascii.eqb_spec c1 "-") as [->|]; [|discriminate].
  destruct (parseElem stdZeroMonth v2 f1) as [[v3 f2]|] eqn:E2; [|discriminate].
  destruct v3 as [|c3 v4]; [discriminate|].
  destruct (Ascii.eqb_spec c3 "-") as [->|]; [|discriminate].
  destruct (parseElem stdZeroDay v4 f2) as [[v5 f3]|] eqn:E3; [|discriminate].
  destruct v5; [|discriminate].
  apply parseElem_year in E1. destruct E1 as (y & Vy & ->).
  apply parseElem_month in E2. destruct E2 as (m & Hm & Vm & ->).
  apply parseElem_day in E3. destruct E3 as (d & Hd0 & Vd & ->).
  unfold fieldsTime. cbn [f_year f_month f_day f_hour f_min f_sec f_nsec f_z
                           f_zoneOffset noFields].
  replace (m <? 0) with false by (symmetry; apply Z.ltb_ge; lia).
  replace (d <? 0) with false by (symmetry; apply Z.ltb_ge; lia).
  destruct ((d <? 1) || (daysIn m y <? d)) eqn:E; [discriminate|].
  apply orb_false_iff in E. destruct E as [Ea Eb].
  apply Z.ltb_ge in Ea. apply Z.ltb_ge in Eb.
  change (negb (-1 =? -1)) with false. cbv iota.
  intros H. exists y, m, d. split; [lia|]. split; [lia|].
  split.
  - symmetry.
    apply (f_equal (fun o => match o with Some x => x | None => t end)) in H.
    exact H.
  - rewrite Vy, Vm, Vd, append_nil_r. reflexivity.
Qed.

(** The instant of a date: as many whole days after the epoch as its
    day number says. *)
Lemma Parse_date_unix value t :
  Parse "2006-01-02" value = Some t ->
  exists y m d,
    1 <= m <= 12 /\ 1 <= d <= daysIn m y /\
    t = mkTime ((civilDays y m d - unixEpochDays) * secondsPerDay) 0 UTC.
Proof.
  intros H. apply Parse_date_midnight in H.
  destruct H as (y & m & d & Hm & Hd & -> & _).
  exists y, m, d. split; [lia|]. split; [lia|].
  rewrite Date_midnight by lia. f_equal. simpl zoneOffset. lia.
Qed.

(** Reading a date and writing the instant back in UTC gives the value
    that was read. *)
Lemma Parse_date_Format value t :
  Parse "2006-01-02" value = Some t ->
  loc t = UTC /\ dateStamp t = value /\ Format t "2006-01-02" = value.
Proof.
  intros H. destruct (Parse_date_midnight _ _ H) as (y & m & d & Hm & Hd & Et & Ev).
  rewrite Date_midnight in Et by lia.
  assert (Hdate : date t = (y, m, d)).
  { rewrite Et. unfold date, abs. cbn [unixSec loc zoneOffset UTC].
    replace ((civilDays y m d - unixEpochDays) * secondsPerDay - 0 + 0
             + unixEpochDays * secondsPerDay)
      with (civilDays y m d * secondsPerDay) by lia.
    rewrite Z.div_mul by (unfold secondsPerDay; lia).
    apply absDate_of_civilDays; assumption. }
  assert (Hstamp : dateStamp t = value).
  { unfold dateStamp, Year, Month, Day. rewrite Hdate. cbn [fst snd].
    symmetry. exact Ev. }
  split; [rewrite Et; reflexivity|]. split; [exact Hstamp|].
  rewrite <- Hstamp. unfold Format.
  change (chunks "2006-01-02")
    with [Elem stdLongYear; Lit "-"; Elem stdZeroMonth; Lit "-"; Elem stdZeroDay].
  cbn [formatChunks formatElem]. rewrite append_nil_r.
  unfold dateStamp. cbn [String.append]. reflexivity.
Qed.

(** Numbers below a hundred take two characters, numbers below ten
    thousand four. *)
Lemma appendInt_length2 n :
  0 <= n <= 99 -> String.length (appendInt n 2) = 2%nat.
Proof.
  intros H.
  pose proof (Z.div_mod n 10 ltac:(lia)) as E.
  pose proof (Z.mod_pos_bound n 10 ltac:(lia)) as B.
  replace n with (n / 10 * 10 + n mod 10) by lia.
  rewrite twoDigits by lia. reflexivity.
Qed.

Lemma appendInt_length4 n :
  0 <= n <= 9999 -> String.length (appendInt n 4) = 4%nat.
Proof.
  intros H.
  pose proof (Z.div_mod n 10 ltac:(lia)) as E1.
  pose proof (Z.mod_pos_bound n 10 ltac:(lia)) as B1.
  pose proof (Z.div_mod (n / 10) 10 ltac:(lia)) as E2.
  pose proof (Z.mod_pos_bound (n / 10) 10 ltac:(lia)) as B2.
  pose proof (Z.div_mod (n / 10 / 10) 10 ltac:(lia)) as E3.
  pose proof (Z.mod_pos_bound (n / 10 / 10) 10 ltac:(lia)) as B3.
  replace n with (((n / 10 / 10 / 10 * 10 + n / 10 / 10 mod 10) * 10
                   + n / 10 mod 10) * 10 + n mod 10) by lia.
  rewrite fourDigits by lia. reflexivity.
Qed.

Lemma length_append (a b : string) :
  String.length (a ++ b) = (String.length a + String.length b)%nat.
Proof. induction a as [|x a IH]; simpl; [reflexivity | now rewrite IH]. Qed.

Lemma daysIn_le_31 m y : 1 <= m <= 12 -> daysIn m y <= 31.
Proof.
  intros Hm. unfold daysIn. fold (monthLen (isLeap y) m).
  assert (H : datesOk (isLeap y) = true)
    by (destruct (isLeap y); vm_compute; reflexivity).
  unfold datesOk in H.
  pose proof (allFrom_spec _ _ _ H m ltac:(simpl; lia)) as H'.
  cbv beta in H'. apply andb_true_iff in H'. destruct H' as [H' _].
  apply Z.leb_le in H'. exact H'.
Qed.

(** Sixteen characters, in the years of four digits. *)
Lemma minuteStamp_length t :
  0 <= Year t <= 9999 -> String.length (minuteStamp t) = 16%nat.
Proof.
  intros Hy.
  assert (Hmd : 1 <= Month t <= 12 /\ 1 <= Day t <= 31).
  { unfold Month, Day. destruct (date t) as [[y m] d] eqn:E.
    unfold date in E. apply absDate_civilDays in E.
    destruct E as (_ & Hm & Hd). cbn [fst snd].
    pose proof (daysIn_le_31 m y Hm). lia. }
  assert (Hh : 0 <= Hour_ t <= 23).
  { unfold Hour_, secondsPerDay. Z.div_mod_to_equations. lia. }
  assert (Hmi : 0 <= Minute t <= 59).
  { unfold Minute. Z.div_mod_to_equations. lia. }
  unfold minuteStamp. rewrite !length_append.
  rewrite appendInt_length4 by lia.
  rewrite !appendInt_length2 by lia. reflexivity.
Qed.

End DateOnly.

(** A date that is the date of the window start: its midnight in UTC
    is nine hours into the window of a zone nine hours east. *)
Lemma target_day_midnight now l t :
  time.zoneOffset l = 9 * 60 * 60 ->
  (exists y m d,
      t = time.mkTime ((time.civilDays y m d - time.unixEpochDays)
                       * time.secondsPerDay) 0 time.UTC) ->
  time.date t = time.date (tomorrowStart now l) ->
  time.Hour_ t = 0 /\ time.Minute t = 0 /\ time.Second_ t = 0
  /\ UnixNano (time.In t l) = UnixNano (tomorrowStart now l) + 9 * time.Hour
  /\ time.date (time.In t l) = time.date (tomorrowStart now l)
  /\ time.Hour_ (time.In t l) = 9 /\ time.Minute (time.In t l) = 0
  /\ time.Second_ (time.In t l) = 0
  /\ UnixNano (tomorrowStart now l) < UnixNano t < UnixNano (tomorrowEnd now l).
Proof.
  intros Hoff (y & m & d & ->).
  rewrite tomorrowEnd_eq. rewrite tomorrowStart_eq.
  generalize (time.abs now / time.secondsPerDay). intros D.
  generalize (time.civilDays y m d). intros c.
  unfold time.date, time.Hour_, time.Minute, time.Second_, time.abs, time.In,
    UnixNano.
  cbn [time.unixSec time.nsec time.loc time.zoneOffset time.UTC].
  rewrite Hoff.
  unfold time.secondsPerDay, time.unixEpochDays, time.Hour, time.Second.
  intros Hday.
  assert (Hn : c = D + 1).
  { apply absDate_inj in Hday. Z.div_mod_to_equations. lia. }
  subst c. clear Hday.
  split; [Z.div_mod_to_equations; lia|].
  split; [Z.div_mod_to_equations; lia|].
  split; [Z.div_mod_to_equations; lia|].
  split; [lia|].
  split; [f_equal; Z.div_mod_to_equations; lia|].
  split; [Z.div_mod_to_equations; lia|].
  split; [Z.div_mod_to_equations; lia|].
  split; [Z.div_mod_to_equations; lia|].
  lia.
Qed.

(** ** All-day events *)

Section AllDay.

Variables (rev : Revision) (webhookURL : string) (location : time.Location).
Variable now : time.Time.
Variables (w : World) (st : Counters).

(** C3. An event with no start timestamp whose start and end dates
    parse is notified if and only if the midnight that begins its start
    date (midnight in UTC, which is how a date without a zone is read)
    lies strictly between the window start and the window end.  The
    start instant is that midnight: it is [Date y m d 0 0 0 0 UTC] for
    the year, month and day the marker spells, and written back as a
    date it is the marker. *)
Theorem C3_all_day_event_strictly_inside_window :
  forall (ev : Event) (startTime endTime : time.Time),
    DateTime (markers (Start ev)) = "" ->
    time.Parse "2006-01-02" (Date (markers (Start ev))) = Some startTime ->
    time.Parse "2006-01-02" (Date (markers (End_ ev))) = Some endTime ->
    let windowStart := tomorrowStart now location in
    let windowEnd := tomorrowEnd now location in
    let out :=
      effects (loopBody rev webhookURL location windowStart windowEnd ev w st) in
    (exists y m d,
        1 <= m <= 12 /\ 1 <= d <= time.daysIn m y
        /\ startTime = time.Date y m d 0 0 0 0 time.UTC
        /\ Date (markers (Start ev))
           = time.appendInt y 4 ++ "-" ++ time.appendInt m 2 ++ "-"
             ++ time.appendInt d 2)
    /\ time.Format startTime "2006-01-02" = Date (markers (Start ev))
    /\ (notifies out = true
        <-> UnixNano windowStart < UnixNano (time.In startTime location)
            < UnixNano windowEnd).
Proof.
  intros ev s e H0 Hs He windowStart windowEnd out.
  split; [exact (Parse_date_midnight _ _ Hs)|].
  split; [exact (proj2 (proj2 (Parse_date_Format _ _ Hs)))|].
  destruct (loopBody_allDay rev webhookURL location windowStart windowEnd
              ev s e w st H0 Hs He) as [_ Hp].
  pose proof (window_test now location s (Parse_wellFormed _ _ _ Hs)) as Hw.
  subst out windowStart windowEnd. rewrite In_UnixNano.
  rewrite notifies_posted, Hp, <- Hw.
  destruct (inWindow _ _ _ s); split; intros H; congruence.
Qed.

(** C9. An all-day event whose start date is the target day (its
    marker spells the date of the window start) is notified: its start
    is midnight UTC of that date, nine hours after the window start,
    which is 09:00 of the target day in the zone. *)
Theorem C9_all_day_event_on_target_day_is_notified :
  forall (ev : Event) (startTime endTime : time.Time),
    time.zoneOffset location = 9 * 60 * 60 ->
    DateTime (markers (Start ev)) = "" ->
    time.Parse "2006-01-02" (Date (markers (Start ev))) = Some startTime ->
    time.Parse "2006-01-02" (Date (markers (End_ ev))) = Some endTime ->
    time.date startTime = time.date (tomorrowStart now location) ->
    let windowStart := tomorrowStart now location in
    let windowEnd := tomorrowEnd now location in
    let out :=
      effects (loopBody rev webhookURL location windowStart windowEnd ev w st) in
    let start := time.In startTime location in
    Date (markers (Start ev)) = dateStamp windowStart
    /\ time.loc startTime = time.UTC
    /\ time.Hour_ startTime = 0 /\ time.Minute startTime = 0
    /\ time.Second_ startTime = 0 /\ time.nsec startTime = 0
    /\ UnixNano start = UnixNano windowStart + 9 * time.Hour
    /\ time.date start = time.date windowStart
    /\ time.Hour_ start = 9 /\ time.Minute start = 0 /\ time.Second_ start = 0
    /\ notifies out = true
    /\ posted out = [webhookPost webhookURL (message ev start
                                              (time.In endTime location) true)].
Proof.
  intros ev s e Hoff H0 Hs He Hday windowStart windowEnd out start.
  destruct (loopBody_allDay rev webhookURL location windowStart windowEnd
              ev s e w st H0 Hs He) as [_ Hp].
  pose proof (window_test now location s (Parse_wellFormed _ _ _ Hs)) as Hw.
  destruct (Parse_date_unix _ _ Hs) as (y & m & d & Hm & Hd & Es).
  assert (Hex : exists y m d,
             s = time.mkTime ((time.civilDays y m d - time.unixEpochDays)
                              * time.secondsPerDay) 0 time.UTC)
    by (exists y, m, d; exact Es).
  destruct (target_day_midnight now location s Hoff Hex Hday)
    as (A1 & A2 & A3 & A4 & A5 & A6 & A7 & A8 & A9).
  apply Hw in A9.
  subst out start windowStart windowEnd.
  rewrite A9 in Hp.
  split.
  { destruct (Parse_date_Format _ _ Hs) as (_ & Hstamp & _).
    rewrite <- Hstamp. unfold dateStamp, time.Year, time.Month, time.Day.
    rewrite Hday. reflexivity. }
  split; [rewrite Es; reflexivity|].
  split; [exact A1|]. split; [exact A2|]. split; [exact A3|].
  split; [rewrite Es; reflexivity|].
  split; [exact A4|]. split; [exact A5|].
  split; [exact A6|]. split; [exact A7|]. split; [exact A8|].
  split; [apply notifies_posted; rewrite Hp; discriminate|].
  exact Hp.
Qed.

End AllDay.

Lemma C3_witness :
  DateTime (markers (Start holiday)) = ""
  /\ time.Parse "2006-01-02" (Date (markers (Start holiday))) = Some holidayStart
  /\ time.Parse "2006-01-02" (Date (markers (End_ holiday))) = Some holidayEnd
  /\ notifies
       (effects
          (loopBody main_go hook tokyoZone (tomorrowStart sampleNow tokyoZone)
                    (tomorrowEnd sampleNow tokyoZone) holiday
                    (sampleWorld [holiday] noContent) start0)) = true.
Proof.
  split; [reflexivity|].
  split; [vm_compute; reflexivity|]. split; [vm_compute; reflexivity|].
  apply (proj2 (proj2 (C3_all_day_event_strictly_inside_window
                  main_go hook tokyoZone sampleNow
                  (sampleWorld [holiday] noContent) start0
                  holiday holidayStart holidayEnd eq_refl
                  ltac:(vm_compute; reflexivity) ltac:(vm_compute; reflexivity)))).
  vm_compute. split; reflexivity.
Defined.

Lemma C9_witness :
  time.zoneOffset tokyoZone = 9 * 60 * 60
  /\ DateTime (markers (Start holiday)) = ""
  /\ time.Parse "2006-01-02" (Date (markers (Start holiday))) = Some holidayStart
  /\ time.Parse "2006-01-02" (Date (markers (End_ holiday))) = Some holidayEnd
  /\ time.date holidayStart = time.date (tomorrowStart sampleNow tokyoZone)
  /\ notifies
       (effects
          (loopBody part_000 hook tokyoZone (tomorrowStart sampleNow tokyoZone)
                    (tomorrowEnd sampleNow tokyoZone) holiday
                    (sampleWorld [holiday] noContent) start0)) = true.
Proof.
  split; [reflexivity|]. split; [reflexivity|].
  split; [vm_compute; reflexivity|]. split; [vm_compute; reflexivity|].
  split; [vm_compute; reflexivity|].
  destruct (C9_all_day_event_on_target_day_is_notified
              part_000 hook tokyoZone sampleNow
              (sampleWorld [holiday] noContent) start0
              holiday holidayStart holidayEnd eq_refl eq_refl
              ltac:(vm_compute; reflexivity) ltac:(vm_compute; reflexivity)
              ltac:(vm_compute; reflexivity))
    as (_ & _ & _ & _ & _ & _ & _ & _ & _ & _ & _ & H & _).
  exact H.
Defined.

(** ** Events that differ in their end only *)

Section EndMarkers.

Variables (rev : Revision) (webhookURL : string) (location : time.Location).
Variables (windowStart windowEnd : time.Time).
Variables (w : World) (st : Counters).

Lemma eventTimes_withEnd ev end' :
  endParses ev = true -> endParses (withEnd ev end') = true ->
  match eventTimes ev, eventTimes (withEnd ev end') with
  | Some (s, _, isAllDay), Some (s', _, isAllDay') =>
      s = s' /\ isAllDay = isAllDay'
  | None, None => True
  | _, _ => False
  end.
Proof.
  unfold endParses, eventTimes, withEnd. cbn [Start End_ markers].
  destruct (negb (DateTime (markers (Start ev)) =? "")%string).
  - destruct (time.Parse time.RFC3339 (DateTime (markers (Start ev)))) as [s|];
      destruct (time.Parse time.RFC3339 (DateTime (markers (End_ ev))));
      destruct (time.Parse time.RFC3339 (DateTime end'));
      intros; try discriminate; auto.
  - destruct (negb (Date (markers (Start ev)) =? "")%string);
      [|intros; exact I].
    destruct (time.Parse "2006-01-02" (Date (markers (Start ev)))) as [s|];
      destruct (time.Parse "2006-01-02" (Date (markers (End_ ev))));
      destruct (time.Parse "2006-01-02" (Date end'));
      intros; try discriminate; auto.
Qed.

(** C10. Two events that differ in their end markers only, the end
    marker the loop reads parsing in both, get the same decision; for
    an all-day event even the request is the same. *)
Theorem C10_end_marker_does_not_decide :
  forall (ev : Event) (end' : EventDateTime),
    endParses ev = true ->
    endParses (withEnd ev end') = true ->
    let out :=
      effects (loopBody rev webhookURL location windowStart windowEnd
                        ev w st) in
    let out' :=
      effects (loopBody rev webhookURL location windowStart windowEnd
                        (withEnd ev end') w st) in
    notifies out = notifies out'
    /\ List.length (posted out) = List.length (posted out')
    /\ (DateTime (markers (Start ev)) = "" -> posted out = posted out').
Proof.
  intros ev end' H1 H2 out out'.
  pose proof (eventTimes_withEnd ev end' H1 H2) as HT.
  assert (Hp : posted out = posted out'
               \/ (DateTime (markers (Start ev)) <> ""
                   /\ exists a b, posted out = [a] /\ posted out' = [b])).
  { subst out out'. rewrite !loopBody_posted.
    destruct (eventTimes ev) as [[[s e] allDay]|] eqn:E1;
      destruct (eventTimes (withEnd ev end')) as [[[s' e'] allDay']|] eqn:E2;
      try contradiction; [|left; reflexivity].
    destruct HT as [<- <-].
    destruct (inWindow location windowStart windowEnd s);
      [|left; reflexivity].
    destruct allDay.
    - left. reflexivity.
    - right. split; [|eauto].
      intros H0. unfold eventTimes in E1. rewrite H0 in E1. cbn in E1.
      destruct (negb (Date (markers (Start ev)) =? "")%string); [|discriminate].
      destruct (time.Parse "2006-01-02" (Date (markers (Start ev))));
        [|discriminate].
      destruct (time.Parse "2006-01-02" (Date (markers (End_ ev)))); discriminate. }
  assert (Hn : forall o o', List.length (posted o) = List.length (posted o') ->
                            notifies o = notifies o').
  { intros o o' Hl.
    pose proof (notifies_posted o) as A. pose proof (notifies_posted o') as B.
    destruct (notifies o) eqn:Eo; destruct (notifies o') eqn:Eo'; try reflexivity.
    - assert (posted o <> []) by (apply A; reflexivity).
      assert (posted o' = []) by (apply notifies_no_post; exact Eo').
      destruct (posted o); [congruence|]. rewrite H0 in Hl. discriminate.
    - assert (posted o' <> []) by (apply B; reflexivity).
      assert (posted o = []) by (apply notifies_no_post; exact Eo).
      destruct (posted o'); [congruence|]. rewrite H0 in Hl. discriminate. }
  assert (Hl : List.length (posted out) = List.length (posted out')).
  { destruct Hp as [-> | (_ & a & b & -> & ->)]; reflexivity. }
  split; [apply Hn; exact Hl|]. split; [exact Hl|].
  intros H0. destruct Hp as [Hp | (Hne & _)]; [exact Hp | contradiction].
Qed.

End EndMarkers.

Lemma C10_witness :
  endParses meeting = true
  /\ endParses (withEnd meeting laterEnd) = true
  /\ notifies
       (effects
          (loopBody part_000 hook tokyoZone (tomorrowStart sampleNow tokyoZone)
                    (tomorrowEnd sampleNow tokyoZone) meeting
                    (sampleWorld [meeting] noContent) start0))
     = notifies
         (effects
            (loopBody part_000 hook tokyoZone (tomorrowStart sampleNow tokyoZone)
                      (tomorrowEnd sampleNow tokyoZone) (withEnd meeting laterEnd)
                      (sampleWorld [meeting] noContent) start0)).
Proof.
  split; [vm_compute; reflexivity|]. split; [vm_compute; reflexivity|].
  exact (proj1 (C10_end_marker_does_not_decide
                  part_000 hook tokyoZone (tomorrowStart sampleNow tokyoZone)
                  (tomorrowEnd sampleNow tokyoZone)
                  (sampleWorld [meeting] noContent) start0 meeting laterEnd
                  ltac:(vm_compute; reflexivity) ltac:(vm_compute; reflexivity))).
Defined.

(** ** Events without usable markers *)

Section Malformed.

Variables (rev : Revision) (webhookURL : string) (location : time.Location).
Variables (windowStart windowEnd : time.Time).
Variables (w : World) (st : Counters).

Lemma eventTimes_withoutDates ev :
  DateTime (markers (Start ev)) <> "" -> eventTimes (withoutDates ev) = eventTimes ev.
Proof.
  intros H. unfold eventTimes, withoutDates. cbn [Start End_].
  destruct (Start ev) as [start|]; [|contradiction H; reflexivity].
  cbn [option_map markers DateTime Date] in *.
  destruct (String.eqb_spec (DateTime start) ""); [contradiction|].
  cbn [negb]. destruct (End_ ev); reflexivity.
Qed.


End Malformed.



(** ** The text of the notification *)

Section Messages.

Variables (rev : Revision) (webhookURL : string) (location : time.Location).
Variables (w : World) (st : Counters).

Lemma message_allDay ev s e :
  message ev s e true = allDayText (Summary ev) (Location ev).
Proof. reflexivity. Qed.

(** The layout of the message shows the date, the hour and the minute:
    no seconds, no offset. *)
Lemma Format_minute t : time.Format t "2006-01-02 15:04" = minuteStamp t.
Proof.
  unfold time.Format.
  change (time.chunks "2006-01-02 15:04")
    with [time.Elem time.stdLongYear; time.Lit "-"; time.Elem time.stdZeroMonth;
          time.Lit "-"; time.Elem time.stdZeroDay; time.Lit " ";
          time.Elem time.stdHour; time.Lit ":"; time.Elem time.stdZeroMinute].
  cbn [time.formatChunks time.formatElem]. rewrite append_nil_r.
  unfold minuteStamp. cbn [String.append]. reflexivity.
Qed.

Lemma message_timed ev s e :
  message ev s e false
  = timedText (Summary ev) (Location ev) (minuteStamp s) (minuteStamp e).
Proof.
  unfold message. rewrite !Format_minute.
  match goal with
  | |- fmt.Sprintf ?f _ = _ =>
      let f' := eval vm_compute in f in change f with f'
  end.
  cbn [fmt.Sprintf Ascii.eqb Bool.eqb orb]. rewrite append_nil_r.
  reflexivity.
Qed.

Lemma minuteStamp_dateStamp t :
  minuteStamp t
  = (dateStamp t ++ " " ++ time.appendInt (time.Hour_ t) 2 ++ ":"
     ++ time.appendInt (time.Minute t) 2)%string.
Proof.
  unfold minuteStamp, dateStamp. now rewrite !append_assoc.
Qed.

(** Only an event that reached the test of the window is notified. *)
Lemma notified_eventTimes ts te ev :
  notifies (effects (loopBody rev webhookURL location ts te ev w st)) = true ->
  exists s e isAllDay,
    eventTimes ev = Some (s, e, isAllDay)
    /\ inWindow location ts te s = true
    /\ posted (effects (loopBody rev webhookURL location ts te ev w st))
       = [webhookPost webhookURL
            (message ev (time.In s location) (time.In e location) isAllDay)].
Proof.
  rewrite notifies_posted, loopBody_posted.
  destruct (eventTimes ev) as [[[s e] isAllDay]|]; [|congruence].
  destruct (inWindow location ts te s) eqn:E; [|congruence].
  intros _. exists s, e, isAllDay. repeat split; reflexivity || assumption.
Qed.

(** C6. The one request of a notified all-day event carries the mention,
    the title line, the location line and the all-day marker; for the
    title Holiday and the location Office that is the text of the
    specification, character for character. *)
Theorem C6_all_day_message :
  forall (windowStart windowEnd : time.Time) (ev : Event),
    DateTime (markers (Start ev)) = "" ->
    notifies (effects (loopBody rev webhookURL location windowStart windowEnd
                                ev w st)) = true ->
    posted (effects (loopBody rev webhookURL location windowStart windowEnd
                              ev w st))
    = [webhookPost webhookURL (allDayText (Summary ev) (Location ev))]
    /\ allDayText "Holiday" "Office"
       = "@here
イベント名: Holiday
場所: Office
終日イベント".
Proof.
  intros ts te ev H0 Hn. split; [|reflexivity].
  destruct (notified_eventTimes ts te ev Hn) as (s & e & isAllDay & HT & _ & Hp).
  rewrite Hp.
  assert (isAllDay = true) as ->.
  { unfold eventTimes in HT. rewrite H0 in HT. cbn [String.eqb negb] in HT.
    destruct (negb (Date (markers (Start ev)) =? "")%string); [|discriminate].
    destruct (time.Parse "2006-01-02" (Date (markers (Start ev)))); [|discriminate].
    destruct (time.Parse "2006-01-02" (Date (markers (End_ ev)))); [|discriminate].
    injection HT as _ _ <-. reflexivity. }
  rewrite message_allDay. reflexivity.
Qed.

End Messages.

Lemma C6_witness :
  DateTime (markers (Start holiday)) = ""
  /\ notifies
       (effects
          (loopBody part_000 hook tokyoZone (tomorrowStart sampleNow tokyoZone)
                    (tomorrowEnd sampleNow tokyoZone) holiday
                    (sampleWorld [holiday] noContent) start0)) = true
  /\ posted
       (effects
          (loopBody part_000 hook tokyoZone (tomorrowStart sampleNow tokyoZone)
                    (tomorrowEnd sampleNow tokyoZone) holiday
                    (sampleWorld [holiday] noContent) start0))
     = [webhookPost hook (allDayText "Holiday" "Office")].
Proof.
  split; [reflexivity|]. split; [vm_compute; reflexivity|].
  exact (proj1 (C6_all_day_message
                  part_000 hook tokyoZone (sampleWorld [holiday] noContent) start0
                  (tomorrowStart sampleNow tokyoZone)
                  (tomorrowEnd sampleNow tokyoZone) holiday eq_refl
                  ltac:(vm_compute; reflexivity))).
Defined.

Section TimedMessage.

Variables (rev : Revision) (webhookURL : string) (location : time.Location).
Variable now : time.Time.
Variables (w : World) (st : Counters).

(** The stamp shows the wall clock down to the minute and nothing
    below it. *)
Lemma minuteStamp_minute t u :
  time.abs t / 60 = time.abs u / 60 -> minuteStamp t = minuteStamp u.
Proof.
  intros H.
  assert (Hd : time.date t = time.date u).
  { unfold time.date. f_equal. unfold time.secondsPerDay.
    Z.div_mod_to_equations. lia. }
  assert (Hh : time.Hour_ t = time.Hour_ u).
  { unfold time.Hour_, time.secondsPerDay. Z.div_mod_to_equations. lia. }
  assert (Hm : time.Minute t = time.Minute u).
  { unfold time.Minute. Z.div_mod_to_equations. lia. }
  unfold minuteStamp, time.Year, time.Month, time.Day.
  rewrite Hd, Hh, Hm. reflexivity.
Qed.

(** An instant [k] seconds after the window start, within the day. *)
Lemma stamp_in_target_day t k :
  0 <= k < 86400 ->
  time.unixSec t = time.unixSec (tomorrowStart now location) + k ->
  time.date (time.In t location) = time.date (tomorrowStart now location)
  /\ time.Hour_ (time.In t location) = k / 3600
  /\ time.Minute (time.In t location) = k mod 3600 / 60.
Proof.
  rewrite tomorrowStart_eq.
  generalize (time.abs now / time.secondsPerDay). intros D.
  unfold time.date, time.Hour_, time.Minute, time.abs, time.In.
  cbn [time.unixSec time.loc]. intros Hk ->.
  unfold time.secondsPerDay, time.unixEpochDays.
  split; [f_equal; Z.div_mod_to_equations; lia|].
  split; Z.div_mod_to_equations; lia.
Qed.

Lemma minuteStamp_in_target_day t k :
  0 <= k < 86400 ->
  time.unixSec t = time.unixSec (tomorrowStart now location) + k ->
  minuteStamp (time.In t location)
  = (dateStamp (tomorrowStart now location) ++ " "
     ++ time.appendInt (k / 3600) 2 ++ ":"
     ++ time.appendInt (k mod 3600 / 60) 2)%string.
Proof.
  intros Hk Ht.
  destruct (stamp_in_target_day t k Hk Ht) as (Hd & Hh & Hm).
  rewrite minuteStamp_dateStamp, Hh, Hm.
  unfold dateStamp, time.Year, time.Month, time.Day. rewrite Hd. reflexivity.
Qed.

(** C7. The one request of a notified timed event carries start and end
    as date, hour and minute in the zone, with no seconds and no offset:
    the stamp is a function of the minute of the wall clock and has
    the sixteen characters of YYYY-MM-DD HH:MM.  An event from 10:00 to
    11:00 of the target day in the zone is notified with the target
    date followed by 10:00 and by 11:00. *)
Theorem C7_timed_message :
  forall (ev : Event) (startTime endTime : time.Time),
    time.Parse time.RFC3339 (DateTime (markers (Start ev))) = Some startTime ->
    time.Parse time.RFC3339 (DateTime (markers (End_ ev))) = Some endTime ->
    let windowStart := tomorrowStart now location in
    let windowEnd := tomorrowEnd now location in
    let out :=
      effects (loopBody rev webhookURL location windowStart windowEnd ev w st) in
    let start := time.In startTime location in
    let end_ := time.In endTime location in
    (notifies out = true ->
     posted out
     = [webhookPost webhookURL
          (timedText (Summary ev) (Location ev) (minuteStamp start)
                     (minuteStamp end_))])
    /\ (forall t u : time.Time,
           time.abs t / 60 = time.abs u / 60 -> minuteStamp t = minuteStamp u)
    /\ (forall t : time.Time,
           0 <= time.Year t <= 9999 -> String.length (minuteStamp t) = 16%nat)
    /\ (time.unixSec startTime = time.unixSec windowStart + 10 * 3600 ->
        time.unixSec endTime = time.unixSec windowStart + 11 * 3600 ->
        posted out
        = [webhookPost webhookURL
             (timedText (Summary ev) (Location ev)
                        (dateStamp windowStart ++ " 10:00")
                        (dateStamp windowStart ++ " 11:00"))]).
Proof.
  intros ev s e Hs He windowStart windowEnd out start end_.
  destruct (loopBody_timed rev webhookURL location windowStart windowEnd
              ev s e w st Hs He) as [_ Hp].
  fold out in Hp. rewrite message_timed in Hp. fold start end_ in Hp.
  split; [|split; [exact minuteStamp_minute|split; [exact minuteStamp_length|]]].
  - intros Hn. apply notifies_posted in Hn. rewrite Hp in Hn |- *.
    destruct (inWindow location windowStart windowEnd s); congruence.
  - intros H10 H11.
    pose proof (Parse_wellFormed _ _ _ Hs) as Hwf.
    assert (Hin : inWindow location windowStart windowEnd s = true).
    { apply window_test; [exact Hwf|].
      subst windowStart windowEnd. rewrite tomorrowEnd_eq.
      revert H10. rewrite tomorrowStart_eq. unfold UnixNano, wellFormed in *.
      cbn [time.unixSec time.nsec]. unfold time.secondsPerDay. lia. }
    rewrite Hin in Hp. rewrite Hp. subst start end_ windowStart.
    rewrite (minuteStamp_in_target_day s (10 * 3600)) by (lia || assumption).
    rewrite (minuteStamp_in_target_day e (11 * 3600)) by (lia || assumption).
    reflexivity.
Qed.

End TimedMessage.

Lemma C7_witness :
  time.Parse time.RFC3339 (DateTime (markers (Start meeting))) = Some meetingStart
  /\ time.Parse time.RFC3339 (DateTime (markers (End_ meeting))) = Some meetingEnd
  /\ time.unixSec meetingStart
     = time.unixSec (tomorrowStart sampleNow tokyoZone) + 10 * 3600
  /\ time.unixSec meetingEnd
     = time.unixSec (tomorrowStart sampleNow tokyoZone) + 11 * 3600
  /\ posted
       (effects
          (loopBody part_000 hook tokyoZone (tomorrowStart sampleNow tokyoZone)
                    (tomorrowEnd sampleNow tokyoZone) meeting
                    (sampleWorld [meeting] noContent) start0))
     = [webhookPost hook
          (timedText "Standup" "Room A"
                     (dateStamp (tomorrowStart sampleNow tokyoZone) ++ " 10:00")
                     (dateStamp (tomorrowStart sampleNow tokyoZone) ++ " 11:00"))].
Proof.
  split; [vm_compute; reflexivity|]. split; [vm_compute; reflexivity|].
  split; [vm_compute; reflexivity|]. split; [vm_compute; reflexivity|].
  exact (proj2 (proj2 (proj2 (C7_timed_message
                         part_000 hook tokyoZone sampleNow
                         (sampleWorld [meeting] noContent) start0
                         meeting meetingStart meetingEnd
                         ltac:(vm_compute; reflexivity)
                         ltac:(vm_compute; reflexivity))))
               ltac:(vm_compute; reflexivity) ltac:(vm_compute; reflexivity)).
Defined.

(** The sample target date reads as the specification writes dates. *)
Example dateStamp_sample :
  dateStamp (tomorrowStart sampleNow tokyoZone) = "2024-05-11".
Proof. vm_compute. reflexivity. Qed.

(** ** Credentials *)

Section Credentials.

Variables (rev : Revision) (w : World) (st : Counters).

(** C8. With the credentials missing, or not JSON, [getCalendarService]
    returns an error without any effect, and the run ends there with
    exit status 1: no request to the calendar, none to the webhook. *)
Theorem C8_bad_credentials_are_fatal :
  osGetenv w "GOOGLE_CREDENTIALS" = ""
  \/ jsonUnmarshal w (osGetenv w "GOOGLE_CREDENTIALS") <> None ->
  (exists err, getCalendarService w st = (Done (inl err), st, []))
  /\ result (main rev w st) = Exit 1
  /\ networkCalls (effects (main rev w st)) = []
  /\ (rev = part_000 \/ dotenvLoad w ".env" = None ->
      exists err,
        effects (main rev w st)
        = [Log (Fatalf "Unable to retrieve Calendar client: %v" [Err err])]).
Proof.
  intros H.
  assert (Hg : exists err, getCalendarService w st = (Done (inl err), st, [])).
  { unfold getCalendarService. run.
    destruct (String.eqb_spec (osGetenv w "GOOGLE_CREDENTIALS") "") as [E|E].
    - eexists. reflexivity.
    - destruct H as [H|H]; [contradiction|].
      destruct (jsonUnmarshal w (osGetenv w "GOOGLE_CREDENTIALS")) as [err|];
        [|contradiction].
      eexists. reflexivity. }
  split; [exact Hg|].
  destruct Hg as [err Hg].
  assert (Hload :
    loadEnvFile rev w st = (Done tt, st, [])
    \/ (rev = main_go /\ dotenvLoad w ".env" <> None
        /\ loadEnvFile rev w st
           = (Exit 1, st, [Log (Fatalf "Error loading .env file" [])]))).
  { destruct rev; [|left; reflexivity].
    unfold loadEnvFile. run.
    destruct (dotenvLoad w ".env") as [e|];
      [right; repeat split; discriminate || reflexivity | left; reflexivity]. }
  assert (Hmain :
    main rev w st
    = (Exit 1, st,
       [Log (Fatalf "Unable to retrieve Calendar client: %v" [Err err])])
    \/ (rev = main_go /\ dotenvLoad w ".env" <> None
        /\ main rev w st
           = (Exit 1, st, [Log (Fatalf "Error loading .env file" [])]))).
  { unfold main. rewrite bind_run.
    destruct Hload as [-> | (Hrev & Hl & ->)].
    - left. rewrite bind_run, Hg. reflexivity.
    - right. repeat split; assumption || reflexivity. }
  destruct Hmain as [-> | (Hrev & Hl & ->)].
  - split; [reflexivity|]. split; [reflexivity|].
    intros _. exists err. reflexivity.
  - split; [reflexivity|]. split; [reflexivity|].
    intros [Hr | Hn]; [congruence | contradiction].
Qed.

End Credentials.

Lemma C8_witness :
  (osGetenv brokenCredentials "GOOGLE_CREDENTIALS" = ""
   \/ jsonUnmarshal brokenCredentials
        (osGetenv brokenCredentials "GOOGLE_CREDENTIALS") <> None)
  /\ result (main main_go brokenCredentials start0) = Exit 1
  /\ networkCalls (effects (main main_go brokenCredentials start0)) = [].
Proof.
  assert (H : osGetenv brokenCredentials "GOOGLE_CREDENTIALS" = ""
              \/ jsonUnmarshal brokenCredentials
                   (osGetenv brokenCredentials "GOOGLE_CREDENTIALS") <> None)
    by (right; discriminate).
  split; [exact H|].
  destruct (C8_bad_credentials_are_fatal main_go brokenCredentials start0 H)
    as (_ & Hr & Hn & _).
  split; [exact Hr | exact Hn].
Defined.

(** ** The window of a run *)

Section RunWindow.

Import time.

(** The instants from the window start up to, and not including, the
    window end are those of the target day in the zone. *)
Lemma window_is_target_day now l t :
  wellFormed t ->
  UnixNano (tomorrowStart now l) <= UnixNano t < UnixNano (tomorrowEnd now l)
  <-> date (In t l) = date (tomorrowStart now l).
Proof.
  intros Ht. rewrite tomorrowEnd_eq. rewrite tomorrowStart_eq.
  generalize (abs now / secondsPerDay). intros D.
  unfold date, abs, In, UnixNano, wellFormed in *.
  cbn [unixSec nsec loc].
  unfold secondsPerDay, unixEpochDays.
  split.
  - intros H. f_equal. Z.div_mod_to_equations. lia.
  - intros H. apply absDate_inj in H. Z.div_mod_to_equations. lia.
Qed.

Lemma tomorrowStart_clock now l :
  abs (tomorrowStart now l) = (abs now / secondsPerDay + 1) * secondsPerDay
  /\ date (tomorrowStart now l) = absDate (abs now / secondsPerDay + 1)
  /\ Hour_ (tomorrowStart now l) = 0
  /\ Minute (tomorrowStart now l) = 0
  /\ Second_ (tomorrowStart now l) = 0
  /\ nsec (tomorrowStart now l) = 0.
Proof.
  rewrite tomorrowStart_eq.
  generalize (abs now / secondsPerDay). intros D.
  unfold date, Hour_, Minute, Second_, abs. cbn [unixSec nsec loc].
  unfold secondsPerDay, unixEpochDays.
  split; [lia|].
  split; [f_equal; Z.div_mod_to_equations; lia|].
  repeat split; try (Z.div_mod_to_equations; lia).
Qed.

End RunWindow.

Section Setup.

Variables (rev : Revision) (w : World) (st : Counters).
Variables (location : time.Location) (events : list Event).

(** A run that is set up reads the clock, asks the calendar and goes
    through the events with the one window it computed. *)
Lemma main_run :
  setupOk rev w st location events ->
  let now := time.In (timeNow w (clockReads st)) location in
  main rev w st
  = let '(r, st', out) :=
      forEach events
              (loopBody rev (osGetenv w "DISCORD_WEBHOOK_URL") location
                        (tomorrowStart now location) (tomorrowEnd now location))
              w (mkCounters (S (S (clockReads st))) (posts st)) in
    (r, st',
     EventsList (osGetenv w "GOOGLE_CALENDAR_ID")
                (time.Format (timeNow w (S (clockReads st))) time.RFC3339)
     :: out).
Proof.
  intros (H1 & H2 & H3 & H4 & H5 & H6) now. subst now.
  assert (Hload : loadEnvFile rev w st = (Done tt, st, [])).
  { destruct rev; [|reflexivity]. unfold loadEnvFile. run.
    rewrite (H1 eq_refl). reflexivity. }
  assert (Hsrv : getCalendarService w st
                 = (Done (inr (mkService (osGetenv w "GOOGLE_CREDENTIALS"))),
                    st, [])).
  { unfold getCalendarService. run.
    destruct (String.eqb_spec (osGetenv w "GOOGLE_CREDENTIALS") "");
      [contradiction|].
    rewrite H3, H4. reflexivity. }
  assert (Hzone : tokyo rev w st = (Done location, st, [])).
  { destruct rev; unfold tokyo; run; [rewrite H5 | subst location]; reflexivity. }
  unfold main.
  rewrite bind_run, Hload. cbv beta iota zeta.
  rewrite bind_run, Hsrv. cbv beta iota zeta.
  rewrite bind_run.
  change (Getenv "GOOGLE_CALENDAR_ID" w st)
    with (Done (osGetenv w "GOOGLE_CALENDAR_ID"), st, @nil Effect).
  cbv beta iota zeta. rewrite bind_run.
  change (Getenv "DISCORD_WEBHOOK_URL" w st)
    with (Done (osGetenv w "DISCORD_WEBHOOK_URL"), st, @nil Effect).
  cbv beta iota zeta. rewrite bind_run, Hzone. cbv beta iota zeta.
  rewrite bind_run.
  change (Now w st)
    with (Done (timeNow w (clockReads st)),
          mkCounters (S (clockReads st)) (posts st), @nil Effect).
  cbv beta iota zeta. rewrite bind_run.
  assert (Hev : getEvents (mkService (osGetenv w "GOOGLE_CREDENTIALS"))
                          (osGetenv w "GOOGLE_CALENDAR_ID") w
                          (mkCounters (S (clockReads st)) (posts st))
                = (Done (inr events),
                   mkCounters (S (S (clockReads st))) (posts st),
                   [EventsList (osGetenv w "GOOGLE_CALENDAR_ID")
                               (time.Format (timeNow w (S (clockReads st)))
                                            time.RFC3339)])).
  { unfold getEvents. rewrite bind_run.
    change (Now w (mkCounters (S (clockReads st)) (posts st)))
      with (Done (timeNow w (S (clockReads st))),
            mkCounters (S (S (clockReads st))) (posts st), @nil Effect).
    cbv beta iota zeta. rewrite bind_run. unfold EventsListDo.
    rewrite H6. reflexivity. }
  rewrite Hev. cbv beta iota zeta.
  destruct (forEach events _ w _) as [[r st'] out]. reflexivity.
Qed.

End Setup.

Section OneWindow.

Variables (rev : Revision) (w : World) (st : Counters).
Variables (location : time.Location) (events : list Event).

(** C5. In a run that is set up, the window is computed from one
    reading of the clock: it starts at the midnight that follows the
    current day on the wall clock of the zone (nine hours east of UTC,
    by construction in the second revision and by the zone database in
    the first), it ends 24 hours later, the instants from its start up
    to and excluding its end are those of the target day, and every
    iteration of the loop is given this same pair of instants. *)
Theorem C5_one_window_per_run :
  setupOk rev w st location events ->
  let now := time.In (timeNow w (clockReads st)) location in
  let windowStart := tomorrowStart now location in
  let windowEnd := tomorrowEnd now location in
  match rev with
  | main_go => timeLoadLocation w "Asia/Tokyo" = inr location
  | part_000 => time.zoneOffset location = 9 * 60 * 60
  end
  /\ time.loc windowStart = location
  /\ time.abs windowStart
     = (time.abs now / time.secondsPerDay + 1) * time.secondsPerDay
  /\ time.date windowStart = time.absDate (time.abs now / time.secondsPerDay + 1)
  /\ time.Hour_ windowStart = 0 /\ time.Minute windowStart = 0
  /\ time.Second_ windowStart = 0 /\ time.nsec windowStart = 0
  /\ UnixNano windowEnd = UnixNano windowStart + 24 * time.Hour
  /\ (forall t : time.Time,
         wellFormed t ->
         UnixNano windowStart <= UnixNano t < UnixNano windowEnd
         <-> time.date (time.In t location) = time.date windowStart)
  /\ main rev w st
     = (let '(r, st', out) :=
          forEach events
                  (loopBody rev (osGetenv w "DISCORD_WEBHOOK_URL") location
                            windowStart windowEnd)
                  w (mkCounters (S (S (clockReads st))) (posts st)) in
        (r, st',
         EventsList (osGetenv w "GOOGLE_CALENDAR_ID")
                    (time.Format (timeNow w (S (clockReads st))) time.RFC3339)
         :: out)).
Proof.
  intros Hset now windowStart windowEnd.
  pose proof (main_run rev w st location events Hset) as Hmain.
  destruct Hset as (_ & _ & _ & _ & Hzone & _).
  destruct (tomorrowStart_clock now location) as (A1 & A2 & A3 & A4 & A5 & A6).
  split; [destruct rev; [exact Hzone | rewrite Hzone; reflexivity]|].
  split; [subst windowStart; rewrite tomorrowStart_eq; reflexivity|].
  split; [exact A1|]. split; [exact A2|]. split; [exact A3|].
  split; [exact A4|]. split; [exact A5|]. split; [exact A6|].
  split.
  { subst windowEnd windowStart. rewrite tomorrowEnd_eq.
    generalize (tomorrowStart_wellFormed now location).
    rewrite tomorrowStart_eq. unfold UnixNano, wellFormed.
    cbn [time.unixSec time.nsec].
    unfold time.secondsPerDay, time.Hour, time.Second. lia. }
  split; [intros t Ht; apply window_is_target_day; exact Ht|].
  exact Hmain.
Qed.

End OneWindow.

Lemma sample_setupOk events answer :
  setupOk main_go (sampleWorld events answer) start0 tokyoZone events.
Proof.
  unfold setupOk. repeat split; try reflexivity. discriminate.
Qed.

Lemma C5_witness :
  setupOk main_go (sampleWorld [meeting; holiday] noContent) start0 tokyoZone
          [meeting; holiday]
  /\ UnixNano (tomorrowEnd (time.In sampleNow tokyoZone) tokyoZone)
     = UnixNano (tomorrowStart (time.In sampleNow tokyoZone) tokyoZone)
       + 24 * time.Hour.
Proof.
  split; [apply sample_setupOk|].
  destruct (C5_one_window_per_run
              main_go (sampleWorld [meeting; holiday] noContent) start0
              tokyoZone [meeting; holiday] (sample_setupOk _ _))
    as (_ & _ & _ & _ & _ & _ & _ & _ & H & _).
  exact H.
Defined.

(** ** The answer of the webhook *)

Section Notifier.

Variables (w : World) (st : Counters) (webhookURL message : string).

(** What [sendDiscordNotification] returns, by the answer to its
    request. *)
Lemma sendDiscordNotification_run rev :
  sendDiscordNotification rev webhookURL message w st
  = (Done match httpPost w (posts st) webhookURL [("content", message)] with
          | inl err => Some err
          | inr resp =>
              if statusFails rev resp
              then Some (Errorf "failed to send notification: %v"
                                [Str (Status resp)])
              else None
          end,
     mkCounters (clockReads st) (S (posts st)),
     [webhookPost webhookURL message]).
Proof.
  unfold sendDiscordNotification. run.
  destruct (httpPost w (posts st) webhookURL [("content", message)]) as [err|resp];
    [reflexivity|].
  destruct (statusFails rev resp); reflexivity.
Qed.

(** Status 200 is a success in both revisions. *)
Lemma status_200_succeeds rev text :
  statusFails rev (mkResponse StatusOK text) = false.
Proof. destruct rev; reflexivity. Qed.

(** A status other than 200 and 204 is a failure in both. *)
Lemma other_status_fails rev code text :
  code <> StatusOK -> code <> StatusNoContent ->
  statusFails rev (mkResponse code text) = true.
Proof.
  intros H1 H2. destruct rev; unfold statusFails; cbn [StatusCode];
    apply Z.eqb_neq in H1; apply Z.eqb_neq in H2; rewrite ?H1, ?H2; reflexivity.
Qed.

End Notifier.

(** C2, where it fails.  To the answer 204 the function of [main.go]
    returns an error; the function of the second revision returns
    none.  Both have sent the request. *)
Theorem C2_status_204_is_an_error_in_main_go :
  forall (w : World) (st : Counters) (webhookURL message text : string),
    let w' := answering w (inr (mkResponse StatusNoContent text)) in
    let after := mkCounters (clockReads st) (S (posts st)) in
    sendDiscordNotification main_go webhookURL message w' st
    = (Done (Some (Errorf "failed to send notification: %v" [Str text])),
       after, [webhookPost webhookURL message])
    /\ sendDiscordNotification part_000 webhookURL message w' st
       = (Done None, after, [webhookPost webhookURL message]).
Proof.
  intros w st url msg text w' after.
  split; rewrite sendDiscordNotification_run; reflexivity.
Qed.

(** A run of [main.go] against a webhook that answers 204: the request
    is made and the failure is logged. *)
Example main_go_logs_204_as_failure :
  effects (main main_go (sampleWorld [holiday] noContent) start0)
  = [EventsList "primary" "2024-05-10T21:30:15+09:00";
     Log (Printf "イベント名: %s" [Str "Holiday"]);
     Log (Printf "説明: %s" [Str ""]);
     Log (Printf "場所: %s" [Str "Office"]);
     Log (Printf "終日イベント: %s" [Str "Holiday"]);
     webhookPost hook (allDayText "Holiday" "Office");
     Log (Printf "Error sending Discord notification: %v"
                 [Err (Errorf "failed to send notification: %v"
                              [Str "204 No Content"])])].
Proof. vm_compute. reflexivity. Qed.

(** A failed notification does not end the loop: the next event gets
    its request. *)
Example loop_goes_on_after_failure :
  result (main part_000 (sampleWorld [meeting; holiday] serverError) start0)
  = Done tt
  /\ posted (effects (main part_000 (sampleWorld [meeting; holiday] serverError)
                           start0))
     = [webhookPost hook
          (timedText "Standup" "Room A" "2024-05-11 10:00" "2024-05-11 11:00");
        webhookPost hook (allDayText "Holiday" "Office")].
Proof. split; vm_compute; reflexivity. Qed.

(** ** How a run ends *)

Section WholeRun.

Variables (rev : Revision) (w : World) (st : Counters).

(** The five ways a run can go. *)
Lemma main_cases :
  let credentials := osGetenv w "GOOGLE_CREDENTIALS" in
  let calendarID := osGetenv w "GOOGLE_CALENDAR_ID" in
  let t := time.Format (timeNow w (S (clockReads st))) time.RFC3339 in
  (rev = main_go /\ dotenvLoad w ".env" <> None
   /\ main rev w st = (Exit 1, st, [Log (Fatalf "Error loading .env file" [])]))
  \/ (exists err,
         (credentials = "" \/ jsonUnmarshal w credentials <> None
          \/ calendarNewService w credentials <> None)
         /\ main rev w st
            = (Exit 1, st,
               [Log (Fatalf "Unable to retrieve Calendar client: %v" [Err err])]))
  \/ (exists err,
         rev = main_go /\ timeLoadLocation w "Asia/Tokyo" = inl err
         /\ main rev w st
            = (Exit 1, st,
               [Log (Fatalf "Unable to load location: %v" [Err err])]))
  \/ (exists err,
         eventsListDo w calendarID t = inl err
         /\ main rev w st
            = (Exit 1, mkCounters (S (S (clockReads st))) (posts st),
               [EventsList calendarID t;
                Log (Fatalf "Unable to retrieve events: %v" [Err err])]))
  \/ (exists location events, setupOk rev w st location events).
Proof.
  intros credentials calendarID t.
  assert (Hload :
    (loadEnvFile rev w st = (Done tt, st, [])
     /\ (rev = main_go -> dotenvLoad w ".env" = None))
    \/ (rev = main_go /\ dotenvLoad w ".env" <> None
        /\ loadEnvFile rev w st
           = (Exit 1, st, [Log (Fatalf "Error loading .env file" [])]))).
  { destruct rev; [|left; split; [reflexivity | discriminate]].
    unfold loadEnvFile. run.
    destruct (dotenvLoad w ".env") as [e|];
      [right; repeat split; discriminate || reflexivity
      | left; split; reflexivity]. }
  unfold main.
  destruct Hload as [[Hload Henv] | (Hrev & Hl & Hload)];
    [|left; rewrite bind_run, Hload; repeat split; assumption].
  right.
  assert (Hsrv :
    (exists err,
        (credentials = "" \/ jsonUnmarshal w credentials <> None
         \/ calendarNewService w credentials <> None)
        /\ getCalendarService w st = (Done (inl err), st, []))
    \/ (credentials <> "" /\ jsonUnmarshal w credentials = None
        /\ calendarNewService w credentials = None
        /\ getCalendarService w st
           = (Done (inr (mkService credentials)), st, []))).
  { unfold getCalendarService. run. fold credentials.
    destruct (String.eqb_spec credentials "") as [E|E];
      [left; eexists; split; [left; exact E | reflexivity]|].
    destruct (jsonUnmarshal w credentials) as [e1|] eqn:E1;
      [left; eexists; split; [right; left; discriminate | reflexivity]|].
    destruct (calendarNewService w credentials) as [e2|] eqn:E2;
      [left; eexists; split; [right; right; discriminate | reflexivity]|].
    right. repeat split; assumption || reflexivity. }
  rewrite bind_run, Hload. cbv beta iota zeta.
  destruct Hsrv as [(err & Hwhy & Hsrv) | (Hc & Hu & Hn & Hsrv)];
    [left; exists err; split; [exact Hwhy|]; rewrite bind_run, Hsrv; reflexivity|].
  right.
  rewrite bind_run, Hsrv. cbv beta iota zeta.
  rewrite bind_run.
  change (Getenv "GOOGLE_CALENDAR_ID" w st)
    with (Done calendarID, st, @nil Effect).
  cbv beta iota zeta. rewrite bind_run.
  change (Getenv "DISCORD_WEBHOOK_URL" w st)
    with (Done (osGetenv w "DISCORD_WEBHOOK_URL"), st, @nil Effect).
  cbv beta iota zeta.
  assert (Hzone :
    (exists err,
        rev = main_go /\ timeLoadLocation w "Asia/Tokyo" = inl err
        /\ tokyo rev w st
           = (Exit 1, st, [Log (Fatalf "Unable to load location: %v" [Err err])]))
    \/ (exists location,
           match rev with
           | main_go => timeLoadLocation w "Asia/Tokyo" = inr location
           | part_000 => location = time.FixedZone "Asia/Tokyo" (9 * 60 * 60)
           end
           /\ tokyo rev w st = (Done location, st, []))).
  { destruct rev; unfold tokyo; run.
    - destruct (timeLoadLocation w "Asia/Tokyo") as [err|location];
        [left; exists err | right; exists location]; repeat split; reflexivity.
    - right. eexists. split; reflexivity. }
  destruct Hzone as [(err & Hrev & Hll & Hzone) | (location & Hloc & Hzone)];
    [left; exists err; split; [exact Hrev|]; split; [exact Hll|];
     rewrite bind_run, Hzone; reflexivity|].
  right.
  rewrite bind_run, Hzone. cbv beta iota zeta. rewrite bind_run.
  change (Now w st)
    with (Done (timeNow w (clockReads st)),
          mkCounters (S (clockReads st)) (posts st), @nil Effect).
  cbv beta iota zeta.
  assert (Hev : getEvents (mkService credentials) calendarID w
                          (mkCounters (S (clockReads st)) (posts st))
                = (Done (eventsListDo w calendarID t),
                   mkCounters (S (S (clockReads st))) (posts st),
                   [EventsList calendarID t])).
  { unfold getEvents. rewrite bind_run.
    change (Now w (mkCounters (S (clockReads st)) (posts st)))
      with (Done (timeNow w (S (clockReads st))),
            mkCounters (S (S (clockReads st))) (posts st), @nil Effect).
    cbv beta iota zeta. rewrite bind_run. unfold EventsListDo. fold t.
    destruct (eventsListDo w calendarID t); reflexivity. }
  destruct (eventsListDo w calendarID t) as [err|events] eqn:El.
  - left. exists err. split; [reflexivity|].
    rewrite bind_run, Hev. reflexivity.
  - right. exists location, events. unfold setupOk. fold credentials.
    repeat split; assumption.
Qed.

End WholeRun.

Section RunOutcomes.

Variables (rev : Revision) (w : World) (st : Counters).

Lemma set_up_run_ends location events :
  setupOk rev w st location events ->
  result (main rev w st)
  = if existsb (panics rev) events then Exit 2 else Done tt.
Proof.
  intros H.
  pose proof (main_run rev w st location events H) as Hm.
  cbv zeta in Hm. rewrite Hm.
  match goal with
  | |- context [forEach events (loopBody rev ?u ?l ?ts ?te) w ?s] =>
      pose proof (forEach_loopBody_result rev u l ts te events w s) as Hr;
      destruct (forEach events (loopBody rev u l ts te) w s) as [[r st'] out]
  end.
  exact Hr.
Qed.

(** X1. How a run ends.  It exits with status 1 exactly when it is not
    set up: the [.env] file does not load (first revision), the
    credentials are missing, do not decode or make no client, the zone
    does not load (first revision) or the calendar refuses the request.
    A run that is set up ends normally when no fetched event takes its
    iteration through a nil pointer, and by a panic, status 2, when one
    does: an event without its start member, or without its end member
    where the loop reads it.  So a run that is set up ends normally
    when every event has both members, and by the panic when an event
    has no start member.  What the webhook answers plays no part. *)
Theorem how_a_run_ends :
  (result (main rev w st) = Exit 1
   <-> ~ exists location events, setupOk rev w st location events)
  /\ (forall location events,
         setupOk rev w st location events ->
         result (main rev w st)
         = if existsb (panics rev) events then Exit 2 else Done tt)
  /\ (result (main rev w st) = Done tt
      <-> exists location events,
            setupOk rev w st location events
            /\ existsb (panics rev) events = false)
  /\ (result (main rev w st) = Exit 2
      <-> exists location events,
            setupOk rev w st location events
            /\ existsb (panics rev) events = true)
  /\ (forall location events,
         setupOk rev w st location events ->
         (forall ev, List.In ev events -> Start ev <> None /\ End_ ev <> None) ->
         result (main rev w st) = Done tt)
  /\ (forall location events,
         setupOk rev w st location events ->
         (exists ev, List.In ev events /\ Start ev = None) ->
         result (main rev w st) = Exit 2).
Proof.
  pose proof set_up_run_ends as Hok.
  assert (Hmembers :
    (forall location events,
        setupOk rev w st location events ->
        (forall ev, List.In ev events -> Start ev <> None /\ End_ ev <> None) ->
        result (main rev w st) = Done tt)
    /\ (forall location events,
           setupOk rev w st location events ->
           (exists ev, List.In ev events /\ Start ev = None) ->
           result (main rev w st) = Exit 2)).
  { split; intros location events Hs Hm; rewrite (Hok location events Hs).
    - rewrite (no_nil_member_no_panic rev events Hm). reflexivity.
    - rewrite (nil_start_panics rev events Hm). reflexivity. }
  rewrite <- !and_assoc. split; [|exact (proj2 Hmembers)].
  split; [|exact (proj1 Hmembers)]. rewrite !and_assoc. clear Hmembers.
  destruct (main_cases rev w st)
    as [(_ & _ & H) | [(err & _ & H) | [(err & _ & _ & H)
        | [(err & _ & H) | (location & events & H)]]]].
  1-4: assert (Hno : ~ exists location events,
                         setupOk rev w st location events)
         by (intros (location & events & Hs);
             specialize (Hok location events Hs); rewrite H in Hok;
             unfold result in Hok; cbn [fst] in Hok;
             destruct (existsb (panics rev) events); discriminate);
       split; [split; [intros _; exact Hno | intros _; rewrite H; reflexivity]|];
       split; [exact Hok|];
       split; (split; [rewrite H; discriminate
                      | intros (location & events & Hs & _);
                        contradiction Hno; eauto]).
  pose proof (Hok location events H) as Hd.
  split.
  { split; [|intros Hno; contradiction Hno; eauto].
    rewrite Hd. destruct (existsb (panics rev) events); discriminate. }
  split; [exact Hok|].
  split; (split;
          [intros Hr; exists location, events; split; [exact H|];
           rewrite Hd in Hr; destruct (existsb (panics rev) events);
           reflexivity || discriminate
          | intros (location' & events' & Hs & Hp);
            rewrite (Hok location' events' Hs), Hp; reflexivity]).
Qed.

(** X2. A run that exits with status 1 has sent nothing to the webhook:
    its last effect is the fatal log line, and before it there is at
    most the one request to the calendar. *)
Theorem fatal_run_posts_nothing :
  result (main rev w st) = Exit 1 ->
  posted (effects (main rev w st)) = []
  /\ exists pre format operands,
       effects (main rev w st) = (pre ++ [Log (Fatalf format operands)])%list
       /\ (pre = [] \/ exists calendarID t, pre = [EventsList calendarID t]).
Proof.
  intros Hx.
  destruct (main_cases rev w st)
    as [(_ & _ & H) | [(err & _ & H) | [(err & _ & _ & H)
        | [(err & _ & H) | (location & events & H)]]]].
  1-3: rewrite H; split; [reflexivity|];
       exists [];  do 2 eexists; split; [reflexivity | left; reflexivity].
  - rewrite H. split; [reflexivity|].
    exists [EventsList (osGetenv w "GOOGLE_CALENDAR_ID")
                       (time.Format (timeNow w (S (clockReads st)))
                                    time.RFC3339)].
    do 2 eexists. split; [reflexivity|]. right. eauto.
  - exfalso. rewrite (set_up_run_ends location events H) in Hx.
    destruct (existsb (panics rev) events); discriminate.
Qed.

End RunOutcomes.

Lemma how_a_run_ends_witness :
  setupOk main_go (sampleWorld [meeting; noStart; holiday] noContent)
          start0 tokyoZone [meeting; noStart; holiday]
  /\ result (main main_go (sampleWorld [meeting; noStart; holiday] noContent)
                   start0) = Exit 2.
Proof.
  split; [apply sample_setupOk|].
  exact (proj1 (proj2 (how_a_run_ends
                         main_go
                         (sampleWorld [meeting; noStart; holiday] noContent)
                         start0))
               tokyoZone [meeting; noStart; holiday] (sample_setupOk _ _)).
Defined.

Lemma fatal_run_posts_nothing_witness :
  result (main part_000 calendarDown start0) = Exit 1
  /\ posted (effects (main part_000 calendarDown start0)) = [].
Proof.
  assert (H : result (main part_000 calendarDown start0) = Exit 1)
    by (vm_compute; reflexivity).
  split; [exact H|].
  exact (proj1 (fatal_run_posts_nothing part_000 calendarDown start0 H)).
Defined.

Lemma flat_map_at_most_one {A B} (f : A -> list B) (xs : list A) :
  (forall x, List.length (f x) <= 1)%nat ->
  (List.length (flat_map f xs) <= List.length xs)%nat.
Proof.
  intros H. induction xs as [|x rest IH]; [apply le_n|].
  cbn [flat_map]. rewrite length_app. cbn [List.length].
  exact (Nat.add_le_mono _ 1 _ _ (H x) IH).
Qed.

Lemma beforePanic_length rev events :
  (List.length (beforePanic rev events) <= List.length events)%nat.
Proof.
  induction events as [|ev rest IH]; [apply le_n|].
  cbn [beforePanic]. destruct (panics rev ev); cbn [List.length].
  - apply Nat.le_0_l.
  - apply le_n_S. exact IH.
Qed.

Lemma beforePanic_all rev events :
  existsb (panics rev) events = false -> beforePanic rev events = events.
Proof.
  induction events as [|ev rest IH]; [reflexivity|].
  cbn [existsb beforePanic]. destruct (panics rev ev); [discriminate|].
  cbn [orb]. intros H. rewrite (IH H). reflexivity.
Qed.

Section RunRequests.

Variables (rev : Revision) (w : World) (st : Counters).

(** X3. In every run the calendar is asked at most once, and before
    anything is sent to the webhook: the network calls of a run are
    none at all, or the one request to the calendar followed by the
    POSTs. *)
Theorem calendar_asked_once_before_any_post :
  (networkCalls (effects (main rev w st)) = []
   /\ posted (effects (main rev w st)) = [])
  \/ exists calendarID t,
       networkCalls (effects (main rev w st))
       = EventsList calendarID t :: posted (effects (main rev w st)).
Proof.
  destruct (main_cases rev w st)
    as [(_ & _ & H) | [(err & _ & H) | [(err & _ & _ & H)
        | [(err & _ & H) | (location & events & H)]]]].
  1-3: left; rewrite H; split; reflexivity.
  - right. rewrite H. do 2 eexists. reflexivity.
  - right. pose proof (main_run rev w st location events H) as Hm.
    cbv zeta in Hm. rewrite Hm.
    match goal with
    | |- context [forEach events (loopBody rev ?u ?l ?ts ?te) w ?s] =>
        destruct (forEach_loopBody_run rev u l ts te events w s)
          as (_ & Hp & Hn);
        destruct (forEach events (loopBody rev u l ts te) w s)
          as [[r st'] out]
    end.
    unfold effects in *. cbn [snd] in *.
    do 2 eexists. unfold networkCalls, posted in *.
    cbn [filter isNetworkCall isPost]. rewrite Hp, Hn. reflexivity.
Qed.

Variables (location : time.Location) (events : list Event).

(** X4. In a run that is set up, the requests to the webhook are those
    of the events the loop gets through, in the order of the list and
    at most one for each.  The loop gets through all the events when
    none takes its iteration through a nil pointer, and otherwise
    through those before the first that does; the later events get no
    request.  What the webhook answers to one request changes none of
    the others. *)
Theorem requests_of_a_run :
  setupOk rev w st location events ->
  let now := time.In (timeNow w (clockReads st)) location in
  let webhookURL := osGetenv w "DISCORD_WEBHOOK_URL" in
  posted (effects (main rev w st))
  = flat_map (eventPost webhookURL location (tomorrowStart now location)
                        (tomorrowEnd now location)) (beforePanic rev events)
  /\ (existsb (panics rev) events = false -> beforePanic rev events = events)
  /\ (List.length (posted (effects (main rev w st))) <= List.length events)%nat
  /\ forall answer : error + Response,
       posted (effects (main rev (answering w answer) st))
       = posted (effects (main rev w st)).
Proof.
  intros Hset now webhookURL.
  assert (Hp : forall w',
             setupOk rev w' st location events ->
             timeNow w' = timeNow w -> osGetenv w' = osGetenv w ->
             posted (effects (main rev w' st))
             = flat_map (eventPost webhookURL location
                                   (tomorrowStart now location)
                                   (tomorrowEnd now location))
                        (beforePanic rev events)).
  { intros w' Hs Ht He.
    pose proof (main_run rev w' st location events Hs) as Hm.
    cbv zeta in Hm. rewrite Hm. rewrite Ht, He.
    match goal with
    | |- context [forEach events (loopBody rev ?u ?l ?ts ?te) w' ?s] =>
        destruct (forEach_loopBody_run rev u l ts te events w' s)
          as (_ & Hq & _);
        destruct (forEach events (loopBody rev u l ts te) w' s)
          as [[r st'] out]
    end.
    unfold effects in *. cbn [snd] in *.
    unfold posted in *. cbn [filter isPost]. exact Hq. }
  pose proof (Hp w Hset eq_refl eq_refl) as Hw.
  split; [exact Hw|]. split; [apply beforePanic_all|]. split.
  - rewrite Hw.
    apply (Nat.le_trans _ (List.length (beforePanic rev events)));
      [|apply beforePanic_length].
    apply flat_map_at_most_one. intros ev.
    unfold eventPost. destruct (eventTimes ev) as [[[s e] a]|];
      [destruct (inWindow _ _ _ s)|]; cbn [List.length]; auto.
  - intros answer. rewrite Hw. apply Hp; [exact Hset | reflexivity | reflexivity].
Qed.

End RunRequests.

Lemma requests_of_a_run_witness :
  setupOk main_go (sampleWorld [meeting; atMidnight; noEnd; holiday] serverError)
          start0 tokyoZone [meeting; atMidnight; noEnd; holiday]
  /\ posted (effects (main main_go
                           (sampleWorld [meeting; atMidnight; noEnd; holiday]
                                        serverError) start0))
     = [webhookPost hook
          (timedText "Standup" "Room A" "2024-05-11 10:00" "2024-05-11 11:00")].
Proof.
  split; [apply sample_setupOk|].
  rewrite (proj1 (requests_of_a_run
                    main_go (sampleWorld [meeting; atMidnight; noEnd; holiday]
                                         serverError)
                    start0 tokyoZone [meeting; atMidnight; noEnd; holiday]
                    (sample_setupOk _ _))).
  vm_compute. reflexivity.
Defined.

(** ** The notifier and the skipped events *)

Section Outcomes.

Variables (rev : Revision) (w : World) (st : Counters).
Variables (webhookURL : string).

(** X5. In both revisions [sendDiscordNotification] makes exactly one
    request and never ends the process; it returns a transport error
    as it is, no error on status 200, and on every status other than
    200 and 204 an error that carries the status text. *)
Theorem sendDiscordNotification_outcomes :
  forall message : string,
    let answer := httpPost w (posts st) webhookURL [("content", message)] in
    let run := sendDiscordNotification rev webhookURL message w st in
    effects run = [webhookPost webhookURL message]
    /\ counters run = mkCounters (clockReads st) (S (posts st))
    /\ (forall err, answer = inl err -> result run = Done (Some err))
    /\ (forall text,
           answer = inr (mkResponse StatusOK text) -> result run = Done None)
    /\ (forall code text,
           code <> StatusOK -> code <> StatusNoContent ->
           answer = inr (mkResponse code text) ->
           result run
           = Done (Some (Errorf "failed to send notification: %v" [Str text]))).
Proof.
  intros message answer run. subst run.
  rewrite sendDiscordNotification_run. fold answer.
  split; [reflexivity|]. split; [reflexivity|].
  unfold result. cbn [fst].
  split; [intros err ->; reflexivity|].
  split; [intros text ->; rewrite status_200_succeeds; reflexivity|].
  intros code text H1 H2 ->. rewrite other_status_fails by assumption.
  reflexivity.
Qed.

(** X6. An iteration that notifies does three things in order and
    nothing else: it logs the event (in the second revision after the
    six lines it logs about every event), title, description and
    location, and then the all-day line or the start and the end; it
    sends the one request; and it logs how the request went, the error
    if there was one and the success otherwise.  It does not try
    again. *)
Theorem notified_iteration_logs_outcome :
  forall (location : time.Location) (windowStart windowEnd : time.Time)
         (ev : Event),
    let run :=
      loopBody rev webhookURL location windowStart windowEnd ev w st in
    notifies (effects run) = true ->
    exists (startTime endTime : time.Time) (isAllDay : bool),
      eventTimes ev = Some (startTime, endTime, isAllDay)
      /\ (let start := time.In startTime location in
          let end_ := time.In endTime location in
          let text := message ev start end_ isAllDay in
          effects run
          = (eventLines rev ev
             ++ notifiedLines rev ev start end_ isAllDay
             ++ [webhookPost webhookURL text;
                 outcomeLine rev ev
                   (httpPost w (posts st) webhookURL [("content", text)])])%list)
      /\ result run = Done tt
      /\ counters run = mkCounters (clockReads st) (S (posts st)).
Proof.
  intros location ts te ev run Hn. subst run.
  apply notifies_posted in Hn. rewrite loopBody_posted in Hn.
  destruct (eventTimes ev) as [[[s e] a]|] eqn:Et; [|congruence].
  destruct (inWindow location ts te s) eqn:Hw; [|congruence].
  exists s, e, a. split; [reflexivity|].
  rewrite (loopBody_notified rev webhookURL location ts te ev s e a w st Et Hw).
  cbv zeta. split; [reflexivity|]. split; reflexivity.
Qed.

(** X7. An event that has its start and end members and whose start or
    end marker, of the form the loop reads, does not parse is given up
    with a diagnostic and without a request, and the loop goes on: so
    also an all-day event of the target day whose end date is
    malformed, although the end of an all-day event is never shown. *)
Theorem unparsable_marker_skips :
  forall (location : time.Location) (windowStart windowEnd : time.Time)
         (ev : Event) (start end_ : EventDateTime),
    Start ev = Some start ->
    End_ ev = Some end_ ->
    (DateTime start <> ""
     /\ (time.Parse time.RFC3339 (DateTime start) = None
         \/ time.Parse time.RFC3339 (DateTime end_) = None))
    \/ (DateTime start = ""
        /\ (time.Parse "2006-01-02" (Date start) = None
            \/ time.Parse "2006-01-02" (Date end_) = None)) ->
    let run :=
      loopBody rev webhookURL location windowStart windowEnd ev w st in
    result run = Done tt
    /\ counters run = st
    /\ notifies (effects run) = false
    /\ existsb isDiagnostic (effects run) = true.
Proof.
  intros location ts te ev start end_ Hs He H run. subst run.
  pose proof (panics_present rev ev start end_ Hs He) as Hp.
  assert (HT : eventTimes ev = None).
  { unfold eventTimes. rewrite Hs, He. cbn [markers].
    destruct H as [[H0 H] | [H0 H]].
    - destruct (String.eqb_spec (DateTime start) ""); [contradiction|].
      cbn [negb]. destruct H as [-> | ->]; [reflexivity|].
      destruct (time.Parse time.RFC3339 (DateTime start)); reflexivity.
    - rewrite H0. cbn [String.eqb negb].
      destruct (negb (Date start =? "")%string); [|reflexivity].
      destruct H as [-> | ->]; [reflexivity|].
      destruct (time.Parse "2006-01-02" (Date start)); reflexivity. }
  destruct (loopBody_diagnostic rev webhookURL location ts te ev w st Hp HT)
    as [Hrun Hd].
  split; [rewrite Hrun; reflexivity|].
  split; [rewrite Hrun; reflexivity|].
  split; [|exact Hd].
  apply notifies_no_post. rewrite loopBody_posted, HT. reflexivity.
Qed.

(** X17. An iteration on an event without its start member, or without
    its end member where the loop reads it, ends the run by a panic:
    status 2, no diagnostic and no request.  The second revision reads
    both members for the lines it logs about every event; the first
    reads the end member once the start marker is parsed. *)
Theorem absent_member_ends_the_run :
  forall (location : time.Location) (windowStart windowEnd : time.Time)
         (ev : Event),
    Start ev = None
    \/ (End_ ev = None /\ rev = part_000)
    \/ (End_ ev = None
        /\ exists start t,
             Start ev = Some start
             /\ ((DateTime start <> ""
                  /\ time.Parse time.RFC3339 (DateTime start) = Some t)
                 \/ (DateTime start = ""
                     /\ time.Parse "2006-01-02" (Date start) = Some t))) ->
    let run :=
      loopBody rev webhookURL location windowStart windowEnd ev w st in
    result run = Exit 2
    /\ counters run = st
    /\ notifies (effects run) = false
    /\ existsb isDiagnostic (effects run) = false.
Proof.
  intros location ts te ev H run. subst run. unfold loopBody, logEvent.
  destruct H as [Hs | [[He ->] | (He & start & t & Hs & H)]].
  - rewrite Hs. destruct rev; repeat split; reflexivity.
  - rewrite He. destruct (Start ev); repeat split; reflexivity.
  - rewrite Hs, He.
    assert (Hdate : forall v, time.Parse "2006-01-02" v = Some t ->
                              (v =? "")%string = false).
    { intros v Hv. destruct (String.eqb_spec v "") as [->|]; [|reflexivity].
      rewrite Parse_date_empty in Hv. discriminate. }
    destruct H as [[H0 Ht] | [H0 Ht]].
    + apply String.eqb_neq in H0.
      destruct rev; run; rewrite ?H0; cbn [negb]; rewrite ?Ht;
        repeat split; reflexivity.
    + pose proof (Hdate _ Ht) as H1.
      destruct rev; run; rewrite ?H0; cbn [String.eqb negb];
        rewrite ?H1; cbn [negb]; rewrite ?Ht; repeat split; reflexivity.
Qed.

End Outcomes.

Lemma sendDiscordNotification_outcomes_witness :
  500 <> StatusOK /\ 500 <> StatusNoContent
  /\ result (sendDiscordNotification part_000 hook "text"
               (sampleWorld [] serverError) start0)
     = Done (Some (Errorf "failed to send notification: %v"
                          [Str "500 Internal Server Error"])).
Proof.
  split; [discriminate|]. split; [discriminate|].
  apply (proj2 (proj2 (proj2 (proj2
           (sendDiscordNotification_outcomes
              part_000 (sampleWorld [] serverError) start0 hook "text"))))
         500 "500 Internal Server Error");
    [discriminate | discriminate | reflexivity].
Defined.

Lemma notified_iteration_logs_outcome_witness :
  notifies
    (effects (loopBody main_go hook tokyoZone (tomorrowStart sampleNow tokyoZone)
                       (tomorrowEnd sampleNow tokyoZone) holiday
                       (sampleWorld [holiday] serverError) start0)) = true
  /\ effects (loopBody main_go hook tokyoZone
                       (tomorrowStart sampleNow tokyoZone)
                       (tomorrowEnd sampleNow tokyoZone) holiday
                       (sampleWorld [holiday] serverError) start0)
     = [Log (Printf "イベント名: %s" [Str "Holiday"]);
        Log (Printf "説明: %s" [Str ""]);
        Log (Printf "場所: %s" [Str "Office"]);
        Log (Printf "終日イベント: %s" [Str "Holiday"]);
        webhookPost hook (allDayText "Holiday" "Office");
        Log (Printf "Error sending Discord notification: %v"
               [Err (Errorf "failed to send notification: %v"
                            [Str "500 Internal Server Error"])])].
Proof.
  assert (H : notifies
                (effects (loopBody main_go hook tokyoZone
                                   (tomorrowStart sampleNow tokyoZone)
                                   (tomorrowEnd sampleNow tokyoZone) holiday
                                   (sampleWorld [holiday] serverError) start0))
              = true)
    by (vm_compute; reflexivity).
  split; [exact H|].
  destruct (notified_iteration_logs_outcome
              main_go (sampleWorld [holiday] serverError) start0 hook
              tokyoZone (tomorrowStart sampleNow tokyoZone)
              (tomorrowEnd sampleNow tokyoZone) holiday H)
    as (s & e & a & Ht & He & _).
  cbv zeta in He. rewrite He.
  assert (Hs : Some (s, e, a) = Some (holidayStart, holidayEnd, true))
    by (rewrite <- Ht; vm_compute; reflexivity).
  injection Hs as -> -> ->. vm_compute. reflexivity.
Defined.

Lemma unparsable_marker_skips_witness :
  (Start badEnd = Some (mkEventDateTime "2024-05-11" "")
   /\ End_ badEnd = Some (mkEventDateTime "2024-05-1x" "")
   /\ time.Parse "2006-01-02" "2024-05-1x" = None)
  /\ notifies
       (effects (loopBody part_000 hook tokyoZone
                          (tomorrowStart sampleNow tokyoZone)
                          (tomorrowEnd sampleNow tokyoZone) badEnd
                          (sampleWorld [badEnd] noContent) start0)) = false.
Proof.
  assert (H : time.Parse "2006-01-02" "2024-05-1x" = None)
    by (vm_compute; reflexivity).
  split; [split; [reflexivity|]; split; [reflexivity | exact H]|].
  exact (proj1 (proj2 (proj2
           (unparsable_marker_skips
              part_000 (sampleWorld [badEnd] noContent) start0 hook tokyoZone
              (tomorrowStart sampleNow tokyoZone)
              (tomorrowEnd sampleNow tokyoZone) badEnd
              (mkEventDateTime "2024-05-11" "") (mkEventDateTime "2024-05-1x" "")
              eq_refl eq_refl
              (or_intror (conj eq_refl (or_intror H))))))).
Defined.

Lemma absent_member_ends_the_run_witness :
  End_ noEnd = None
  /\ time.Parse time.RFC3339 "2024-05-11T13:00:00+09:00"
     = Some (time.mkTime 1715400000 0 (time.FixedZone "" 32400))
  /\ result (loopBody main_go hook tokyoZone
                      (tomorrowStart sampleNow tokyoZone)
                      (tomorrowEnd sampleNow tokyoZone) noEnd
                      (sampleWorld [noEnd] noContent) start0) = Exit 2.
Proof.
  assert (H : time.Parse time.RFC3339 "2024-05-11T13:00:00+09:00"
              = Some (time.mkTime 1715400000 0 (time.FixedZone "" 32400)))
    by (vm_compute; reflexivity).
  split; [reflexivity|]. split; [exact H|].
  refine (proj1 (absent_member_ends_the_run
                   main_go (sampleWorld [noEnd] noContent) start0 hook tokyoZone
                   (tomorrowStart sampleNow tokyoZone)
                   (tomorrowEnd sampleNow tokyoZone) noEnd _)).
  right. right. split; [reflexivity|].
  exists (mkEventDateTime "" "2024-05-11T13:00:00+09:00"),
         (time.mkTime 1715400000 0 (time.FixedZone "" 32400)).
  split; [reflexivity|]. left. split; [discriminate | exact H].
Defined.

(** ** Which day the window is *)

Section WindowDay.

Import time.

(** A midnight in UTC inside the window of a zone nine hours east is
    the midnight of the target date. *)
Lemma midnight_in_window now l c :
  zoneOffset l = 9 * 60 * 60 ->
  let t := mkTime ((c - unixEpochDays) * secondsPerDay) 0 UTC in
  UnixNano (tomorrowStart now l) < UnixNano t < UnixNano (tomorrowEnd now l) ->
  date t = date (tomorrowStart now l).
Proof.
  intros Hoff t. subst t.
  rewrite tomorrowEnd_eq. rewrite tomorrowStart_eq.
  generalize (abs now / secondsPerDay). intros D.
  unfold date, abs, UnixNano. cbn [unixSec nsec loc zoneOffset UTC].
  rewrite Hoff. unfold secondsPerDay, unixEpochDays.
  intros H. f_equal. Z.div_mod_to_equations. lia.
Qed.

(** An instant whose clock in the zone reads 00:00:00.0 is not strictly
    inside the window. *)
Lemma midnight_not_inside now l t :
  Hour_ (In t l) = 0 -> Minute (In t l) = 0 -> Second_ (In t l) = 0 ->
  nsec t = 0 ->
  ~ (UnixNano (tomorrowStart now l) < UnixNano t < UnixNano (tomorrowEnd now l)).
Proof.
  rewrite tomorrowEnd_eq. rewrite tomorrowStart_eq.
  generalize (abs now / secondsPerDay). intros D.
  unfold Hour_, Minute, Second_, abs, In, UnixNano.
  cbn [unixSec nsec loc]. unfold secondsPerDay, unixEpochDays.
  intros Hh Hm Hs Hn. rewrite Hn.
  Z.div_mod_to_equations. lia.
Qed.

(** The window starts after [now] and no more than 24 hours after it. *)
Lemma window_ahead t l :
  wellFormed t ->
  UnixNano t < UnixNano (tomorrowStart (In t l) l)
  /\ UnixNano (tomorrowStart (In t l) l) <= UnixNano t + 24 * Hour.
Proof.
  intros Ht. rewrite tomorrowStart_eq.
  unfold abs, In, UnixNano, wellFormed in *. cbn [unixSec nsec loc].
  unfold secondsPerDay, unixEpochDays, Hour, Second.
  Z.div_mod_to_equations. lia.
Qed.

(** The window depends on the day of [now] only. *)
Lemma same_day_window now now' l :
  date now = date now' -> tomorrowStart now l = tomorrowStart now' l.
Proof.
  intros H. rewrite !tomorrowStart_eq. unfold date in H.
  apply absDate_inj in H. rewrite H. reflexivity.
Qed.

Lemma next_day_window now now' l :
  date now' = date (tomorrowStart now l) ->
  tomorrowStart now' l = tomorrowEnd now l.
Proof.
  rewrite tomorrowEnd_eq. rewrite !tomorrowStart_eq.
  unfold date at 1 2. intros H. apply absDate_inj in H.
  rewrite H. unfold abs. cbn [unixSec loc]. f_equal.
  generalize (unixSec now + zoneOffset (loc now) + unixEpochDays * secondsPerDay).
  intros a. unfold secondsPerDay, unixEpochDays.
  Z.div_mod_to_equations. lia.
Qed.

End WindowDay.

Section WhichEvents.

Variables (rev : Revision) (webhookURL : string) (location : time.Location).
Variables (w : World) (st : Counters).

(** X8. With the zone nine hours east of UTC, an all-day event is
    notified if and only if its start date is the target day: the
    all-day events of every other day are left out. *)
Theorem all_day_notified_iff_target_day :
  forall (now : time.Time) (ev : Event) (startTime endTime : time.Time),
    time.zoneOffset location = 9 * 60 * 60 ->
    DateTime (markers (Start ev)) = "" ->
    time.Parse "2006-01-02" (Date (markers (Start ev))) = Some startTime ->
    time.Parse "2006-01-02" (Date (markers (End_ ev))) = Some endTime ->
    notifies
      (effects (loopBody rev webhookURL location (tomorrowStart now location)
                         (tomorrowEnd now location) ev w st)) = true
    <-> time.date startTime = time.date (tomorrowStart now location).
Proof.
  intros now ev s e Hoff H0 Hs He.
  destruct (loopBody_allDay rev webhookURL location
              (tomorrowStart now location) (tomorrowEnd now location)
              ev s e w st H0 Hs He) as [_ Hp].
  pose proof (window_test now location s (Parse_wellFormed _ _ _ Hs)) as Hw.
  destruct (Parse_date_unix _ _ Hs) as (y & m & d & Hm & Hd & Es).
  rewrite notifies_posted, Hp.
  split.
  - intros Hn.
    assert (Hin : inWindow location (tomorrowStart now location)
                           (tomorrowEnd now location) s = true)
      by (destruct (inWindow _ _ _ s); congruence).
    apply Hw in Hin. rewrite Es in Hin |- *.
    exact (midnight_in_window now location _ Hoff Hin).
  - intros Hday.
    assert (Hex : exists y m d,
               s = time.mkTime ((time.civilDays y m d - time.unixEpochDays)
                                * time.secondsPerDay) 0 time.UTC)
      by (exists y, m, d; exact Es).
    destruct (target_day_midnight now location s Hoff Hex Hday)
      as (_ & _ & _ & _ & _ & _ & _ & _ & A9).
    apply Hw in A9. rewrite A9. discriminate.
Qed.

(** X9. A timed event is notified if and only if it starts on the
    target day of the zone and not at the very instant the day begins. *)
Theorem timed_notified_iff_on_target_day_after_midnight :
  forall (now : time.Time) (ev : Event) (startTime endTime : time.Time),
    time.Parse time.RFC3339 (DateTime (markers (Start ev))) = Some startTime ->
    time.Parse time.RFC3339 (DateTime (markers (End_ ev))) = Some endTime ->
    notifies
      (effects (loopBody rev webhookURL location (tomorrowStart now location)
                         (tomorrowEnd now location) ev w st)) = true
    <-> time.date (time.In startTime location)
        = time.date (tomorrowStart now location)
        /\ UnixNano startTime <> UnixNano (tomorrowStart now location).
Proof.
  intros now ev s e Hs He.
  destruct (loopBody_timed rev webhookURL location
              (tomorrowStart now location) (tomorrowEnd now location)
              ev s e w st Hs He) as [_ Hp].
  pose proof (Parse_wellFormed _ _ _ Hs) as Hwf.
  pose proof (window_test now location s Hwf) as Hw.
  pose proof (window_is_target_day now location s Hwf) as Hd.
  rewrite notifies_posted, Hp.
  split.
  - intros Hn.
    assert (Hin : inWindow location (tomorrowStart now location)
                           (tomorrowEnd now location) s = true)
      by (destruct (inWindow _ _ _ s); congruence).
    apply Hw in Hin. split; [apply Hd; lia | lia].
  - intros [Hday Hne]. apply Hd in Hday.
    assert (Hin : inWindow location (tomorrowStart now location)
                           (tomorrowEnd now location) s = true)
      by (apply Hw; lia).
    rewrite Hin. discriminate.
Qed.

(** X10. A timed event that starts when the clock of the zone reads
    00:00:00 exactly is notified by no run, on whatever day the run
    takes place. *)
Theorem midnight_event_never_notified :
  forall (now : time.Time) (ev : Event) (startTime endTime : time.Time),
    time.Parse time.RFC3339 (DateTime (markers (Start ev))) = Some startTime ->
    time.Parse time.RFC3339 (DateTime (markers (End_ ev))) = Some endTime ->
    time.Hour_ (time.In startTime location) = 0 ->
    time.Minute (time.In startTime location) = 0 ->
    time.Second_ (time.In startTime location) = 0 ->
    time.nsec startTime = 0 ->
    notifies
      (effects (loopBody rev webhookURL location (tomorrowStart now location)
                         (tomorrowEnd now location) ev w st)) = false.
Proof.
  intros now ev s e Hs He Hh Hm Hsec Hn.
  destruct (loopBody_timed rev webhookURL location
              (tomorrowStart now location) (tomorrowEnd now location)
              ev s e w st Hs He) as [_ Hp].
  pose proof (window_test now location s (Parse_wellFormed _ _ _ Hs)) as Hw.
  apply notifies_no_post. rewrite Hp.
  destruct (inWindow _ _ _ s) eqn:Hin; [|reflexivity].
  exfalso. apply (midnight_not_inside now location s Hh Hm Hsec Hn).
  apply Hw. reflexivity.
Qed.

(** X11. The window lies ahead of the clock reading it is computed
    from: it starts after that instant, at most 24 hours after it, and
    it is 24 hours long. *)
Theorem window_is_ahead_of_now :
  forall t : time.Time,
    wellFormed t ->
    let now := time.In t location in
    UnixNano t < UnixNano (tomorrowStart now location)
    /\ UnixNano (tomorrowStart now location) <= UnixNano t + 24 * time.Hour
    /\ UnixNano (tomorrowEnd now location)
       = UnixNano (tomorrowStart now location) + 24 * time.Hour.
Proof.
  intros t Ht now. subst now.
  destruct (window_ahead t location Ht) as [A B].
  split; [exact A|]. split; [exact B|].
  rewrite tomorrowEnd_eq.
  generalize (tomorrowStart_wellFormed (time.In t location) location).
  rewrite tomorrowStart_eq. unfold UnixNano, wellFormed.
  cbn [time.unixSec time.nsec].
  unfold time.secondsPerDay, time.Hour, time.Second. lia.
Qed.

(** X12. A timed event that has started when the run reads the clock
    is not notified, and neither is one that starts 48 hours later or
    more. *)
Theorem started_or_distant_event_not_notified :
  forall (t : time.Time) (ev : Event) (startTime endTime : time.Time),
    wellFormed t ->
    time.Parse time.RFC3339 (DateTime (markers (Start ev))) = Some startTime ->
    time.Parse time.RFC3339 (DateTime (markers (End_ ev))) = Some endTime ->
    UnixNano startTime <= UnixNano t
    \/ UnixNano t + 48 * time.Hour <= UnixNano startTime ->
    let now := time.In t location in
    notifies
      (effects (loopBody rev webhookURL location (tomorrowStart now location)
                         (tomorrowEnd now location) ev w st)) = false.
Proof.
  intros t ev s e Ht Hs He Hout now. subst now.
  destruct (loopBody_timed rev webhookURL location
              (tomorrowStart (time.In t location) location)
              (tomorrowEnd (time.In t location) location)
              ev s e w st Hs He) as [_ Hp].
  pose proof (window_test (time.In t location) location s
                (Parse_wellFormed _ _ _ Hs)) as Hw.
  apply notifies_no_post. rewrite Hp.
  destruct (inWindow _ _ _ s) eqn:Hin; [|reflexivity].
  exfalso. pose proof (proj1 Hw eq_refl) as Hin'.
  destruct (window_ahead t location Ht) as [A B].
  assert (E : UnixNano (tomorrowEnd (time.In t location) location)
              = UnixNano (tomorrowStart (time.In t location) location)
                + 24 * time.Hour).
  { rewrite tomorrowEnd_eq.
    generalize (tomorrowStart_wellFormed (time.In t location) location).
    rewrite tomorrowStart_eq. unfold UnixNano, wellFormed.
    cbn [time.unixSec time.nsec].
    unfold time.secondsPerDay, time.Hour, time.Second. lia. }
  unfold time.Hour, time.Second in *. lia.
Qed.

(** X13. Two runs on the same day of the zone have the same window,
    whatever the hour of the run; and the window of a run on the
    target day starts at the instant at which this window ends. *)
Theorem window_of_the_day :
  forall now now' : time.Time,
    (time.date now = time.date now' ->
     tomorrowStart now location = tomorrowStart now' location
     /\ tomorrowEnd now location = tomorrowEnd now' location)
    /\ (time.date now' = time.date (tomorrowStart now location) ->
        tomorrowStart now' location = tomorrowEnd now location).
Proof.
  intros now now'. split.
  - intros H. pose proof (same_day_window now now' location H) as E.
    split; [exact E|]. unfold tomorrowEnd. rewrite E. reflexivity.
  - apply next_day_window.
Qed.

End WhichEvents.

Lemma all_day_notified_iff_target_day_witness :
  time.zoneOffset tokyoZone = 9 * 60 * 60
  /\ DateTime (markers (Start holiday)) = ""
  /\ time.Parse "2006-01-02" (Date (markers (Start holiday))) = Some holidayStart
  /\ time.Parse "2006-01-02" (Date (markers (End_ holiday))) = Some holidayEnd
  /\ time.date holidayStart = time.date (tomorrowStart sampleNow tokyoZone).
Proof.
  split; [reflexivity|]. split; [reflexivity|].
  split; [vm_compute; reflexivity|]. split; [vm_compute; reflexivity|].
  apply (proj1 (all_day_notified_iff_target_day
                  part_000 hook tokyoZone (sampleWorld [holiday] noContent)
                  start0 sampleNow holiday holidayStart holidayEnd
                  eq_refl eq_refl ltac:(vm_compute; reflexivity)
                  ltac:(vm_compute; reflexivity))).
  vm_compute. reflexivity.
Defined.

Lemma timed_notified_iff_on_target_day_after_midnight_witness :
  time.Parse time.RFC3339 (DateTime (markers (Start meeting))) = Some meetingStart
  /\ time.Parse time.RFC3339 (DateTime (markers (End_ meeting))) = Some meetingEnd
  /\ time.date (time.In meetingStart tokyoZone)
     = time.date (tomorrowStart sampleNow tokyoZone).
Proof.
  split; [vm_compute; reflexivity|]. split; [vm_compute; reflexivity|].
  apply (proj1 (timed_notified_iff_on_target_day_after_midnight
                  part_000 hook tokyoZone (sampleWorld [meeting] noContent)
                  start0 sampleNow meeting meetingStart meetingEnd
                  ltac:(vm_compute; reflexivity)
                  ltac:(vm_compute; reflexivity))).
  vm_compute. reflexivity.
Defined.

Lemma midnight_event_never_notified_witness :
  time.Parse time.RFC3339 (DateTime (markers (Start atMidnight))) = Some atMidnightStart
  /\ time.Parse time.RFC3339 (DateTime (markers (End_ atMidnight))) = Some atMidnightEnd
  /\ time.Hour_ (time.In atMidnightStart tokyoZone) = 0
  /\ time.Minute (time.In atMidnightStart tokyoZone) = 0
  /\ time.Second_ (time.In atMidnightStart tokyoZone) = 0
  /\ time.nsec atMidnightStart = 0
  /\ notifies
       (effects (loopBody main_go hook tokyoZone
                          (tomorrowStart sampleNow tokyoZone)
                          (tomorrowEnd sampleNow tokyoZone) atMidnight
                          (sampleWorld [atMidnight] noContent) start0)) = false.
Proof.
  split; [vm_compute; reflexivity|]. split; [vm_compute; reflexivity|].
  split; [reflexivity|]. split; [reflexivity|]. split; [reflexivity|].
  split; [reflexivity|].
  exact (midnight_event_never_notified
           main_go hook tokyoZone (sampleWorld [atMidnight] noContent) start0
           sampleNow atMidnight atMidnightStart atMidnightEnd
           ltac:(vm_compute; reflexivity) ltac:(vm_compute; reflexivity)
           eq_refl eq_refl eq_refl eq_refl).
Defined.

Lemma sampleNow_wellFormed : wellFormed sampleNow.
Proof. unfold wellFormed. vm_compute. split; [discriminate | reflexivity]. Qed.

Lemma window_is_ahead_of_now_witness :
  wellFormed sampleNow
  /\ UnixNano sampleNow
     < UnixNano (tomorrowStart (time.In sampleNow tokyoZone) tokyoZone).
Proof.
  split; [exact sampleNow_wellFormed|].
  exact (proj1 (window_is_ahead_of_now tokyoZone sampleNow sampleNow_wellFormed)).
Defined.

Lemma started_or_distant_event_not_notified_witness :
  wellFormed sampleNow
  /\ time.Parse time.RFC3339 (DateTime (markers (Start underWay))) = Some underWayStart
  /\ time.Parse time.RFC3339 (DateTime (markers (End_ underWay))) = Some underWayEnd
  /\ UnixNano underWayStart <= UnixNano sampleNow
  /\ notifies
       (effects (loopBody part_000 hook tokyoZone
                          (tomorrowStart (time.In sampleNow tokyoZone) tokyoZone)
                          (tomorrowEnd (time.In sampleNow tokyoZone) tokyoZone)
                          underWay (sampleWorld [underWay] noContent) start0))
     = false.
Proof.
  assert (H : UnixNano underWayStart <= UnixNano sampleNow)
    by (vm_compute; discriminate).
  split; [exact sampleNow_wellFormed|].
  split; [vm_compute; reflexivity|]. split; [vm_compute; reflexivity|].
  split; [exact H|].
  exact (started_or_distant_event_not_notified
           part_000 hook tokyoZone (sampleWorld [underWay] noContent) start0
           sampleNow underWay underWayStart underWayEnd sampleNow_wellFormed
           ltac:(vm_compute; reflexivity) ltac:(vm_compute; reflexivity)
           (or_introl H)).
Defined.

Lemma window_of_the_day_witness :
  time.date nextNow = time.date (tomorrowStart sampleNow tokyoZone)
  /\ tomorrowStart nextNow tokyoZone = tomorrowEnd sampleNow tokyoZone.
Proof.
  assert (H : time.date nextNow = time.date (tomorrowStart sampleNow tokyoZone))
    by (vm_compute; reflexivity).
  split; [exact H|].
  exact (proj2 (window_of_the_day tokyoZone sampleNow nextNow) H).
Defined.

(** ** What the request shows *)

Section WhatIsSent.

Variables (rev : Revision) (webhookURL : string) (location : time.Location).
Variables (w : World) (st : Counters).

Lemma same_instant_In s s' :
  wellFormed s -> wellFormed s' -> UnixNano s = UnixNano s' ->
  time.In s location = time.In s' location.
Proof.
  unfold wellFormed, UnixNano, time.In. intros Hs Hs' H.
  assert (time.unixSec s = time.unixSec s') by lia.
  assert (time.nsec s = time.nsec s') by lia.
  congruence.
Qed.

(** X14. The offset in which the calendar writes a timestamp does not
    matter: two events alike but for the spelling of their timestamps,
    which denote the same instants, give the same request, with the
    times shown in the zone of the program. *)
Theorem same_instant_same_request :
  forall (windowStart windowEnd : time.Time) (ev : Event)
         (start' end' : string) (s e s' e' : time.Time),
    time.Parse time.RFC3339 (DateTime (markers (Start ev))) = Some s ->
    time.Parse time.RFC3339 (DateTime (markers (End_ ev))) = Some e ->
    time.Parse time.RFC3339 start' = Some s' ->
    time.Parse time.RFC3339 end' = Some e' ->
    UnixNano s = UnixNano s' -> UnixNano e = UnixNano e' ->
    posted (effects (loopBody rev webhookURL location windowStart windowEnd
                              (withDateTimes ev start' end') w st))
    = posted (effects (loopBody rev webhookURL location windowStart windowEnd
                                ev w st)).
Proof.
  intros ts te ev start' end' s e s' e' Hs He Hs' He' Es Ee.
  destruct (loopBody_timed rev webhookURL location ts te ev s e w st Hs He)
    as [_ ->].
  destruct (loopBody_timed rev webhookURL location ts te
              (withDateTimes ev start' end') s' e' w st Hs' He') as [_ ->].
  unfold inWindow.
  rewrite (same_instant_In s s' (Parse_wellFormed _ _ _ Hs)
             (Parse_wellFormed _ _ _ Hs') Es).
  rewrite (same_instant_In e e' (Parse_wellFormed _ _ _ He)
             (Parse_wellFormed _ _ _ He') Ee).
  reflexivity.
Qed.

(** X15. The identifier and the description of an event are logged and
    never sent: another identifier or description gives the same
    requests. *)
Theorem id_and_description_are_not_sent :
  forall (windowStart windowEnd : time.Time) (ev : Event)
         (id description : string),
    posted (effects (loopBody rev webhookURL location windowStart windowEnd
                              (withIdDescription ev id description) w st))
    = posted (effects (loopBody rev webhookURL location windowStart windowEnd
                                ev w st)).
Proof.
  intros ts te ev id description. rewrite !loopBody_posted.
  change (eventTimes (withIdDescription ev id description))
    with (eventTimes ev).
  destruct (eventTimes ev) as [[[s e] a]|]; reflexivity.
Qed.

(** X16. The start shown in the request of a notified timed event is on
    the target day: the date of the window start, then the hour and the
    minute of the start in the zone. *)
Theorem timed_message_shows_target_date :
  forall (now : time.Time) (ev : Event) (startTime endTime : time.Time),
    time.Parse time.RFC3339 (DateTime (markers (Start ev))) = Some startTime ->
    time.Parse time.RFC3339 (DateTime (markers (End_ ev))) = Some endTime ->
    let windowStart := tomorrowStart now location in
    let out :=
      effects (loopBody rev webhookURL location windowStart
                        (tomorrowEnd now location) ev w st) in
    let start := time.In startTime location in
    notifies out = true ->
    posted out
    = [webhookPost webhookURL
         (timedText (Summary ev) (Location ev)
                    (dateStamp windowStart ++ " "
                     ++ time.appendInt (time.Hour_ start) 2 ++ ":"
                     ++ time.appendInt (time.Minute start) 2)
                    (minuteStamp (time.In endTime location)))].
Proof.
  intros now ev s e Hs He windowStart out start Hn.
  subst out windowStart start.
  destruct (loopBody_timed rev webhookURL location
              (tomorrowStart now location) (tomorrowEnd now location)
              ev s e w st Hs He) as [_ Hp].
  pose proof (Parse_wellFormed _ _ _ Hs) as Hwf.
  pose proof (window_test now location s Hwf) as Hw.
  pose proof (window_is_target_day now location s Hwf) as Hd.
  apply notifies_posted in Hn. rewrite Hp in Hn |- *.
  destruct (inWindow _ _ _ s); [|congruence].
  pose proof (proj1 Hw eq_refl) as Hin.
  assert (Hday : time.date (time.In s location)
                 = time.date (tomorrowStart now location))
    by (apply Hd; lia).
  rewrite message_timed, minuteStamp_dateStamp.
  unfold dateStamp, time.Year, time.Month, time.Day. rewrite Hday.
  reflexivity.
Qed.

End WhatIsSent.

Lemma same_instant_same_request_witness :
  time.Parse time.RFC3339 (DateTime (markers (Start meeting))) = Some meetingStart
  /\ time.Parse time.RFC3339 (DateTime (markers (End_ meeting))) = Some meetingEnd
  /\ time.Parse time.RFC3339 "2024-05-11T01:00:00Z" = Some meetingStartUTC
  /\ time.Parse time.RFC3339 "2024-05-11T02:00:00Z" = Some meetingEndUTC
  /\ UnixNano meetingStart = UnixNano meetingStartUTC
  /\ UnixNano meetingEnd = UnixNano meetingEndUTC
  /\ posted (effects (loopBody part_000 hook tokyoZone
                               (tomorrowStart sampleNow tokyoZone)
                               (tomorrowEnd sampleNow tokyoZone) meetingInUTC
                               (sampleWorld [meetingInUTC] noContent) start0))
     = posted (effects (loopBody part_000 hook tokyoZone
                                 (tomorrowStart sampleNow tokyoZone)
                                 (tomorrowEnd sampleNow tokyoZone) meeting
                                 (sampleWorld [meetingInUTC] noContent) start0)).
Proof.
  split; [vm_compute; reflexivity|]. split; [vm_compute; reflexivity|].
  split; [vm_compute; reflexivity|]. split; [vm_compute; reflexivity|].
  split; [reflexivity|]. split; [reflexivity|].
  exact (same_instant_same_request
           part_000 hook tokyoZone (sampleWorld [meetingInUTC] noContent) start0
           (tomorrowStart sampleNow tokyoZone) (tomorrowEnd sampleNow tokyoZone)
           meeting "2024-05-11T01:00:00Z" "2024-05-11T02:00:00Z"
           meetingStart meetingEnd meetingStartUTC meetingEndUTC
           ltac:(vm_compute; reflexivity) ltac:(vm_compute; reflexivity)
           ltac:(vm_compute; reflexivity) ltac:(vm_compute; reflexivity)
           eq_refl eq_refl).
Defined.

Lemma timed_message_shows_target_date_witness :
  time.Parse time.RFC3339 (DateTime (markers (Start meeting))) = Some meetingStart
  /\ time.Parse time.RFC3339 (DateTime (markers (End_ meeting))) = Some meetingEnd
  /\ notifies
       (effects (loopBody main_go hook tokyoZone
                          (tomorrowStart sampleNow tokyoZone)
                          (tomorrowEnd sampleNow tokyoZone) meeting
                          (sampleWorld [meeting] noContent) start0)) = true
  /\ posted
       (effects (loopBody main_go hook tokyoZone
                          (tomorrowStart sampleNow tokyoZone)
                          (tomorrowEnd sampleNow tokyoZone) meeting
                          (sampleWorld [meeting] noContent) start0))
     = [webhookPost hook
          (timedText "Standup" "Room A"
             (dateStamp (tomorrowStart sampleNow tokyoZone) ++ " "
              ++ time.appendInt (time.Hour_ (time.In meetingStart tokyoZone)) 2
              ++ ":"
              ++ time.appendInt (time.Minute (time.In meetingStart tokyoZone)) 2)
             (minuteStamp (time.In meetingEnd tokyoZone)))].
Proof.
  assert (Hn : notifies
                 (effects (loopBody main_go hook tokyoZone
                                    (tomorrowStart sampleNow tokyoZone)
                                    (tomorrowEnd sampleNow tokyoZone) meeting
                                    (sampleWorld [meeting] noContent) start0))
               = true)
    by (vm_compute; reflexivity).
  split; [vm_compute; reflexivity|]. split; [vm_compute; reflexivity|].
  split; [exact Hn|].
  exact (timed_message_shows_target_date
           main_go hook tokyoZone (sampleWorld [meeting] noContent) start0
           sampleNow meeting meetingStart meetingEnd
           ltac:(vm_compute; reflexivity) ltac:(vm_compute; reflexivity) Hn).
Defined.
